(** * Cost estimation engine of terracost: a shallow embedding

    The development follows the Go packages of the repository:
    [decimal] (the arbitrary-precision decimals of shopspring/decimal that
    the engine computes with), [product], [price] and [query] (the catalog
    and query data model), [cost] (the state builder [NewState], [State.Cost]
    and [addComponent]), the azurerm virtual network gateway generator and
    the report printer [estimateDisplay] of the command-line tool. *)

From Stdlib Require Import ZArith QArith Qpower Lia.
From stdpp Require Import gmap strings list fin_maps.

Local Open Scope Z_scope.

(** ** Decimals (github.com/shopspring/decimal)

    A decimal is [value * 10 ^ exp] with [value] a big integer. The library
    stores [exp] in an int32 and [Mul] refuses an exponent sum outside int32;
    exponents are unbounded integers here, so the embedding describes the
    runs in which that guard does not fire (in [NewState] the only product
    is by [NewFromInt 730], whose exponent is 0, so the sum is the
    exponent of the other factor). *)
Module decimal.

Record Decimal : Type := mkDecimal { value : Z; exp : Z }.

(** The zero value [Decimal{}] of the Go struct: a nil big integer, read as
    0 by [ensureInitialized], and exponent 0. *)
Definition zeroValue : Decimal := mkDecimal 0 0.

(** [New(value, exp)]. *)
Definition New (v e : Z) : Decimal := mkDecimal v e.

(** [var Zero = New(0, 1)]. *)
Definition Zero : Decimal := New 0 1.

(** [NewFromInt(value)]: exponent 0. *)
Definition NewFromInt (v : Z) : Decimal := mkDecimal v 0.

(** [d.rescale(exp)]: the same number with another exponent; towards a
    larger exponent the value is truncated ([big.Int.Quo]). *)
Definition rescale (d : Decimal) (e : Z) : Decimal :=
  if exp d =? e then d
  else
    let diff := Z.abs (e - exp d) in
    let expScale := 10 ^ diff in
    if exp d <? e then mkDecimal (Z.quot (value d) expScale) e
    else mkDecimal (value d * expScale) e.

(** [RescalePair(d1, d2)]: both at the smaller exponent. *)
Definition RescalePair (d1 d2 : Decimal) : Decimal * Decimal :=
  if exp d1 =? exp d2 then (d1, d2)
  else
    let baseScale := Z.min (exp d1) (exp d2) in
    if negb (baseScale =? exp d1) then (rescale d1 baseScale, d2)
    else (d1, rescale d2 baseScale).

(** [d.Add(d2)]. *)
Definition Add (d d2 : Decimal) : Decimal :=
  let '(rd, rd2) := RescalePair d d2 in
  mkDecimal (value rd + value rd2) (exp rd).

(** [d.Mul(d2)]. *)
Definition Mul (d d2 : Decimal) : Decimal :=
  mkDecimal (value d * value d2) (exp d + exp d2).

(** [d.Cmp(d2)]: -1, 0 or 1, as a [comparison]. *)
Definition Cmp (d d2 : Decimal) : comparison :=
  if exp d =? exp d2 then value d ?= value d2
  else
    let '(rd, rd2) := RescalePair d d2 in
    value rd ?= value rd2.

(** [d.Equal(d2)] and its older name [d.Equals(d2)]. *)
Definition Equal (d d2 : Decimal) : bool :=
  match Cmp d d2 with Eq => true | _ => false end.
Definition Equals (d d2 : Decimal) : bool := Equal d d2.

(** The rational number a decimal stands for. *)
Definition toQ (d : Decimal) : Q :=
  (inject_Z (value d) * Qpower (10 # 1) (exp d))%Q.

End decimal.

Abbreviation Decimal := decimal.Decimal.

(** ** Errors

    Go [error] values that the engine can meet: its own two sentinels
    ([cost.ErrProductNotFound], [cost.ErrPriceNotFound]), the two sentinels of
    package context, and whatever else a catalog backend reports. *)
Inductive error : Type :=
| ErrProductNotFound
| ErrPriceNotFound
| Canceled
| DeadlineExceeded
| BackendFailure (msg : string).

#[global] Instance error_eq_dec : EqDecision error.
Proof. solve_decision. Defined.

(** [context.Context] values, by the constructors that build them. Whether
    and when the signal of a context fires is part of the state of the world
    that the backend reads, see [product.Repository]. *)
Inductive Context : Type :=
| Background
| WithCancel (parent : Context)
| WithDeadline (parent : Context) (deadline : Z).

(** ** Catalog: products and prices *)
Module product.

Record AttributeFilter : Type :=
  mkAttributeFilter { Key : string; Value : option string }.

Record Filter : Type := mkFilter {
  Provider : option string;
  Service : option string;
  Family : option string;
  Location : option string;
  AttributeFilters : list AttributeFilter }.

Record Product : Type := mkProduct {
  ID : Z;
  ProductProvider : string;
  ProductService : string;
  ProductFamily : string;
  ProductLocation : string;
  Attributes : gmap string string }.

(** [Repository.Filter(ctx, filter) returns products and an error]. The repository
    is outside the engine (a database); [B] is the state of that world and
    a call reads and may change it. *)
Record Repository (B : Type) : Type := mkRepository {
  Filter_ : Context -> option Filter -> B -> (list Product * option error) * B }.
Arguments Filter_ {B}.
Arguments mkRepository {B}.

End product.

Module price.

Record AttributeFilter : Type :=
  mkAttributeFilter { Key : string; Value : option string }.

Record Filter : Type := mkFilter {
  Unit : option string;
  AttributeFilters : list AttributeFilter }.

Record Price : Type := mkPrice {
  Value_ : Decimal;
  PriceUnit : string;
  Attributes : gmap string string }.

(** [Repository.Filter(ctx, productID, filter) returns prices and an error]. *)
Record Repository (B : Type) : Type := mkRepository {
  Filter_ : Context -> Z -> option Filter -> B -> (list Price * option error) * B }.
Arguments Filter_ {B}.
Arguments mkRepository {B}.

End price.

(** ** Queries: what a resource asks of the catalog *)
Module query.

Record Component : Type := mkComponent {
  Name : string;
  MonthlyQuantity : Decimal;
  HourlyQuantity : Decimal;
  Unit : string;
  Details : list string;
  Usage : bool;
  ProductFilter : option product.Filter;
  PriceFilter : option price.Filter }.

Record Resource : Type := mkResource {
  Address : string;
  Components : list Component }.

End query.

(** ** Package cost: the priced state and its builder *)

(** How a Go call ends: it returns, or the runtime panics. Two panics are
    within reach of the builder: a method call through a nil interface and
    an assignment to an entry of a nil map. *)
Inductive panic : Type := NilDereference | NilMapWrite.

Inductive outcome (A : Type) : Type :=
| Done (a : A)
| Panicked (p : panic).
Arguments Done {A}.
Arguments Panicked {A}.

Module cost.

(** [HoursPerMonth]: 365 days x 24 hours / 12 months. *)
Definition HoursPerMonth : Z := 730.

Record Component : Type := mkComponent {
  Quantity : Decimal;
  Unit : string;
  Rate : Decimal;
  Details : list string;
  Error : option error }.

(** A composite literal [Component{Error: err}]: every other field has its
    zero value. *)
Definition ComponentError (err : error) : Component :=
  mkComponent decimal.zeroValue "" decimal.zeroValue [] (Some err).

(** [Components] is a Go map, a reference that is nil until [make]
    allocates it: [None] is the nil map. Every map allocated by the builder
    is stored in one [Resource] only, so maps are kept by value. *)
Record Resource : Type := mkResource {
  Components : option (gmap string Component);
  Skipped : bool }.

Record State : Type := mkState { Resources : gmap string Resource }.

(** [Backend]: the two repositories, over the world state [B]. A nil
    interface value is [None] of [option (Backend B)]. *)
Record Backend (B : Type) : Type := mkBackend {
  Product : product.Repository B;
  Price : price.Repository B }.
Arguments Product {B}.
Arguments Price {B}.
Arguments mkBackend {B}.

Section Builder.
Context {B : Type}.

(** Computations of the builder: they read and update the [State] under
    construction (the Go code mutates it through a pointer) and the world
    of the backend, and may panic. *)
Definition M (A : Type) : Type := State -> B -> outcome (A * State * B).

#[global] Instance M_ret : MRet M := fun A a s w => Done (a, s, w).

#[global] Instance M_bind : MBind M := fun A C k m s w =>
  match m s w with
  | Done (a, s', w') => k a s' w'
  | Panicked p => Panicked p
  end.

(** [s.addComponent(resAddress, compLabel, component)]: create the
    resource with a fresh map if the address is new, then store the
    component in the map of the resource found at the address. *)
Definition addComponent (resAddress compLabel : string)
    (component : Component) : M unit :=
  fun s w =>
    let resources :=
      match Resources s !! resAddress with
      | Some _ => Resources s
      | None => <[resAddress := mkResource (Some ∅) false]> (Resources s)
      end in
    match resources !! resAddress with
    | Some re =>
        match Components re with
        | Some comps =>
            Done (tt,
                  mkState (<[resAddress :=
                             mkResource (Some (<[compLabel := component]> comps))
                                        (Skipped re)]> resources),
                  w)
        | None => Panicked NilMapWrite
        end
    | None =>
        (* the zero Resource read from a missing key has a nil map *)
        Panicked NilMapWrite
    end.

(** [backend.Product().Filter(ctx, filter)] and
    [backend.Price().Filter(ctx, id, filter)] through the interface. *)
Definition productFilter (backend : option (Backend B)) (ctx : Context)
    (f : option product.Filter) : M (list product.Product * option error) :=
  fun s w =>
    match backend with
    | None => Panicked NilDereference
    | Some b =>
        let '(r, w') := product.Filter_ (Product b) ctx f w in Done (r, s, w')
    end.

Definition priceFilter (backend : option (Backend B)) (ctx : Context)
    (id : Z) (f : option price.Filter) : M (list price.Price * option error) :=
  fun s w =>
    match backend with
    | None => Panicked NilDereference
    | Some b =>
        let '(r, w') := price.Filter_ (Price b) ctx id f w in Done (r, s, w')
    end.

(** The body of the inner loop of [NewState], for one query component;
    every [continue] ends the body. *)
Definition componentStep (backend : option (Backend B)) (ctx : Context)
    (res : query.Resource) (comp : query.Component) : M unit :=
  '(prods, err) ← productFilter backend ctx (query.ProductFilter comp);
  match err with
  | Some err => addComponent (query.Address res) (query.Name comp) (ComponentError err)
  | None =>
      match prods with
      | [] =>
          addComponent (query.Address res) (query.Name comp)
                       (ComponentError ErrProductNotFound)
      | prods0 :: _ =>
          '(prices, err) ← priceFilter backend ctx (product.ID prods0)
                                       (query.PriceFilter comp);
          match err with
          | Some err =>
              addComponent (query.Address res) (query.Name comp) (ComponentError err)
          | None =>
              match prices with
              | [] =>
                  addComponent (query.Address res) (query.Name comp)
                               (ComponentError ErrPriceNotFound)
              | prices0 :: _ =>
                  let quantity := query.MonthlyQuantity comp in
                  let rate := price.Value_ prices0 in
                  let '(quantity, rate) :=
                    if decimal.Equals quantity decimal.Zero
                    then (query.HourlyQuantity comp,
                          decimal.Mul rate (decimal.NewFromInt HoursPerMonth))
                    else (quantity, rate) in
                  let component :=
                    mkComponent quantity (query.Unit comp) rate
                                (query.Details comp) None in
                  addComponent (query.Address res) (query.Name comp) component
              end
          end
      end
  end.

(** [for _, comp := range res.Components { ... }]. *)
Fixpoint forComponents (backend : option (Backend B)) (ctx : Context)
    (res : query.Resource) (comps : list query.Component) : M unit :=
  match comps with
  | [] => mret tt
  | comp :: rest =>
      componentStep backend ctx res comp ;;
      forComponents backend ctx res rest
  end.

(** [state.Resources[res.Address] = Resource{Skipped: true}]. *)
Definition markSkipped (address : string) : M unit :=
  fun s w =>
    Done (tt, mkState (<[address := mkResource None true]> (Resources s)), w).

(** The body of the outer loop of [NewState], for one query resource. *)
Definition resourceStep (backend : option (Backend B)) (ctx : Context)
    (res : query.Resource) : M unit :=
  (if (length (query.Components res) =? 0)%nat
   then markSkipped (query.Address res)
   else mret tt) ;;
  forComponents backend ctx res (query.Components res).

(** [for _, res := range queries { ... }]. *)
Fixpoint forResources (backend : option (Backend B)) (ctx : Context)
    (queries : list query.Resource) : M unit :=
  match queries with
  | [] => mret tt
  | res :: rest =>
      resourceStep backend ctx res ;;
      forResources backend ctx rest
  end.

(** [NewState(ctx, backend, queries)], run in the world [w]: the state
    built, the error returned and the world left. The Go function ends in
    [return state, nil]. *)
Definition NewState (ctx : Context) (backend : option (Backend B))
    (queries : list query.Resource) (w : B)
    : outcome (State * option error * B) :=
  match forResources backend ctx queries (mkState ∅) w with
  | Done (_, state, w') => Done (state, None, w')
  | Panicked p => Panicked p
  end.

End Builder.

(** A [State] value as Go has it, where [Resources] itself may be the nil
    map (the zero value, [&State{}]). [NewState] allocates the map with
    [make] before anything else, so the builder only meets a [State] whose
    map is allocated, which is what [State] above holds; [allocated] is that
    state among the Go values. *)
Record RawState : Type := mkRawState { RawResources : option (gmap string Resource) }.

Definition allocated (s : State) : RawState := mkRawState (Some (Resources s)).

(** [s.addComponent(resAddress, compLabel, component)] on any receiver
    [s *State], [None] being the nil pointer: reading a field through a nil
    pointer panics, reading a key of a nil map finds nothing, assigning to
    an entry of a nil map panics. *)
Definition addComponentRaw (resAddress compLabel : string) (component : Component)
    (s : option RawState) : outcome RawState :=
  match s with
  | None => Panicked NilDereference
  | Some s =>
      let created :=
        match RawResources s ≫= (.!! resAddress) with
        | Some _ => Done s
        | None =>
            match RawResources s with
            | Some resources =>
                Done (mkRawState
                        (Some (<[resAddress := mkResource (Some ∅) false]> resources)))
            | None => Panicked NilMapWrite
            end
        end in
      match created with
      | Panicked p => Panicked p
      | Done s1 =>
          match RawResources s1 ≫= (.!! resAddress) with
          | Some re =>
              match Components re with
              | Some comps =>
                  Done (mkRawState
                          (<[resAddress :=
                               mkResource (Some (<[compLabel := component]> comps))
                                          (Skipped re)]> <$> RawResources s1))
              | None => Panicked NilMapWrite
              end
          | None => Panicked NilMapWrite
          end
      end
  end.

(** The component stored in a state at an address under a label. *)
Definition componentAt (s : State) (address label : string) : option Component :=
  re ← Resources s !! address; comps ← Components re; comps !! label.

(** The components and the skipped flag that a state has at an address;
    nothing and [false] where it has no resource (the zero [Resource]). *)
Definition componentsIn (s : State) (address : string) : gmap string Component :=
  default ∅ (re ← Resources s !! address; Components re).

Definition skippedAt (s : State) (address : string) : bool :=
  default false (Skipped <$> Resources s !! address).

(** The two kinds of resource that a build stores: a skipped one, whose
    map was never allocated, and one that is not skipped and has at least one
    component. *)
Definition flagged (re : Resource) : Prop :=
  match Components re with
  | None => Skipped re = true
  | Some comps => Skipped re = false /\ comps ≠ ∅
  end.

(** An insertion at [address] finds a map to write to: no resource there
    yet, or one whose map is allocated. *)
Definition writable (s : State) (address : string) : Prop :=
  match Resources s !! address with
  | Some re => is_Some (Components re)
  | None => True
  end.

(** What a caller of [NewState] sees: the returned pair, without the
    world. *)
Definition returned {B} (o : outcome (State * option error * B))
    : outcome (State * option error) :=
  match o with
  | Done (st, err, _) => Done (st, err)
  | Panicked p => Panicked p
  end.

(** Two runs that end alike: in the same state, or in the same panic. *)
Definition sameState {A B} (o o' : outcome (A * State * B)) : Prop :=
  match o, o' with
  | Done (_, s, _), Done (_, s', _) => s = s'
  | Panicked p, Panicked p' => p = p'
  | _, _ => False
  end.

(** A build that fails: it returns an error, or it panics. *)
Definition failed {B} (o : outcome (State * option error * B)) : Prop :=
  match o with
  | Done (_, Some _, _) => True
  | Done (_, None, _) => False
  | Panicked _ => True
  end.

(** A catalog with stable responses: what a lookup answers does not depend
    on the world it is made in. *)
Definition stable {B} (b : Backend B) : Prop :=
  forall ctx w w',
    (forall f, (product.Filter_ (Product b) ctx f w).1 =
               (product.Filter_ (Product b) ctx f w').1) /\
    (forall id f, (price.Filter_ (Price b) ctx id f w).1 =
                  (price.Filter_ (Price b) ctx id f w').1).

(** The lookups of the body of the inner loop of [NewState] without the
    insertion that ends it: the component that the body stores for a query
    component, and the world that the lookups leave.
    [componentStep_lookedUp] below ties it to [componentStep]. *)
Definition lookedUp {B} (b : Backend B) (ctx : Context) (comp : query.Component) (w : B)
    : Component * B :=
  let '((prods, err), w1) :=
    product.Filter_ (Product b) ctx (query.ProductFilter comp) w in
  match err with
  | Some err => (ComponentError err, w1)
  | None =>
      match prods with
      | [] => (ComponentError ErrProductNotFound, w1)
      | prods0 :: _ =>
          let '((prices, err), w2) :=
            price.Filter_ (Price b) ctx (product.ID prods0) (query.PriceFilter comp) w1 in
          match err with
          | Some err => (ComponentError err, w2)
          | None =>
              match prices with
              | [] => (ComponentError ErrPriceNotFound, w2)
              | prices0 :: _ =>
                  (if decimal.Equals (query.MonthlyQuantity comp) decimal.Zero
                   then mkComponent (query.HourlyQuantity comp) (query.Unit comp)
                          (decimal.Mul (price.Value_ prices0)
                                       (decimal.NewFromInt HoursPerMonth))
                          (query.Details comp) None
                   else mkComponent (query.MonthlyQuantity comp) (query.Unit comp)
                          (price.Value_ prices0) (query.Details comp) None,
                   w2)
              end
          end
      end
  end.

(** A backend that answers as [b] does and counts the lookups it is asked:
    its world is the world of [b] with the number of product lookups and the
    number of price lookups made so far. *)
Definition counted {B} (b : Backend B) : Backend (B * (nat * nat)) :=
  mkBackend
    (product.mkRepository (fun ctx f '(w, (products, prices)) =>
       let '(r, w') := product.Filter_ (Product b) ctx f w in
       (r, (w', (S products, prices)))))
    (price.mkRepository (fun ctx id f '(w, (products, prices)) =>
       let '(r, w') := price.Filter_ (Price b) ctx id f w in
       (r, (w', (products, S prices))))).

(** What a build against a catalog with stable responses amounts to, as a
    function of the queries alone, with the answers the catalog gives in the
    world [w0]: the components of a resource by name, a later one with the
    same name replacing an earlier one; a resource without components
    skipped; the resources by address. *)
Definition componentsFor {B} (b : Backend B) (ctx : Context) (w0 : B)
    (comps : list query.Component) : gmap string Component :=
  foldl (fun m comp => <[query.Name comp := (lookedUp b ctx comp w0).1]> m) ∅ comps.

Definition resourceFor {B} (b : Backend B) (ctx : Context) (w0 : B)
    (res : query.Resource) : Resource :=
  match query.Components res with
  | [] => mkResource None true
  | comps => mkResource (Some (componentsFor b ctx w0 comps)) false
  end.

Definition stateFor {B} (b : Backend B) (ctx : Context) (w0 : B)
    (queries : list query.Resource) : State :=
  mkState (list_to_map ((fun res => (query.Address res, resourceFor b ctx w0 res))
                          <$> queries)).

(** Modelled from the spec: [Component.Cost] is not among the sources; the
    cost of a component is its quantity times its rate. *)
Definition ComponentCost (c : Component) : Decimal :=
  decimal.Mul (Quantity c) (Rate c).

(** The entries of a Go map, which may be nil. [range] visits them in an
    order the language leaves open; the embedding takes the order of
    [map_to_list], and [sumCosts_Permutation] below shows that no total
    computed here depends on it. *)
Definition componentsOf (re : Resource) : list (string * Component) :=
  match Components re with
  | Some comps => map_to_list comps
  | None => []
  end.

(** [total := decimal.Zero; for ... { total = total.Add(x) }]. *)
Definition sumCosts (costs : list Decimal) : Decimal :=
  foldl decimal.Add decimal.Zero costs.

(** Modelled from the spec: [Resource.Cost] is not among the sources; it
    sums quantity times rate over the successfully resolved components of
    the resource, the components without an error. *)
Definition resolved (c : Component) : bool :=
  match Error c with None => true | Some _ => false end.

Definition ResourceCost (re : Resource) : Decimal :=
  sumCosts (ComponentCost <$> filter (fun c => resolved c = true) (componentsOf re).*2).

(** [State.Cost]: the sum of the costs of every resource of the state. *)
Definition Cost (s : State) : Decimal :=
  sumCosts (ResourceCost <$> (map_to_list (Resources s)).*2).

(** The loop of [State.Cost] when [range] visits the resources in the order
    [visited]. *)
Definition CostVisiting (visited : list (string * Resource)) : Decimal :=
  foldl (fun total re => decimal.Add total (ResourceCost re.2)) decimal.Zero visited.

(** The total that the specification describes, as a rational number: over
    all resources, over the components of each, quantity times rate for a
    component without an error and 0 for a component with one. *)
Definition Qsum (l : list Q) : Q := foldr Qplus 0%Q l.

Definition lineTotal (c : Component) : Q :=
  if resolved c then (decimal.toQ (Quantity c) * decimal.toQ (Rate c))%Q else 0%Q.

Definition resourceTotal (re : Resource) : Q :=
  Qsum (lineTotal <$> (componentsOf re).*2).

Definition stateTotal (s : State) : Q :=
  Qsum (resourceTotal <$> (map_to_list (Resources s)).*2).

(** ** Plan and diff *)

(** Modelled from the spec: [Plan], [ResourceDiff], [ResourceDifferences],
    [PriorCost] and [PlannedCost] are not among the sources. A plan pairs a
    prior and a planned state; it yields one diff for every address present
    in either state; the cost of a side is the sum over the resolved
    components of the resource on that side, and fails with the recorded
    error if a component of that side is in error. *)
Record Plan : Type := mkPlan { Prior : State; Planned : State }.

Record ResourceDiff : Type := mkResourceDiff {
  Address : string;
  PriorResource : option Resource;
  PlannedResource : option Resource }.

Definition ResourceDifferences (p : Plan) : list ResourceDiff :=
  (fun '(address, (prior, planned)) => mkResourceDiff address prior planned) <$>
    map_to_list
      (merge (fun prior planned =>
                match prior, planned with
                | None, None => None
                | _, _ => Some (prior, planned)
                end)
             (Resources (Prior p)) (Resources (Planned p))).

(** The first recorded error among the components of a resource. *)
Definition recordedError (re : Resource) : option error :=
  match list_find (fun lc => resolved lc.2 = false) (componentsOf re) with
  | Some (_, (_, c)) => Error c
  | None => None
  end.

Definition sideCost (side : option Resource) : Decimal + error :=
  match side with
  | None => inl decimal.Zero
  | Some re =>
      match recordedError re with
      | Some err => inr err
      | None => inl (ResourceCost re)
      end
  end.

Definition PriorCost (rd : ResourceDiff) : Decimal + error :=
  sideCost (PriorResource rd).

Definition PlannedCost (rd : ResourceDiff) : Decimal + error :=
  sideCost (PlannedResource rd).

End cost.

(** ** The report of the command-line tool *)

(** The three [fmt.Printf] calls of [estimateDisplay], each with its
    arguments: ["PriorCost %s: %s\n"], ["PlannedCost %s: %s\n"] and
    ["%s: %s -> %s\n"]. *)
Inductive printed : Type :=
| PriorCostFailed (address : string) (err : error)
| PlannedCostFailed (address : string) (err : error)
| Costs (address : string) (priorCost plannedCost : Decimal).

(** The body of the loop of [estimateDisplay] for one resource diff. *)
Definition displayStep (res : cost.ResourceDiff) : printed :=
  match cost.PriorCost res with
  | inr err => PriorCostFailed (cost.Address res) err
  | inl priorCost =>
      match cost.PlannedCost res with
      | inr err => PlannedCostFailed (cost.Address res) err
      | inl plannedCost => Costs (cost.Address res) priorCost plannedCost
      end
  end.

(** [for _, res := range resourceDiff.ResourceDifferences() { ... }], with
    the lines printed so far. *)
Fixpoint displayLoop (diffs : list cost.ResourceDiff) (out : list printed)
    : list printed :=
  match diffs with
  | [] => out
  | res :: rest => displayLoop rest (out ++ [displayStep res])
  end.

Definition estimateDisplay (resourceDiff : cost.Plan) : list printed :=
  displayLoop (cost.ResourceDifferences resourceDiff) [].

(** ** The virtual network gateway of azurerm *)
Module terraform.

Record Provider : Type := mkProvider { key : string }.

Section VirtualNetworkGateway.
(** Go's float64 and [decimal.NewFromFloat], and the two location helpers
    of the package, [getLocationName] and [getRegionToVNETZone], which
    are not among the sources. *)
Variable float64 : Type.
Variable NewFromFloat : float64 -> Decimal.
Variable getLocationName : string -> string.
Variable getRegionToVNETZone : string -> string.

(** The values decoded from the Terraform attributes ([sku], [location])
    and from the usage estimate ([tc_usage.monthly_data_transfer_gb]). *)
Record virtualNetworkGatewayValues : Type := mkValues {
  SKU : string;
  Location : string;
  Usage_MonthlyDataTransferGB : float64 }.

Record VirtualNetworkGateway : Type := mkVirtualNetworkGateway {
  provider : option Provider;
  location : string;
  sku : string;
  meterName : string;
  monthlyDataTransferGB : Decimal }.

Definition newVirtualNetworkGateway (p : option Provider)
    (vals : virtualNetworkGatewayValues) : VirtualNetworkGateway :=
  let inst :=
    mkVirtualNetworkGateway p (getLocationName (Location vals)) (SKU vals)
      (SKU vals) (NewFromFloat (Usage_MonthlyDataTransferGB vals)) in
  if String.eqb (SKU vals) "Basic"
  then mkVirtualNetworkGateway (provider inst) (location inst) (sku inst)
         "Basic Gateway" (monthlyDataTransferGB inst)
  else inst.

Definition consumption : list price.AttributeFilter :=
  [price.mkAttributeFilter "type" (Some "Consumption")].

Definition virtualNetworkGatewayComponent (inst : VirtualNetworkGateway)
    (key location sku meterName : string) : query.Component :=
  query.mkComponent
    ("VPN gateway (" ++ sku ++ ")")
    decimal.zeroValue
    (decimal.NewFromInt 1)
    "" [] false
    (Some (product.mkFilter (Some key) (Some "VPN Gateway") (Some "Networking")
             (Some location)
             [product.mkAttributeFilter "meter_name" (Some meterName)]))
    (Some (price.mkFilter (Some "1 Hour") consumption)).

Definition virtualNetworkGatewayP2SComponent (inst : VirtualNetworkGateway)
    (key location sku : string) : query.Component :=
  query.mkComponent
    "VPN gateway P2S tunnels (over 128)"
    decimal.zeroValue
    (decimal.NewFromInt 1)
    "" [] false
    (Some (product.mkFilter (Some key) (Some "VPN Gateway") (Some "Networking")
             (Some location)
             [product.mkAttributeFilter "sku_name" (Some sku);
              product.mkAttributeFilter "meter_name" (Some "P2S Connection")]))
    (Some (price.mkFilter (Some "1 Hour") consumption)).

Definition virtualNetworkGatewayDataTransfersComponent
    (inst : VirtualNetworkGateway) (key location : string) : query.Component :=
  query.mkComponent
    "VPN gateway data tranfer"
    (monthlyDataTransferGB inst)
    decimal.zeroValue
    "" [] true
    (Some (product.mkFilter (Some key) (Some "VPN Gateway") (Some "Networking")
             (Some (getRegionToVNETZone location))
             [product.mkAttributeFilter "product_name" (Some "VPN Gateway Bandwidth");
              product.mkAttributeFilter "meter_name"
                (Some "Standard Inter-Virtual Network Data Transfer Out")]))
    (Some (price.mkFilter (Some "1 GB") consumption)).

(** [inst.Components()]; reading [inst.provider.key] through a nil
    provider panics. *)
Definition Components (inst : VirtualNetworkGateway)
    : outcome (list query.Component) :=
  match provider inst with
  | None => Panicked NilDereference
  | Some p =>
      Done [virtualNetworkGatewayComponent inst (key p) (location inst)
              (sku inst) (meterName inst);
            virtualNetworkGatewayP2SComponent inst (key p) (location inst)
              (sku inst);
            virtualNetworkGatewayDataTransfersComponent inst (key p)
              (location inst)]
  end.

End VirtualNetworkGateway.

End terraform.

(** ** Catalogs and queries to run the builder on *)
Module sample.

Definition compute : product.Product :=
  product.mkProduct 1 "aws" "Compute" "Instance" "eu-west-1" ∅.
Definition computeSpare : product.Product :=
  product.mkProduct 4 "aws" "Compute" "Instance" "eu-west-1" ∅.
Definition storage : product.Product :=
  product.mkProduct 2 "aws" "Storage" "Volume" "eu-west-1" ∅.
Definition queue : product.Product :=
  product.mkProduct 3 "aws" "Queue" "Messaging" "eu-west-1" ∅.

Definition catalog : list product.Product := [compute; computeSpare; storage; queue].

Definition agrees (wanted : option string) (have : string) : bool :=
  match wanted with
  | Some s => String.eqb s have
  | None => true
  end.

Definition matches (f : option product.Filter) (p : product.Product) : bool :=
  match f with
  | None => true
  | Some f =>
      agrees (product.Provider f) (product.ProductProvider p) &&
      agrees (product.Service f) (product.ProductService p) &&
      agrees (product.Family f) (product.ProductFamily p) &&
      agrees (product.Location f) (product.ProductLocation p)
  end.

Definition findProducts (f : option product.Filter) : list product.Product :=
  List.filter (matches f) catalog.

(** 0.10 and 0.20 an hour for compute, 1.00 a GB for storage, nothing for
    the queue. *)
Definition findPrices (id : Z) : list price.Price :=
  if id =? 1 then [price.mkPrice (decimal.New 10 (-2)) "1 Hour" ∅;
                   price.mkPrice (decimal.New 20 (-2)) "1 Hour" ∅]
  else if id =? 2 then [price.mkPrice (decimal.New 100 (-2)) "1 GB" ∅]
  else [].

(** A catalog in memory whose answers never change; its world is the
    number of lookups answered so far. *)
Definition memory : cost.Backend nat :=
  cost.mkBackend
    (product.mkRepository (fun _ f n => ((findProducts f, None), S n)))
    (price.mkRepository (fun _ id _ n => ((findPrices id, None), S n))).

(** The same catalog behind a context whose signal fires after a number of
    lookups: the world is the number of lookups left before that, and every
    lookup after it fails with [Canceled]. *)
Definition cancelling : cost.Backend nat :=
  cost.mkBackend
    (product.mkRepository (fun _ f n =>
       match n with
       | O => (([], Some Canceled), O)
       | S n' => ((findProducts f, None), n')
       end))
    (price.mkRepository (fun _ id _ n =>
       match n with
       | O => (([], Some Canceled), O)
       | S n' => ((findPrices id, None), n')
       end)).

(** A catalog that answers every product lookup with the compute product
    and every price lookup with 0.10; it has no state. *)
Definition flat : cost.Backend unit :=
  cost.mkBackend
    (product.mkRepository (fun _ _ u => (([compute], None), u)))
    (price.mkRepository (fun _ _ _ u =>
       (([price.mkPrice (decimal.New 10 (-2)) "1 Hour" ∅], None), u))).

Definition serviceFilter (service : string) : option product.Filter :=
  Some (product.mkFilter (Some "aws") (Some service) None None []).

Definition hourly (name service : string) (q : Z) : query.Component :=
  query.mkComponent name decimal.zeroValue (decimal.NewFromInt q) "h" [] false
    (serviceFilter service) (Some (price.mkFilter None [])).

Definition monthly (name service : string) (q : Z) : query.Component :=
  query.mkComponent name (decimal.NewFromInt q) decimal.zeroValue "GB" [] true
    (serviceFilter service) (Some (price.mkFilter None [])).

Definition compute1 : query.Resource :=
  query.mkResource "compute-1" [hourly "instance" "Compute" 1].
Definition gateway1 : query.Resource :=
  query.mkResource "gateway-1" [].
Definition volume1 : query.Resource :=
  query.mkResource "volume-1" [monthly "storage" "Storage" 50].
Definition database1 : query.Resource :=
  query.mkResource "database-1"
    [hourly "engine" "Database" 1; hourly "instance" "Compute" 2].
Definition queue1 : query.Resource :=
  query.mkResource "queue-1" [hourly "requests" "Queue" 1].

(** A second resource at the address of the skipped [gateway1], this one
    with a component. *)
Definition gateway1Again : query.Resource :=
  query.mkResource "gateway-1" [hourly "instance" "Compute" 1].

(** The third scenario of the specification, as the planned state of a
    plan without prior state: a volume that costs 50.00 and a database
    whose only component found no product. *)
Definition priced : cost.Resource :=
  cost.mkResource
    (Some {["storage" := cost.mkComponent (decimal.NewFromInt 50) "GB"
                           (decimal.New 100 (-2)) [] None]})
    false.
Definition unpriced : cost.Resource :=
  cost.mkResource (Some {["engine" := cost.ComponentError ErrProductNotFound]}) false.
Definition plan : cost.Plan :=
  cost.mkPlan (cost.mkState ∅)
    (cost.mkState (<["volume-1" := priced]> (<["database-1" := unpriced]> ∅))).

(** A plan in which the resource at one address has a component in error on
    both sides, with different errors. *)
Definition priorFailing : cost.Resource :=
  cost.mkResource (Some {["engine" := cost.ComponentError ErrPriceNotFound]}) false.
Definition bothFail : cost.Plan :=
  cost.mkPlan (cost.mkState {["database-1" := priorFailing]})
              (cost.mkState {["database-1" := unpriced]}).
Definition bothFailDiff : cost.ResourceDiff :=
  cost.mkResourceDiff "database-1" (Some priorFailing) (Some unpriced).

(** A gateway resource between two others: its three components for a
    Basic gateway with an estimate of 120 GB a month (usage estimates are
    whole numbers of GB here). *)
Definition basicGateway : terraform.VirtualNetworkGateway :=
  terraform.newVirtualNetworkGateway Z decimal.NewFromInt (fun l => l)
    (Some (terraform.mkProvider "azurerm"))
    (terraform.mkValues Z "Basic" "France Central" 120).
Definition gatewayBase : query.Component :=
  terraform.virtualNetworkGatewayComponent basicGateway
    "azurerm" "France Central" "Basic" "Basic Gateway".
Definition gatewayP2S : query.Component :=
  terraform.virtualNetworkGatewayP2SComponent basicGateway
    "azurerm" "France Central" "Basic".
Definition gatewayTransfer : query.Component :=
  terraform.virtualNetworkGatewayDataTransfersComponent (fun _ => "Zone 1") basicGateway
    "azurerm" "France Central".
Definition vpn1 : query.Resource :=
  query.mkResource "vpn-1" [gatewayBase; gatewayP2S; gatewayTransfer].

End sample.

(** * Properties *)

(** ** Decimal arithmetic *)
Section DecimalFacts.
Import decimal.

(** [Add] in closed form: both values brought to the smaller exponent. *)
Lemma Add_min (d d2 : Decimal) :
  Add d d2 =
  mkDecimal (value d * 10 ^ (exp d - Z.min (exp d) (exp d2)) +
             value d2 * 10 ^ (exp d2 - Z.min (exp d) (exp d2)))
            (Z.min (exp d) (exp d2)).
Proof.
  destruct d as [v e], d2 as [v2 e2]. unfold Add, RescalePair, rescale. simpl.
  destruct (Z.eqb_spec e e2) as [->|Hne].
  - simpl. rewrite Z.min_id, Z.sub_diag, Z.pow_0_r. f_equal. lia.
  - destruct (Z.min_spec e e2) as [[Hlt Hm]|[Hle Hm]]; rewrite Hm.
    + rewrite Z.eqb_refl. simpl.
      destruct (Z.eqb_spec e2 e); [lia|].
      destruct (Z.ltb_spec e2 e); [lia|]. simpl.
      rewrite Z.sub_diag, Z.pow_0_r. f_equal.
      rewrite Z.abs_neq by lia. replace (- (e - e2)) with (e2 - e) by lia. lia.
    + destruct (Z.eqb_spec e2 e); [lia|]. simpl.
      destruct (Z.eqb_spec e e2); [lia|].
      destruct (Z.ltb_spec e e2); [lia|]. simpl.
      rewrite Z.sub_diag, Z.pow_0_r. f_equal.
      rewrite Z.abs_neq by lia. replace (- (e2 - e)) with (e - e2) by lia. lia.
Qed.

Lemma Add_comm (d d2 : Decimal) : Add d d2 = Add d2 d.
Proof. rewrite !Add_min, (Z.min_comm (exp d2)). f_equal. lia. Qed.

Lemma Add_assoc (a b c : Decimal) : Add (Add a b) c = Add a (Add b c).
Proof.
  rewrite !Add_min. simpl. rewrite Z.min_assoc.
  set (m := Z.min (Z.min (exp a) (exp b)) (exp c)).
  f_equal.
  rewrite Z.mul_add_distr_r, Z.mul_add_distr_r, <- !Z.mul_assoc, <- !Z.pow_add_r by lia.
  rewrite <- Z.add_assoc. f_equal; [|f_equal]; f_equal; f_equal; lia.
Qed.

(** [Cmp] in closed form. *)
Lemma Cmp_min (d d2 : Decimal) :
  Cmp d d2 =
  (value d * 10 ^ (exp d - Z.min (exp d) (exp d2)) ?=
   value d2 * 10 ^ (exp d2 - Z.min (exp d) (exp d2))).
Proof.
  destruct d as [v e], d2 as [v2 e2]. unfold Cmp, RescalePair, rescale.
  cbn [value exp].
  destruct (Z.eqb_spec e e2) as [->|Hne].
  - rewrite Z.min_id, Z.sub_diag, Z.pow_0_r, !Z.mul_1_r. reflexivity.
  - destruct (Z.min_spec e e2) as [[Hlt Hm]|[Hle Hm]]; rewrite Hm.
    + rewrite Z.eqb_refl. cbn [negb value exp].
      destruct (Z.eqb_spec e2 e); [lia|].
      destruct (Z.ltb_spec e2 e); [lia|]. cbn [value exp].
      rewrite Z.sub_diag, Z.pow_0_r, Z.mul_1_r.
      rewrite Z.abs_neq by lia. replace (- (e - e2)) with (e2 - e) by lia. reflexivity.
    + destruct (Z.eqb_spec e2 e); [lia|]. cbn [negb value exp].
      destruct (Z.eqb_spec e e2); [lia|].
      destruct (Z.ltb_spec e e2); [lia|]. cbn [value exp].
      rewrite Z.sub_diag, Z.pow_0_r, Z.mul_1_r.
      rewrite Z.abs_neq by lia. replace (- (e2 - e)) with (e - e2) by lia. reflexivity.
Qed.

(** [d.Equals(decimal.Zero)] holds exactly when the value of [d] is 0. *)
Lemma Equals_Zero (d : Decimal) : Equals d Zero = true <-> value d = 0.
Proof.
  unfold Equals, Equal. rewrite Cmp_min. unfold Zero, New. cbn [value exp].
  rewrite Z.mul_0_l.
  assert (Hpos : 0 < 10 ^ (exp d - Z.min (exp d) 1)) by (apply Z.pow_pos_nonneg; lia).
  destruct (Z.compare_spec (value d * 10 ^ (exp d - Z.min (exp d) 1)) 0) as [H|H|H];
    split; intros H'; try discriminate; try reflexivity; nia.
Qed.

Lemma Qpower_10_nonzero (e : Z) : ~ (Qpower (10 # 1) e == 0)%Q.
Proof.
  intros H. assert (H10 : ~ ((10 # 1) == 0)%Q) by discriminate.
  destruct e as [|p|p]; simpl in H.
  - discriminate.
  - apply (Qpower_not_0_positive _ p) in H10. contradiction.
  - apply (Qpower_not_0_positive _ p) in H10.
    apply H10. rewrite <- (Qinv_involutive (Qpower_positive (10 # 1) p)), H. reflexivity.
Qed.

Lemma toQ_zero_iff (d : Decimal) : (toQ d == 0)%Q <-> value d = 0.
Proof.
  unfold toQ. split.
  - intros H. apply Qmult_integral in H as [H|H].
    + destruct d as [v e]. simpl in *. unfold Qeq in H. simpl in H. lia.
    + exfalso. exact (Qpower_10_nonzero _ H).
  - intros ->. ring.
Qed.

Lemma toQ_Mul (d d2 : Decimal) : (toQ (Mul d d2) == toQ d * toQ d2)%Q.
Proof.
  unfold toQ, Mul. simpl. rewrite inject_Z_mult, Qpower_plus by discriminate. ring.
Qed.

Lemma inject_Z_pow10 (n : Z) : 0 <= n -> (inject_Z (10 ^ n) == Qpower (10 # 1) n)%Q.
Proof.
  intros Hn. change (10 # 1)%Q with (inject_Z 10).
  apply Zpower_Qpower. exact Hn.
Qed.

Lemma toQ_Add (d d2 : Decimal) : (toQ (Add d d2) == toQ d + toQ d2)%Q.
Proof.
  rewrite Add_min. unfold toQ. simpl.
  set (m := Z.min (exp d) (exp d2)).
  rewrite inject_Z_plus, !inject_Z_mult, !inject_Z_pow10 by lia.
  rewrite Qmult_plus_distr_l, <- !Qmult_assoc, <- !Qpower_plus by discriminate.
  replace (exp d - m + m) with (exp d) by lia.
  replace (exp d2 - m + m) with (exp d2) by lia. reflexivity.
Qed.

Lemma toQ_Zero : (toQ Zero == 0)%Q.
Proof. reflexivity. Qed.

Lemma toQ_NewFromInt (n : Z) : (toQ (NewFromInt n) == inject_Z n)%Q.
Proof. unfold toQ, NewFromInt. simpl. ring. Qed.

End DecimalFacts.

(** ** The builder, step by step *)
Section BuilderFacts.
Context {B : Type}.
Implicit Types (backend : option (cost.Backend B)) (b : cost.Backend B).
Implicit Types (s : cost.State) (w : B) (res : query.Resource).
Implicit Types (comp : query.Component) (c : cost.Component).

Lemma bind_Done {A C} (m : cost.M A) (k : A -> cost.M (B:=B) C) s w a s' w' :
  m s w = Done (a, s', w') -> (m ≫= k) s w = k a s' w'.
Proof. intros H. unfold mbind, cost.M_bind. rewrite H. reflexivity. Qed.

Lemma bind_Panicked {A C} (m : cost.M A) (k : A -> cost.M (B:=B) C) s w p :
  m s w = Panicked p -> (m ≫= k) s w = Panicked p.
Proof. intros H. unfold mbind, cost.M_bind. rewrite H. reflexivity. Qed.

(** *** addComponent *)

Lemma addComponent_fresh (a l : string) c s w :
  cost.Resources s !! a = None ->
  cost.addComponent a l c s w =
  Done (tt, cost.mkState (<[a := cost.mkResource (Some {[l := c]}) false]>
                            (cost.Resources s)), w).
Proof.
  intros H. unfold cost.addComponent. rewrite H, lookup_insert_eq. simpl.
  rewrite insert_insert_eq, insert_empty. reflexivity.
Qed.

Lemma addComponent_allocated (a l : string) c s w comps sk :
  cost.Resources s !! a = Some (cost.mkResource (Some comps) sk) ->
  cost.addComponent a l c s w =
  Done (tt, cost.mkState (<[a := cost.mkResource (Some (<[l := c]> comps)) sk]>
                            (cost.Resources s)), w).
Proof. intros H. unfold cost.addComponent. rewrite !H. reflexivity. Qed.

Lemma addComponent_nil_map (a l : string) c s w sk :
  cost.Resources s !! a = Some (cost.mkResource None sk) ->
  cost.addComponent a l c s w = Panicked NilMapWrite.
Proof. intros H. unfold cost.addComponent. rewrite !H. reflexivity. Qed.

(** The three cases together: an insertion panics exactly on a nil map. *)
Lemma addComponent_cases (a l : string) c s w :
  (cost.writable s a /\
   exists comps sk,
     cost.addComponent a l c s w =
     Done (tt, cost.mkState (<[a := cost.mkResource (Some (<[l := c]> comps)) sk]>
                               (cost.Resources s)), w)) \/
  (~ cost.writable s a /\ cost.addComponent a l c s w = Panicked NilMapWrite).
Proof.
  unfold cost.writable.
  destruct (cost.Resources s !! a) as [[[comps|] sk]|] eqn:H.
  - left. split; [eauto|]. exists comps, sk. by apply addComponent_allocated.
  - right. split; [intros [? ?]; discriminate|]. by eapply addComponent_nil_map.
  - left. split; [done|]. exists ∅, false. rewrite insert_empty. by apply addComponent_fresh.
Qed.

Lemma addComponent_Done (a l : string) c s w u s' w' :
  cost.addComponent a l c s w = Done (u, s', w') ->
  w' = w /\ cost.writable s a /\ cost.writable s' a /\
  cost.componentAt s' a l = Some c /\
  (forall a', a' ≠ a -> cost.Resources s' !! a' = cost.Resources s !! a').
Proof.
  intros H. destruct (addComponent_cases a l c s w) as [[Hw (comps & sk & E)]|[_ E]];
    rewrite E in H; [|discriminate].
  injection H as _ <- <-. split; [done|]. split; [done|].
  unfold cost.writable, cost.componentAt. simpl. rewrite lookup_insert_eq. simpl.
  rewrite lookup_insert_eq. split; [eauto|]. split; [done|].
  intros a' Hne. by rewrite lookup_insert_ne.
Qed.

(** *** One query component *)

Lemma componentStep_nil_backend ctx res comp s w :
  cost.componentStep None ctx res comp s w = Panicked NilDereference.
Proof. reflexivity. Qed.

Lemma componentStep_product_error b ctx res comp s w prods err w1 :
  product.Filter_ (cost.Product b) ctx (query.ProductFilter comp) w
    = ((prods, Some err), w1) ->
  cost.componentStep (Some b) ctx res comp s w =
  cost.addComponent (query.Address res) (query.Name comp) (cost.ComponentError err) s w1.
Proof.
  intros H. unfold cost.componentStep, cost.productFilter, mbind, cost.M_bind.
  rewrite H. reflexivity.
Qed.

Lemma componentStep_no_product b ctx res comp s w w1 :
  product.Filter_ (cost.Product b) ctx (query.ProductFilter comp) w
    = (([], None), w1) ->
  cost.componentStep (Some b) ctx res comp s w =
  cost.addComponent (query.Address res) (query.Name comp)
    (cost.ComponentError ErrProductNotFound) s w1.
Proof.
  intros H. unfold cost.componentStep, cost.productFilter, mbind, cost.M_bind.
  rewrite H. reflexivity.
Qed.

Lemma componentStep_price_error b ctx res comp s w prods0 prods w1 prices err w2 :
  product.Filter_ (cost.Product b) ctx (query.ProductFilter comp) w
    = ((prods0 :: prods, None), w1) ->
  price.Filter_ (cost.Price b) ctx (product.ID prods0) (query.PriceFilter comp) w1
    = ((prices, Some err), w2) ->
  cost.componentStep (Some b) ctx res comp s w =
  cost.addComponent (query.Address res) (query.Name comp) (cost.ComponentError err) s w2.
Proof.
  intros H1 H2.
  unfold cost.componentStep, cost.productFilter, cost.priceFilter, mbind, cost.M_bind.
  rewrite H1, H2. reflexivity.
Qed.

Lemma componentStep_no_price b ctx res comp s w prods0 prods w1 w2 :
  product.Filter_ (cost.Product b) ctx (query.ProductFilter comp) w
    = ((prods0 :: prods, None), w1) ->
  price.Filter_ (cost.Price b) ctx (product.ID prods0) (query.PriceFilter comp) w1
    = (([], None), w2) ->
  cost.componentStep (Some b) ctx res comp s w =
  cost.addComponent (query.Address res) (query.Name comp)
    (cost.ComponentError ErrPriceNotFound) s w2.
Proof.
  intros H1 H2.
  unfold cost.componentStep, cost.productFilter, cost.priceFilter, mbind, cost.M_bind.
  rewrite H1, H2. reflexivity.
Qed.

Lemma componentStep_priced b ctx res comp s w prods0 prods w1 prices0 prices w2 :
  product.Filter_ (cost.Product b) ctx (query.ProductFilter comp) w
    = ((prods0 :: prods, None), w1) ->
  price.Filter_ (cost.Price b) ctx (product.ID prods0) (query.PriceFilter comp) w1
    = ((prices0 :: prices, None), w2) ->
  cost.componentStep (Some b) ctx res comp s w =
  cost.addComponent (query.Address res) (query.Name comp)
    (if decimal.Equals (query.MonthlyQuantity comp) decimal.Zero
     then cost.mkComponent (query.HourlyQuantity comp) (query.Unit comp)
            (decimal.Mul (price.Value_ prices0) (decimal.NewFromInt cost.HoursPerMonth))
            (query.Details comp) None
     else cost.mkComponent (query.MonthlyQuantity comp) (query.Unit comp)
            (price.Value_ prices0) (query.Details comp) None)
    s w2.
Proof.
  intros H1 H2.
  unfold cost.componentStep, cost.productFilter, cost.priceFilter, mbind, cost.M_bind.
  rewrite H1, H2.
  destruct (decimal.Equals (query.MonthlyQuantity comp) decimal.Zero); reflexivity.
Qed.

(** Whatever the lookups answer, the body of the loop ends in exactly one
    insertion at the address of the resource, under the name of the
    component. *)
Lemma componentStep_inserts b ctx res comp s w :
  exists c w1,
    cost.componentStep (Some b) ctx res comp s w =
    cost.addComponent (query.Address res) (query.Name comp) c s w1.
Proof.
  destruct (product.Filter_ (cost.Product b) ctx (query.ProductFilter comp) w)
    as [[prods [err|]] w1] eqn:H1.
  { eexists _, _. by eapply componentStep_product_error. }
  destruct prods as [|prods0 prods].
  { eexists _, _. by eapply componentStep_no_product. }
  destruct (price.Filter_ (cost.Price b) ctx (product.ID prods0)
              (query.PriceFilter comp) w1) as [[prices [err|]] w2] eqn:H2.
  { eexists _, _. by eapply componentStep_price_error. }
  destruct prices as [|prices0 prices].
  { eexists _, _. by eapply componentStep_no_price. }
  eexists _, _. by eapply componentStep_priced.
Qed.

(** *** The two loops *)

Lemma forComponents_cons_Done backend ctx res comp rest s w s' w' :
  cost.componentStep backend ctx res comp s w = Done (tt, s', w') ->
  cost.forComponents backend ctx res (comp :: rest) s w =
  cost.forComponents backend ctx res rest s' w'.
Proof. intros H. simpl. by rewrite (bind_Done _ _ _ _ _ _ _ H). Qed.

Lemma forComponents_app backend ctx res comps1 comps2 s w :
  cost.forComponents backend ctx res (comps1 ++ comps2) s w =
  match cost.forComponents backend ctx res comps1 s w with
  | Done (_, s', w') => cost.forComponents backend ctx res comps2 s' w'
  | Panicked p => Panicked p
  end.
Proof.
  revert s w. induction comps1 as [|comp comps1 IH]; intros s w; [reflexivity|].
  simpl. unfold mbind, cost.M_bind.
  destruct (cost.componentStep backend ctx res comp s w) as [[[[] s'] w']|p];
    [apply IH|reflexivity].
Qed.

Lemma forResources_app backend ctx queries1 queries2 s w :
  cost.forResources backend ctx (queries1 ++ queries2) s w =
  match cost.forResources backend ctx queries1 s w with
  | Done (_, s', w') => cost.forResources backend ctx queries2 s' w'
  | Panicked p => Panicked p
  end.
Proof.
  revert s w. induction queries1 as [|res queries1 IH]; intros s w; [reflexivity|].
  cbn [cost.forResources app]. unfold mbind, cost.M_bind.
  destruct (cost.resourceStep backend ctx res s w) as [[[[] s'] w']|p];
    [apply IH|reflexivity].
Qed.

(** A resource without components is marked and nothing else happens: no
    lookup (the world is untouched, the backend may even be nil) and no
    insertion. *)
Lemma resourceStep_no_components backend ctx res s w :
  query.Components res = [] ->
  cost.resourceStep backend ctx res s w =
  Done (tt, cost.mkState (<[query.Address res := cost.mkResource None true]>
                            (cost.Resources s)), w).
Proof. intros H. unfold cost.resourceStep. rewrite H. reflexivity. Qed.

Lemma resourceStep_components backend ctx res s w :
  query.Components res ≠ [] ->
  cost.resourceStep backend ctx res s w =
  cost.forComponents backend ctx res (query.Components res) s w.
Proof.
  intros H. unfold cost.resourceStep.
  destruct (query.Components res); [done|reflexivity].
Qed.

(** *** Which maps the insertions write to *)

Lemma componentStep_Done backend ctx res comp s w u s' w' :
  cost.componentStep backend ctx res comp s w = Done (u, s', w') ->
  cost.writable s (query.Address res) /\
  cost.writable s' (query.Address res) /\
  is_Some (cost.componentAt s' (query.Address res) (query.Name comp)) /\
  (forall a, a ≠ query.Address res -> cost.Resources s' !! a = cost.Resources s !! a).
Proof.
  destruct backend as [b|]; [|discriminate].
  destruct (componentStep_inserts b ctx res comp s w) as (c & w1 & ->).
  intros H. apply addComponent_Done in H as (_ & ? & ? & ? & ?). eauto 6.
Qed.

Lemma componentStep_writable backend ctx res comp s w :
  cost.writable s (query.Address res) ->
  match cost.componentStep backend ctx res comp s w with
  | Done _ => True
  | Panicked p => p = NilDereference /\ backend = None
  end.
Proof.
  intros Hw. destruct backend as [b|]; [|by rewrite componentStep_nil_backend].
  destruct (componentStep_inserts b ctx res comp s w) as (c & w1 & ->).
  destruct (addComponent_cases (query.Address res) (query.Name comp) c s w1)
    as [[_ (? & ? & ->)]|[Hn _]]; [done|contradiction].
Qed.

Lemma forComponents_writable backend ctx res comps s w :
  cost.writable s (query.Address res) ->
  match cost.forComponents backend ctx res comps s w with
  | Done (_, s', _) =>
      cost.writable s' (query.Address res) /\
      (forall a, a ≠ query.Address res ->
                 cost.Resources s' !! a = cost.Resources s !! a)
  | Panicked p => p = NilDereference /\ backend = None
  end.
Proof.
  revert s w. induction comps as [|comp rest IH]; intros s w Hw; [done|].
  cbn [cost.forComponents]. unfold mbind, cost.M_bind.
  pose proof (componentStep_writable backend ctx res comp s w Hw) as Hstep.
  destruct (cost.componentStep backend ctx res comp s w) as [[[[] s1] w1]|p] eqn:E;
    [|done].
  apply componentStep_Done in E as (_ & Hw1 & _ & Hframe).
  specialize (IH s1 w1 Hw1).
  destruct (cost.forComponents backend ctx res rest s1 w1) as [[[[] s2] w2]|p]; [|done].
  destruct IH as [Hw2 Hframe2]. split; [done|].
  intros a Ha. by rewrite Hframe2, Hframe.
Qed.

Lemma forComponents_nil_backend ctx res comp rest s w :
  cost.forComponents None ctx res (comp :: rest) s w = Panicked NilDereference.
Proof. reflexivity. Qed.

(** With pairwise distinct addresses, none of them in the state yet, the
    outer loop never writes to a nil map, and it leaves the other addresses
    alone. *)
Lemma forResources_distinct backend ctx queries s w :
  NoDup (query.Address <$> queries) ->
  (forall res, res ∈ queries -> cost.Resources s !! query.Address res = None) ->
  match cost.forResources backend ctx queries s w with
  | Done (_, s', _) =>
      forall a, a ∉ query.Address <$> queries ->
                cost.Resources s' !! a = cost.Resources s !! a
  | Panicked p => p = NilDereference /\ backend = None
  end.
Proof.
  revert s w. induction queries as [|res rest IH]; intros s w Hnd Hfresh; [done|].
  rewrite fmap_cons in Hnd. apply NoDup_cons in Hnd as [Hnotin Hnd].
  cbn [cost.forResources]. unfold mbind, cost.M_bind.
  assert (Hstep : match cost.resourceStep backend ctx res s w with
                  | Done (_, s1, _) =>
                      forall a, a ≠ query.Address res ->
                                cost.Resources s1 !! a = cost.Resources s !! a
                  | Panicked p => p = NilDereference /\ backend = None
                  end).
  { destruct (query.Components res) as [|comp comps] eqn:Hc.
    - rewrite resourceStep_no_components by done. intros a Ha. simpl.
      by rewrite lookup_insert_ne.
    - rewrite resourceStep_components by (rewrite Hc; done).
      pose proof (forComponents_writable backend ctx res (query.Components res) s w) as H.
      unfold cost.writable at 1 in H. rewrite (Hfresh res) in H by left.
      specialize (H I).
      destruct (cost.forComponents backend ctx res (query.Components res) s w)
        as [[[[] s1] w1]|p]; [apply H|done]. }
  destruct (cost.resourceStep backend ctx res s w) as [[[[] s1] w1]|p]; [|done].
  assert (Hfresh1 : forall res', res' ∈ rest ->
                                 cost.Resources s1 !! query.Address res' = None).
  { intros res' Hin. rewrite Hstep.
    - apply Hfresh. by right.
    - intros Heq. apply Hnotin. rewrite <- Heq. by apply list_elem_of_fmap_2. }
  specialize (IH s1 w1 Hnd Hfresh1).
  destruct (cost.forResources backend ctx rest s1 w1) as [[[[] s2] w2]|p]; [|done].
  intros a Ha. rewrite fmap_cons in Ha. apply not_elem_of_cons in Ha as [Ha1 Ha2].
  by rewrite IH, Hstep.
Qed.

(** *** Skipped resources stay skipped *)

Lemma forComponents_keeps_skipped backend ctx res comps s w u s' w' (a : string) :
  cost.Resources s !! a = Some (cost.mkResource None true) ->
  cost.forComponents backend ctx res comps s w = Done (u, s', w') ->
  cost.Resources s' !! a = Some (cost.mkResource None true).
Proof.
  revert s w. induction comps as [|comp rest IH]; intros s w Hs H.
  - injection H as _ <- _. done.
  - cbn [cost.forComponents] in H. unfold mbind, cost.M_bind in H.
    destruct (cost.componentStep backend ctx res comp s w) as [[[[] s1] w1]|p] eqn:E;
      [|discriminate].
    apply componentStep_Done in E as (Hw & _ & _ & Hframe).
    apply (IH s1 w1); [|done]. rewrite Hframe; [done|].
    intros ->. unfold cost.writable in Hw. rewrite Hs in Hw. by destruct Hw.
Qed.

Lemma resourceStep_keeps_skipped backend ctx res s w u s' w' (a : string) :
  cost.Resources s !! a = Some (cost.mkResource None true) ->
  cost.resourceStep backend ctx res s w = Done (u, s', w') ->
  cost.Resources s' !! a = Some (cost.mkResource None true).
Proof.
  intros Hs H. destruct (query.Components res) as [|comp comps] eqn:Hc.
  - rewrite resourceStep_no_components in H by done. injection H as _ <- _. simpl.
    destruct (decide (query.Address res = a)) as [->|Hne];
      [by rewrite lookup_insert_eq|by rewrite lookup_insert_ne].
  - rewrite resourceStep_components in H by (rewrite Hc; done).
    by eapply forComponents_keeps_skipped.
Qed.

Lemma forResources_keeps_skipped backend ctx queries s w u s' w' (a : string) :
  cost.Resources s !! a = Some (cost.mkResource None true) ->
  cost.forResources backend ctx queries s w = Done (u, s', w') ->
  cost.Resources s' !! a = Some (cost.mkResource None true).
Proof.
  revert s w. induction queries as [|res rest IH]; intros s w Hs H.
  - injection H as _ <- _. done.
  - cbn [cost.forResources] in H. unfold mbind, cost.M_bind in H.
    destruct (cost.resourceStep backend ctx res s w) as [[[[] s1] w1]|p] eqn:E;
      [|discriminate].
    apply (IH s1 w1); [|done]. by eapply resourceStep_keeps_skipped.
Qed.

End BuilderFacts.

(** ** A lookup that fails with the cancellation error *)

(** C6, as the claim states it, fails: here the price lookup of the build
    fails with the cancellation error, and [NewState] returns a state
    together with a nil error. *)
Lemma NewState_cancelled_returns_state :
  ~ (price.Filter_ (cost.Price sample.cancelling) Background 1
       (Some (price.mkFilter None [])) 0%nat = (([], Some Canceled), 0%nat) ->
     ~ exists st wEnd,
         cost.NewState Background (Some sample.cancelling)
           [sample.compute1; sample.volume1] 1%nat = Done (st, None, wEnd)).
Proof.
  intros H. apply H; [reflexivity|].
  eexists _, _. vm_compute. reflexivity.
Qed.

(** ** When the build fails *)

(** [NewState] never returns an error. *)
Lemma NewState_error_nil {B} ctx (backend : option (cost.Backend B)) queries w st err w' :
  cost.NewState ctx backend queries w = Done (st, err, w') -> err = None.
Proof.
  unfold cost.NewState.
  destruct (cost.forResources backend ctx queries (cost.mkState ∅) w)
    as [[[[] s1] w1]|p]; [|discriminate].
  intros H. by injection H as _ <- _.
Qed.

(** With pairwise distinct addresses the build never writes to a nil map. *)
Lemma NewState_distinct {B} ctx (backend : option (cost.Backend B)) queries w :
  NoDup (query.Address <$> queries) ->
  match cost.NewState ctx backend queries w with
  | Done (_, err, _) => err = None
  | Panicked p => p = NilDereference /\ backend = None
  end.
Proof.
  intros Hnd. unfold cost.NewState.
  pose proof (forResources_distinct backend ctx queries (cost.mkState ∅) w Hnd) as H.
  destruct (cost.forResources backend ctx queries (cost.mkState ∅) w)
    as [[[[] s1] w1]|p]; [done|].
  apply H. intros res _. apply lookup_empty.
Qed.

(** A nil backend is only noticed at the first lookup. *)
Lemma forResources_nil_backend {B} ctx queries s (w : B) :
  (Forall (fun res => query.Components res = []) queries /\
   exists s', cost.forResources None ctx queries s w = Done (tt, s', w)) \/
  (Exists (fun res => query.Components res ≠ []) queries /\
   cost.forResources None ctx queries s w = Panicked NilDereference).
Proof.
  revert s. induction queries as [|res rest IH]; intros s.
  - left. split; [constructor|]. by exists s.
  - cbn [cost.forResources]. unfold mbind, cost.M_bind.
    destruct (query.Components res) as [|comp comps] eqn:Hc.
    + rewrite resourceStep_no_components by done.
      destruct (IH (cost.mkState (<[query.Address res := cost.mkResource None true]>
                                    (cost.Resources s)))) as [[Hall [s' ->]]|[Hex ->]].
      * left. split; [by constructor|]. by exists s'.
      * right. split; [by apply Exists_cons_tl|done].
    + right. split; [apply Exists_cons_hd; by rewrite Hc|].
      rewrite resourceStep_components by (by rewrite Hc).
      rewrite Hc. reflexivity.
Qed.

(** C5, as the code has it. [NewState] has no failure of its own to report:
    whenever it returns, the error is nil. With a backend and pairwise
    distinct addresses it returns a state, whatever the lookups answer. A nil
    backend is not checked for: without any component to look up the call
    returns a state and a nil error, and with one it stops in a nil
    dereference at the first lookup. *)
Theorem NewState_returns_no_error {B} ctx (backend : option (cost.Backend B)) queries w :
  (forall st err w', cost.NewState ctx backend queries w = Done (st, err, w') -> err = None) /\
  (forall b, backend = Some b -> NoDup (query.Address <$> queries) ->
     exists st w', cost.NewState ctx backend queries w = Done (st, None, w')) /\
  (backend = None -> Forall (fun res => query.Components res = []) queries ->
     exists st, cost.NewState ctx backend queries w = Done (st, None, w)) /\
  (backend = None -> Exists (fun res => query.Components res ≠ []) queries ->
     cost.NewState ctx backend queries w = Panicked NilDereference).
Proof.
  split; [intros st err w'; apply NewState_error_nil|]. split; [|split].
  - intros b -> Hnd. pose proof (NewState_distinct ctx (Some b) queries w Hnd) as H.
    destruct (cost.NewState ctx (Some b) queries w) as [[[st err] w']|p].
    + subst err. by exists st, w'.
    + by destruct H.
  - intros -> Hall. unfold cost.NewState.
    destruct (forResources_nil_backend ctx queries (cost.mkState ∅) w)
      as [[_ [s' ->]]|[Hex _]]; [by exists s'|].
    exfalso. apply Exists_exists in Hex as (res & Hin & Hne).
    rewrite Forall_forall in Hall. by apply Hne, Hall.
  - intros -> Hex. unfold cost.NewState.
    destruct (forResources_nil_backend ctx queries (cost.mkState ∅) w)
      as [[Hall _]|[_ ->]]; [|done].
    exfalso. apply Exists_exists in Hex as (res & Hin & Hne).
    rewrite Forall_forall in Hall. by apply Hne, Hall.
Qed.

(** The samples, with a backend and without one. *)
Lemma NewState_returns_no_error_witness :
  (exists st w', cost.NewState Background (Some sample.memory)
                   [sample.compute1; sample.gateway1; sample.database1] 0%nat
                 = Done (st, None, w')) /\
  (exists st, cost.NewState Background (@None (cost.Backend nat)) [sample.gateway1] 0%nat
              = Done (st, None, 0%nat)) /\
  cost.NewState Background (@None (cost.Backend nat)) [sample.gateway1; sample.compute1] 0%nat
    = Panicked NilDereference.
Proof.
  split; [|split].
  - destruct (NewState_returns_no_error Background (Some sample.memory)
                [sample.compute1; sample.gateway1; sample.database1] 0%nat)
      as (_ & H & _).
    apply (H sample.memory eq_refl). by apply (bool_decide_unpack _).
  - destruct (NewState_returns_no_error Background (@None (cost.Backend nat))
                [sample.gateway1] 0%nat) as (_ & _ & H & _).
    apply (H eq_refl). repeat constructor.
  - destruct (NewState_returns_no_error Background (@None (cost.Backend nat))
                [sample.gateway1; sample.compute1] 0%nat) as (_ & _ & _ & H).
    apply (H eq_refl). apply Exists_cons_tl, Exists_cons_hd. discriminate.
Defined.

(** C5, as the claim states it, fails: with a nil backend and nothing to look
    up, the build does not fail. *)
Lemma NewState_nil_backend_returns_state :
  ~ cost.failed (cost.NewState Background (@None (cost.Backend nat)) [sample.gateway1] 0%nat).
Proof. vm_compute. exact (fun H => H). Qed.

(** ** Insertions and the maps they write to *)

(** C10. Let the addresses of the query resources be pairwise distinct. Then
    at every point where the builder inserts a component (after the resources
    [pre] and the components [cpre] of the resource [res]), the address of
    [res] is writable: it holds no resource yet, or one whose map is
    allocated, never a skipped resource with its nil map; so the insertion
    returns. The first insertion at an address creates the resource with a
    fresh map that holds just the component. [NewState] therefore never
    stops on a write to a nil map, and with a backend it returns a state. *)
Theorem NewState_insertions_find_allocated_maps {B} ctx (backend : option (cost.Backend B))
    queries w :
  NoDup (query.Address <$> queries) ->
  (forall pre res post cpre comp cpost u1 s1 w1 u2 s2 w2,
     queries = pre ++ res :: post ->
     query.Components res = cpre ++ comp :: cpost ->
     cost.forResources backend ctx pre (cost.mkState ∅) w = Done (u1, s1, w1) ->
     cost.forComponents backend ctx res cpre s1 w1 = Done (u2, s2, w2) ->
     cost.writable s2 (query.Address res) /\
     (forall l c (w3 : B), exists s3,
        cost.addComponent (query.Address res) l c s2 w3 = Done (tt, s3, w3)) /\
     (cpre = [] ->
      forall l c (w3 : B),
        cost.addComponent (query.Address res) l c s2 w3 =
        Done (tt, cost.mkState (<[query.Address res :=
                                   cost.mkResource (Some {[l := c]}) false]>
                                  (cost.Resources s2)), w3))) /\
  cost.NewState ctx backend queries w ≠ Panicked NilMapWrite /\
  (forall b, backend = Some b ->
     exists st w', cost.NewState ctx backend queries w = Done (st, None, w')).
Proof.
  intros Hnd. split; [|split].
  - intros pre res post cpre comp cpost u1 s1 w1 u2 s2 w2 -> Hc Hpre Hcpre.
    rewrite fmap_app, fmap_cons in Hnd.
    apply NoDup_app in Hnd as (Hndpre & Hnotin & _).
    assert (Hfresh : cost.Resources s1 !! query.Address res = None).
    { pose proof (forResources_distinct backend ctx pre (cost.mkState ∅) w Hndpre) as H.
      rewrite Hpre in H. rewrite H; [apply lookup_empty| |].
      - intros res' _. apply lookup_empty.
      - intros Hin. apply (Hnotin _ Hin). by left. }
    assert (Hw1 : cost.writable s1 (query.Address res)).
    { unfold cost.writable. by rewrite Hfresh. }
    pose proof (forComponents_writable backend ctx res cpre s1 w1 Hw1) as H.
    rewrite Hcpre in H. destruct H as [Hw2 _].
    split; [done|]. split.
    + intros l c w3.
      destruct (addComponent_cases (query.Address res) l c s2 w3)
        as [[_ (comps & sk & ->)]|[Hn _]]; [eauto|contradiction].
    + intros -> l c w3. injection Hcpre as _ <- _. by apply addComponent_fresh.
  - pose proof (NewState_distinct ctx backend queries w Hnd) as H. intros E.
    rewrite E in H. by destruct H.
  - intros b ->. pose proof (NewState_distinct ctx (Some b) queries w Hnd) as H.
    destruct (cost.NewState ctx (Some b) queries w) as [[[st err] w']|p].
    + subst err. by exists st, w'.
    + by destruct H.
Qed.

(** After the skipped gateway, the first insertion for the compute resource
    creates its resource with a fresh map. *)
Lemma NewState_insertions_find_allocated_maps_witness :
  let s := cost.mkState {["gateway-1" := cost.mkResource None true]} in
  let c := cost.ComponentError ErrProductNotFound in
  cost.addComponent "compute-1" "instance" c s 1%nat =
  Done (tt, cost.mkState (<["compute-1" := cost.mkResource (Some {["instance" := c]}) false]>
                            (cost.Resources s)), 1%nat).
Proof.
  intros s c.
  destruct (NewState_insertions_find_allocated_maps Background (Some sample.memory)
              [sample.gateway1; sample.compute1] 0%nat
              ltac:(by apply (bool_decide_unpack _))) as (H & _ & _).
  destruct (H [sample.gateway1] sample.compute1 [] []
              (sample.hourly "instance" "Compute" 1) [] tt s 0%nat tt s 0%nat
              eq_refl eq_refl) as (_ & _ & Hfirst).
  - vm_compute. reflexivity.
  - reflexivity.
  - exact (Hfirst eq_refl "instance" c 1%nat).
Defined.

(** Without distinct addresses the precondition is needed: a resource
    without components followed by one with a component at the same address
    writes to the nil map of the skipped resource. *)
Example NewState_skipped_then_component :
  cost.NewState Background (Some sample.memory)
    [sample.gateway1; sample.gateway1Again] 0%nat = Panicked NilMapWrite.
Proof. vm_compute. reflexivity. Qed.

(** ** Totals *)
Section Totals.

Lemma foldl_Add_Permutation (l l' : list Decimal) :
  l ≡ₚ l' -> forall a, foldl decimal.Add a l = foldl decimal.Add a l'.
Proof.
  induction 1 as [|x l l' _ IH|x y l|l l' l'' _ IH1 _ IH2]; intros a; simpl.
  - reflexivity.
  - apply IH.
  - f_equal. rewrite !Add_assoc. f_equal. apply Add_comm.
  - by rewrite IH1.
Qed.

(** The order in which a map is ranged over does not change a total. *)
Lemma sumCosts_Permutation (l l' : list Decimal) :
  l ≡ₚ l' -> cost.sumCosts l = cost.sumCosts l'.
Proof. intros H. by apply foldl_Add_Permutation. Qed.

Lemma sumCosts_cons_Zero (l : list Decimal) :
  cost.sumCosts (decimal.Zero :: l) = cost.sumCosts l.
Proof. reflexivity. Qed.

Lemma Qsum_cons (x : Q) (l : list Q) : cost.Qsum (x :: l) = (x + cost.Qsum l)%Q.
Proof. reflexivity. Qed.

Lemma toQ_foldl_Add (l : list Decimal) (a : Decimal) :
  (decimal.toQ (foldl decimal.Add a l) ==
   decimal.toQ a + cost.Qsum (decimal.toQ <$> l))%Q.
Proof.
  revert a. induction l as [|x l IH]; intros a.
  - simpl. ring.
  - rewrite fmap_cons, Qsum_cons. cbn [foldl]. rewrite IH, toQ_Add. ring.
Qed.

Lemma toQ_sumCosts (l : list Decimal) :
  (decimal.toQ (cost.sumCosts l) == cost.Qsum (decimal.toQ <$> l))%Q.
Proof. unfold cost.sumCosts. rewrite toQ_foldl_Add, toQ_Zero. ring. Qed.

Lemma Qsum_ext {A} (f g : A -> Q) (l : list A) :
  (forall x, x ∈ l -> (f x == g x)%Q) ->
  (cost.Qsum (f <$> l) == cost.Qsum (g <$> l))%Q.
Proof.
  induction l as [|x l IH]; intros H; [reflexivity|].
  rewrite !fmap_cons, !Qsum_cons. rewrite (H x) by left. rewrite IH; [reflexivity|].
  intros y Hy. apply H. by right.
Qed.

(** A component in error adds nothing; the others add quantity times
    rate. *)
Lemma Qsum_resolved (l : list cost.Component) :
  (cost.Qsum (decimal.toQ <$> (cost.ComponentCost <$>
                filter (fun c => cost.resolved c = true) l)) ==
   cost.Qsum (cost.lineTotal <$> l))%Q.
Proof.
  induction l as [|c l IH]; [reflexivity|].
  rewrite filter_cons, (fmap_cons cost.lineTotal), Qsum_cons.
  unfold cost.lineTotal at 1.
  destruct (decide (cost.resolved c = true)) as [E|E].
  - rewrite E, !fmap_cons, Qsum_cons, IH. unfold cost.ComponentCost.
    rewrite toQ_Mul. reflexivity.
  - apply not_true_is_false in E. rewrite E, IH. ring.
Qed.

Lemma toQ_ResourceCost (re : cost.Resource) :
  (decimal.toQ (cost.ResourceCost re) == cost.resourceTotal re)%Q.
Proof.
  unfold cost.ResourceCost, cost.resourceTotal. rewrite toQ_sumCosts. apply Qsum_resolved.
Qed.

End Totals.

(** C2. The cost of a state is the sum, over its resources, of the sum over
    the components of each of quantity times rate for a component without an
    error and of nothing for a component with one; and the cost of a
    resource is that inner sum. The sums are those of the rational numbers
    that the decimals stand for. *)
Theorem Cost_is_sum_of_resolved_components (s : cost.State) :
  (decimal.toQ (cost.Cost s) == cost.stateTotal s)%Q /\
  (forall re, (decimal.toQ (cost.ResourceCost re) ==
               cost.Qsum ((fun c => match cost.Error c with
                                    | None => decimal.toQ (cost.Quantity c) *
                                              decimal.toQ (cost.Rate c)
                                    | Some _ => 0
                                    end) <$> (cost.componentsOf re).*2))%Q).
Proof.
  split.
  - unfold cost.Cost, cost.stateTotal. rewrite toQ_sumCosts, <- list_fmap_compose.
    apply Qsum_ext. intros re _. apply toQ_ResourceCost.
  - intros re. rewrite toQ_ResourceCost. unfold cost.resourceTotal.
    apply Qsum_ext. intros c _. unfold cost.lineTotal, cost.resolved.
    destruct (cost.Error c); reflexivity.
Qed.

(** The third scenario of the specification: the volume costs 50.00, the
    database has its only component in error, and the state costs 50.00. *)
Example Cost_third_scenario :
  cost.Cost (cost.Planned sample.plan) = decimal.New 5000 (-2).
Proof. vm_compute. reflexivity. Qed.

(** ** Resources without components *)

(** C4. If the build returns, every query resource without components is in
    the state at its address as a skipped resource. For such a resource the
    body of the loop only records it: no lookup is made (the world of the
    backend is untouched) and no component is inserted. A skipped resource
    costs zero, and the cost of the state is the cost of the state without
    it. *)
Theorem NewState_skips_resources_without_components {B} ctx
    (backend : option (cost.Backend B)) queries w st err w' res :
  cost.NewState ctx backend queries w = Done (st, err, w') ->
  res ∈ queries ->
  query.Components res = [] ->
  (exists re, cost.Resources st !! query.Address res = Some re /\
              cost.Skipped re = true /\ cost.componentsOf re = [] /\
              cost.ResourceCost re = decimal.Zero) /\
  (forall s0 w0,
     cost.resourceStep backend ctx res s0 w0 =
     Done (tt, cost.mkState (<[query.Address res := cost.mkResource None true]>
                               (cost.Resources s0)), w0)) /\
  cost.Cost st = cost.Cost (cost.mkState (delete (query.Address res) (cost.Resources st))).
Proof.
  intros HN Hin Hc.
  assert (Hst : cost.Resources st !! query.Address res = Some (cost.mkResource None true)).
  { apply list_elem_of_split in Hin as (pre & post & ->).
    unfold cost.NewState in HN. rewrite forResources_app in HN.
    destruct (cost.forResources backend ctx pre (cost.mkState ∅) w)
      as [[[[] s1] w1]|p]; [|discriminate].
    cbn [cost.forResources] in HN. unfold mbind, cost.M_bind in HN.
    rewrite resourceStep_no_components in HN by done.
    destruct (cost.forResources backend ctx post _ w1) as [[[[] s2] w2]|p] eqn:E;
      [|discriminate].
    injection HN as <- _ _.
    eapply forResources_keeps_skipped; [|exact E]. simpl. apply lookup_insert_eq. }
  split; [|split].
  - eexists. split; [exact Hst|]. done.
  - intros s0 w0. by apply resourceStep_no_components.
  - unfold cost.Cost. cbn [cost.Resources].
    etrans; [apply sumCosts_Permutation;
             rewrite <- (map_to_list_delete _ _ _ Hst); reflexivity|].
    rewrite !fmap_cons. apply sumCosts_cons_Zero.
Qed.

(** The second scenario of the specification: the gateway resource has no
    component. *)
Lemma NewState_skips_resources_without_components_witness :
  exists st,
    cost.NewState Background (Some sample.memory)
      [sample.compute1; sample.gateway1; sample.volume1] 0%nat = Done (st, None, 4%nat) /\
    (exists re, cost.Resources st !! "gateway-1" = Some re /\
                cost.Skipped re = true /\ cost.componentsOf re = [] /\
                cost.ResourceCost re = decimal.Zero) /\
    cost.Cost st = cost.Cost (cost.mkState (delete "gateway-1" (cost.Resources st))).
Proof.
  eexists. split; [vm_compute; reflexivity|].
  destruct (NewState_skips_resources_without_components Background (Some sample.memory)
              [sample.compute1; sample.gateway1; sample.volume1] 0%nat _ None 4%nat
              sample.gateway1 ltac:(vm_compute; reflexivity)
              ltac:(apply list_elem_of_here || (apply list_elem_of_further, list_elem_of_here))
              eq_refl) as (H1 & _ & H3).
  split; [exact H1|exact H3].
Defined.

(** ** Diffs and the report *)
Section Report.

Lemma resolved_false (c : cost.Component) :
  cost.resolved c = false <-> exists e, cost.Error c = Some e.
Proof.
  unfold cost.resolved. destruct (cost.Error c) as [e|]; split; try done; eauto.
  intros [e ?]. discriminate.
Qed.

(** A side with a component in error has a recorded error, and it is the
    error of one of its components. *)
Lemma recordedError_Some (re : cost.Resource) l c e :
  (l, c) ∈ cost.componentsOf re -> cost.Error c = Some e ->
  exists l' c' e',
    (l', c') ∈ cost.componentsOf re /\ cost.Error c' = Some e' /\
    cost.recordedError re = Some e'.
Proof.
  intros Hin He. unfold cost.recordedError.
  destruct (list_find_elem_of (fun lc : string * cost.Component =>
                                 cost.resolved lc.2 = false)
              (cost.componentsOf re) (l, c) Hin) as [[i [l' c']] Hfind].
  { apply resolved_false. eauto. }
  rewrite Hfind. apply list_find_Some in Hfind as (Hl & HP & _).
  apply resolved_false in HP as [e' He']. simpl in He'.
  exists l', c', e'. split; [by eapply list_elem_of_lookup_2|done].
Qed.

Lemma recordedError_None (re : cost.Resource) l c :
  cost.recordedError re = None -> (l, c) ∈ cost.componentsOf re -> cost.Error c = None.
Proof.
  intros Hnone Hin. destruct (cost.Error c) as [e|] eqn:He; [|done].
  destruct (recordedError_Some re l c e Hin He) as (? & ? & ? & _ & _ & H). congruence.
Qed.

Lemma displayLoop_fmap (diffs : list cost.ResourceDiff) (out : list printed) :
  displayLoop diffs out = out ++ (displayStep <$> diffs).
Proof.
  revert out. induction diffs as [|res rest IH]; intros out; simpl.
  - by rewrite app_nil_r.
  - by rewrite IH, <- app_assoc.
Qed.

Lemma estimateDisplay_fmap (p : cost.Plan) :
  estimateDisplay p = displayStep <$> cost.ResourceDifferences p.
Proof. unfold estimateDisplay. by rewrite displayLoop_fmap. Qed.

(** The diffs of a plan: one for each address of either state, with the
    resource each state has there. *)
Lemma elem_of_ResourceDifferences (p : cost.Plan) (rd : cost.ResourceDiff) :
  rd ∈ cost.ResourceDifferences p <->
  cost.PriorResource rd = cost.Resources (cost.Prior p) !! cost.Address rd /\
  cost.PlannedResource rd = cost.Resources (cost.Planned p) !! cost.Address rd /\
  (is_Some (cost.PriorResource rd) \/ is_Some (cost.PlannedResource rd)).
Proof.
  unfold cost.ResourceDifferences. rewrite list_elem_of_fmap. split.
  - intros ([a [pr pl]] & -> & Hin). simpl.
    apply elem_of_map_to_list in Hin. rewrite lookup_merge in Hin.
    destruct (cost.Resources (cost.Prior p) !! a), (cost.Resources (cost.Planned p) !! a);
      simplify_eq/=; eauto.
  - destruct rd as [a pr pl]. simpl. intros (-> & -> & Hsome).
    exists (a, (cost.Resources (cost.Prior p) !! a, cost.Resources (cost.Planned p) !! a)).
    split; [done|]. apply elem_of_map_to_list. rewrite lookup_merge.
    destruct (cost.Resources (cost.Prior p) !! a), (cost.Resources (cost.Planned p) !! a);
      try done.
    destruct Hsome as [[? ?]|[? ?]]; discriminate.
Qed.

Lemma ResourceDifferences_address (p : cost.Plan) (rd rd' : cost.ResourceDiff) :
  rd ∈ cost.ResourceDifferences p -> rd' ∈ cost.ResourceDifferences p ->
  cost.Address rd = cost.Address rd' -> rd = rd'.
Proof.
  intros (H1 & H2 & _)%elem_of_ResourceDifferences
         (H1' & H2' & _)%elem_of_ResourceDifferences Ha.
  destruct rd, rd'. simpl in *. congruence.
Qed.

End Report.

(** C7, as the code has it. For every diff of a plan: if a component of
    the resource on the prior side carries an error, [PriorCost] fails with
    the error recorded on a component of that side (the error of that
    component when the side has no other error), and the line printed for
    the resource is that error against its address. If a component on the
    planned side carries an error, [PlannedCost] fails likewise; its error
    is the one printed when the prior side has a cost, but when the prior
    side fails as well the loop goes on to the next resource before it asks
    for the planned cost: the line printed has the error of the prior side,
    and no line of the report has an error of the planned cost against the
    address. In every case the line of the resource is in the report and no
    line of the report gives cost figures for its address. *)
Theorem estimateDisplay_reports_component_errors (p : cost.Plan) (rd : cost.ResourceDiff)
    (side : option cost.Resource) (re : cost.Resource) l c e :
  rd ∈ cost.ResourceDifferences p ->
  side = Some re ->
  (l, c) ∈ cost.componentsOf re ->
  cost.Error c = Some e ->
  (side = cost.PriorResource rd ->
   exists l' c' e',
     (l', c') ∈ cost.componentsOf re /\ cost.Error c' = Some e' /\
     ((forall l2 c2 e2, (l2, c2) ∈ cost.componentsOf re ->
                        cost.Error c2 = Some e2 -> e2 = e) -> e' = e) /\
     cost.PriorCost rd = inr e' /\
     displayStep rd = PriorCostFailed (cost.Address rd) e') /\
  (side = cost.PlannedResource rd ->
   exists l' c' e',
     (l', c') ∈ cost.componentsOf re /\ cost.Error c' = Some e' /\
     ((forall l2 c2 e2, (l2, c2) ∈ cost.componentsOf re ->
                        cost.Error c2 = Some e2 -> e2 = e) -> e' = e) /\
     cost.PlannedCost rd = inr e' /\
     (forall priorCost, cost.PriorCost rd = inl priorCost ->
        displayStep rd = PlannedCostFailed (cost.Address rd) e') /\
     (forall priorErr, cost.PriorCost rd = inr priorErr ->
        displayStep rd = PriorCostFailed (cost.Address rd) priorErr /\
        forall err, PlannedCostFailed (cost.Address rd) err ∉ estimateDisplay p)) /\
  (side = cost.PriorResource rd \/ side = cost.PlannedResource rd ->
   displayStep rd ∈ estimateDisplay p /\
   forall priorCost plannedCost,
     Costs (cost.Address rd) priorCost plannedCost ∉ estimateDisplay p).
Proof.
  intros Hrd -> Hin He.
  destruct (recordedError_Some re l c e Hin He) as (l' & c' & e' & Hin' & He' & Hrec).
  assert (Hsame : (forall l2 c2 e2, (l2, c2) ∈ cost.componentsOf re ->
                                    cost.Error c2 = Some e2 -> e2 = e) -> e' = e)
    by (intros Hall; by apply (Hall l' c')).
  assert (Hprior : Some re = cost.PriorResource rd ->
                   cost.PriorCost rd = inr e' /\
                   displayStep rd = PriorCostFailed (cost.Address rd) e').
  { intros Hside. unfold displayStep, cost.PriorCost, cost.sideCost.
    by rewrite <- Hside, Hrec. }
  assert (Hplanned : Some re = cost.PlannedResource rd -> cost.PlannedCost rd = inr e').
  { intros Hside. unfold cost.PlannedCost, cost.sideCost. by rewrite <- Hside, Hrec. }
  assert (Hline : forall line, line ∈ estimateDisplay p ->
            (exists err, line = PriorCostFailed (cost.Address rd) err) \/
            (exists err, line = PlannedCostFailed (cost.Address rd) err) \/
            (exists c1 c2, line = Costs (cost.Address rd) c1 c2) ->
            line = displayStep rd).
  { intros line Hl Hshape. rewrite estimateDisplay_fmap in Hl.
    apply list_elem_of_fmap in Hl as (rd' & -> & Hrd').
    assert (Ha : cost.Address rd' = cost.Address rd).
    { unfold displayStep in Hshape.
      destruct (cost.PriorCost rd'); [destruct (cost.PlannedCost rd')|];
        destruct Hshape as [[? H]|[[? H]|(? & ? & H)]]; by simplify_eq. }
    by rewrite (ResourceDifferences_address p rd' rd Hrd' Hrd Ha). }
  split; [|split].
  - intros Hside. exists l', c', e'. destruct (Hprior Hside). done.
  - intros Hside. exists l', c', e'. split; [done|]. split; [done|]. split; [done|].
    split; [by apply Hplanned|]. split.
    + intros priorCost Hpc. unfold displayStep. by rewrite Hpc, (Hplanned Hside).
    + intros priorErr Hpc.
      assert (Hstep : displayStep rd = PriorCostFailed (cost.Address rd) priorErr)
        by (unfold displayStep; by rewrite Hpc).
      split; [done|]. intros err Hl.
      apply Hline in Hl; [|right; left; eauto]. congruence.
  - intros Hside. rewrite estimateDisplay_fmap. split; [by apply list_elem_of_fmap_2|].
    rewrite <- estimateDisplay_fmap. intros priorCost plannedCost Hl.
    apply Hline in Hl; [|right; right; eauto].
    unfold displayStep in Hl.
    destruct Hside as [Hside|Hside].
    + destruct (Hprior Hside) as [Hpc _]. by rewrite Hpc in Hl.
    + rewrite (Hplanned Hside) in Hl. by destruct (cost.PriorCost rd).
Qed.

(** The third scenario of the specification: the report has the missing
    product against the address of the database, and no figures for it. *)
Lemma estimateDisplay_reports_component_errors_witness :
  PlannedCostFailed "database-1" ErrProductNotFound ∈ estimateDisplay sample.plan /\
  forall priorCost plannedCost,
    Costs "database-1" priorCost plannedCost ∉ estimateDisplay sample.plan.
Proof.
  destruct (estimateDisplay_reports_component_errors sample.plan
              (cost.mkResourceDiff "database-1" None (Some sample.unpriced))
              (Some sample.unpriced) sample.unpriced "engine"
              (cost.ComponentError ErrProductNotFound) ErrProductNotFound)
    as (_ & _ & H).
  - apply elem_of_ResourceDifferences. vm_compute. eauto.
  - reflexivity.
  - vm_compute. left.
  - reflexivity.
  - exact (H (or_intror eq_refl)).
Defined.

(** C7, as the claim states it, fails: here the resource at one address
    fails on both sides, the prior side for a missing price and the planned
    side for a missing product. [PlannedCost]
    fails with the missing product, and the report, which is one line, has
    the error of the prior side only: the error of the planned side is not
    surfaced. *)
Lemma estimateDisplay_hides_planned_error_behind_prior :
  sample.bothFailDiff ∈ cost.ResourceDifferences sample.bothFail /\
  cost.PlannedResource sample.bothFailDiff = Some sample.unpriced /\
  ("engine", cost.ComponentError ErrProductNotFound) ∈ cost.componentsOf sample.unpriced /\
  cost.PlannedCost sample.bothFailDiff = inr ErrProductNotFound /\
  estimateDisplay sample.bothFail = [PriorCostFailed "database-1" ErrPriceNotFound] /\
  PlannedCostFailed "database-1" ErrProductNotFound ∉ estimateDisplay sample.bothFail.
Proof.
  split; [apply elem_of_ResourceDifferences; vm_compute; eauto|].
  split; [reflexivity|]. split; [vm_compute; left|]. split; [reflexivity|].
  assert (H : estimateDisplay sample.bothFail
              = [PriorCostFailed "database-1" ErrPriceNotFound])
    by (vm_compute; reflexivity).
  split; [exact H|]. rewrite H. intros Hin.
  apply list_elem_of_singleton in Hin. discriminate.
Qed.

(** ** Building twice *)
Section Idempotence.
Context {B : Type}.
Implicit Types (backend : option (cost.Backend B)) (s : cost.State) (w : B).

Lemma addComponent_sameState (a l : string) c s w w' :
  cost.sameState (cost.addComponent a l c s w) (cost.addComponent a l c s w').
Proof.
  destruct (addComponent_cases a l c s w) as [[Hw (comps & sk & E)]|[Hw E]];
    destruct (addComponent_cases a l c s w') as [[Hw' (comps' & sk' & E')]|[Hw' E']];
    try contradiction; rewrite E, E'; simpl; [|done].
  unfold cost.addComponent in E, E'.
  destruct (cost.Resources s !! a) as [re|];
    [destruct (cost.Resources s !! a) as [re'|]; [|done]|rewrite lookup_insert_eq in E, E'].
  - destruct (cost.Components re'); [|done]. congruence.
  - simpl in E, E'. congruence.
Qed.

Lemma componentStep_stable backend ctx res comp s w w' :
  (forall b, backend = Some b -> cost.stable b) ->
  cost.sameState (cost.componentStep backend ctx res comp s w)
                 (cost.componentStep backend ctx res comp s w').
Proof.
  intros Hst. destruct backend as [b|]; [|done]. specialize (Hst b eq_refl).
  destruct (Hst ctx w w') as [Hprod _].
  specialize (Hprod (query.ProductFilter comp)).
  destruct (product.Filter_ (cost.Product b) ctx (query.ProductFilter comp) w)
    as [[prods err] w1] eqn:H1.
  destruct (product.Filter_ (cost.Product b) ctx (query.ProductFilter comp) w')
    as [[prods' err'] w1'] eqn:H1'.
  simpl in Hprod. injection Hprod as <- <-.
  destruct err as [err|].
  { rewrite (componentStep_product_error _ _ _ _ _ _ _ _ _ H1),
            (componentStep_product_error _ _ _ _ _ _ _ _ _ H1').
    apply addComponent_sameState. }
  destruct prods as [|prods0 prods].
  { rewrite (componentStep_no_product _ _ _ _ _ _ _ H1),
            (componentStep_no_product _ _ _ _ _ _ _ H1').
    apply addComponent_sameState. }
  destruct (Hst ctx w1 w1') as [_ Hprice].
  specialize (Hprice (product.ID prods0) (query.PriceFilter comp)).
  destruct (price.Filter_ (cost.Price b) ctx (product.ID prods0)
              (query.PriceFilter comp) w1) as [[prices err] w2] eqn:H2.
  destruct (price.Filter_ (cost.Price b) ctx (product.ID prods0)
              (query.PriceFilter comp) w1') as [[prices' err'] w2'] eqn:H2'.
  simpl in Hprice. injection Hprice as <- <-.
  destruct err as [err|].
  { rewrite (componentStep_price_error _ _ _ _ _ _ _ _ _ _ _ _ H1 H2),
            (componentStep_price_error _ _ _ _ _ _ _ _ _ _ _ _ H1' H2').
    apply addComponent_sameState. }
  destruct prices as [|prices0 prices].
  { rewrite (componentStep_no_price _ _ _ _ _ _ _ _ _ _ H1 H2),
            (componentStep_no_price _ _ _ _ _ _ _ _ _ _ H1' H2').
    apply addComponent_sameState. }
  rewrite (componentStep_priced _ _ _ _ _ _ _ _ _ _ _ _ H1 H2),
          (componentStep_priced _ _ _ _ _ _ _ _ _ _ _ _ H1' H2').
  apply addComponent_sameState.
Qed.

Lemma forComponents_stable backend ctx res comps s w w' :
  (forall b, backend = Some b -> cost.stable b) ->
  cost.sameState (cost.forComponents backend ctx res comps s w)
                 (cost.forComponents backend ctx res comps s w').
Proof.
  intros Hst. revert s w w'. induction comps as [|comp rest IH]; intros s w w'; [done|].
  cbn [cost.forComponents]. unfold mbind, cost.M_bind.
  pose proof (componentStep_stable backend ctx res comp s w w' Hst) as H.
  destruct (cost.componentStep backend ctx res comp s w) as [[[[] s1] w1]|p],
           (cost.componentStep backend ctx res comp s w') as [[[[] s1'] w1']|p'];
    simpl in H; try done.
  subst s1'. apply IH.
Qed.

Lemma forResources_stable backend ctx queries s w w' :
  (forall b, backend = Some b -> cost.stable b) ->
  cost.sameState (cost.forResources backend ctx queries s w)
                 (cost.forResources backend ctx queries s w').
Proof.
  intros Hst. revert s w w'. induction queries as [|res rest IH]; intros s w w'; [done|].
  cbn [cost.forResources]. unfold mbind, cost.M_bind.
  assert (H : cost.sameState (cost.resourceStep backend ctx res s w)
                             (cost.resourceStep backend ctx res s w')).
  { destruct (query.Components res) as [|comp comps] eqn:Hc.
    - by rewrite !resourceStep_no_components.
    - rewrite !resourceStep_components by (by rewrite Hc).
      by apply forComponents_stable. }
  destruct (cost.resourceStep backend ctx res s w) as [[[[] s1] w1]|p],
           (cost.resourceStep backend ctx res s w') as [[[[] s1'] w1']|p'];
    simpl in H; try done.
  subst s1'. apply IH.
Qed.

End Idempotence.

(** C8. Against a catalog with stable responses (or without a backend at
    all), two builds from the same query resources return the same thing,
    whatever worlds they start in (in particular the second may start in the
    world the first one left): the same state, resource by resource and
    component by component, with the same cost, and the same nil error. *)
Theorem NewState_idempotent {B} (backend : option (cost.Backend B)) ctx queries (w w' : B) :
  (forall b, backend = Some b -> cost.stable b) ->
  cost.returned (cost.NewState ctx backend queries w) =
  cost.returned (cost.NewState ctx backend queries w') /\
  (forall st err w1 st' err' w1',
     cost.NewState ctx backend queries w = Done (st, err, w1) ->
     cost.NewState ctx backend queries w' = Done (st', err', w1') ->
     cost.Cost st = cost.Cost st' /\
     (forall address, cost.Resources st !! address = cost.Resources st' !! address) /\
     (forall address label,
        cost.componentAt st address label = cost.componentAt st' address label)).
Proof.
  intros Hst.
  assert (H : cost.returned (cost.NewState ctx backend queries w) =
              cost.returned (cost.NewState ctx backend queries w')).
  { unfold cost.NewState.
    pose proof (forResources_stable backend ctx queries (cost.mkState ∅) w w' Hst) as H.
    destruct (cost.forResources backend ctx queries (cost.mkState ∅) w)
      as [[[[] s1] w1]|p],
      (cost.forResources backend ctx queries (cost.mkState ∅) w')
      as [[[[] s1'] w1']|p']; simpl in H; try done; by subst. }
  split; [done|].
  intros st err w1 st' err' w1' E E'. rewrite E, E' in H. simpl in H.
  injection H as <- <-. done.
Qed.

(** The catalog in memory answers alike in every world; building again in
    the world the first build left gives the same result. *)
Lemma NewState_idempotent_witness :
  cost.returned (cost.NewState Background (Some sample.memory)
                   [sample.compute1; sample.database1] 0%nat) =
  cost.returned (cost.NewState Background (Some sample.memory)
                   [sample.compute1; sample.database1] 5%nat).
Proof.
  apply (NewState_idempotent (Some sample.memory) Background
           [sample.compute1; sample.database1] 0%nat 5%nat).
  intros b [= <-] ctx w w'. split; reflexivity.
Defined.

(** ** The components of a virtual network gateway *)
Section Gateway.
Variable float64 : Type.
Variable NewFromFloat : float64 -> Decimal.
Variable getLocationName : string -> string.
Variable getRegionToVNETZone : string -> string.

Local Abbreviation generate p vals :=
  (terraform.Components getRegionToVNETZone
     (terraform.newVirtualNetworkGateway float64 NewFromFloat getLocationName
        (Some p) vals)).

(** C9. The gateway has three components. The data transfer component is
    flagged as usage and its monthly quantity is the monthly data transfer
    of the usage estimate, whatever the SKU and the location of the
    configuration are; it has no hourly quantity. The two other components
    are not flagged, have the hourly quantity 1 and no monthly quantity, and
    are the same for every usage estimate. *)
Theorem gateway_data_transfer_quantity_from_usage (p : terraform.Provider)
    (vals : terraform.virtualNetworkGatewayValues float64) :
  exists gateway p2s transfer,
    generate p vals = Done [gateway; p2s; transfer] /\
    (query.Usage transfer = true /\
     query.MonthlyQuantity transfer =
       NewFromFloat (terraform.Usage_MonthlyDataTransferGB float64 vals) /\
     query.HourlyQuantity transfer = decimal.zeroValue) /\
    (query.Usage gateway = false /\ query.Usage p2s = false /\
     query.HourlyQuantity gateway = decimal.NewFromInt 1 /\
     query.HourlyQuantity p2s = decimal.NewFromInt 1 /\
     query.MonthlyQuantity gateway = decimal.zeroValue /\
     query.MonthlyQuantity p2s = decimal.zeroValue) /\
    (forall vals',
       terraform.SKU float64 vals' = terraform.SKU float64 vals ->
       terraform.Location float64 vals' = terraform.Location float64 vals ->
       exists transfer', generate p vals' = Done [gateway; p2s; transfer']) /\
    (forall vals',
       terraform.Usage_MonthlyDataTransferGB float64 vals' =
       terraform.Usage_MonthlyDataTransferGB float64 vals ->
       exists gateway' p2s' transfer',
         generate p vals' = Done [gateway'; p2s'; transfer'] /\
         query.Usage transfer' = true /\
         query.MonthlyQuantity transfer' = query.MonthlyQuantity transfer).
Proof.
  unfold terraform.Components, terraform.newVirtualNetworkGateway.
  destruct (String.eqb (terraform.SKU float64 vals) "Basic") eqn:E;
    cbn [terraform.provider terraform.location terraform.sku terraform.meterName
         terraform.monthlyDataTransferGB];
    (eexists _, _, _; split; [reflexivity|]; split; [done|]; split; [done|]; split;
     [ intros vals' Hsku Hloc; rewrite Hsku, Hloc, E;
       cbn [terraform.provider terraform.location terraform.sku terraform.meterName
            terraform.monthlyDataTransferGB];
       eexists; reflexivity
     | intros vals' Husage;
       destruct (String.eqb (terraform.SKU float64 vals') "Basic");
       cbn [terraform.provider terraform.location terraform.sku terraform.meterName
            terraform.monthlyDataTransferGB];
       (eexists _, _, _; split; [reflexivity|]; split; [done|]);
       cbn [query.MonthlyQuantity terraform.virtualNetworkGatewayDataTransfersComponent
            terraform.monthlyDataTransferGB];
       by rewrite Husage ]).
Qed.

End Gateway.

(** Two configurations with the same usage estimate of 120 GB a month, a
    Basic gateway in one region and a VpnGw1 gateway in another: the data
    transfer component asks for 120 in both. Usage estimates are whole
    numbers of GB here. *)
Lemma gateway_data_transfer_quantity_from_usage_witness :
  exists gateway' p2s' transfer',
    terraform.Components (fun _ => "Zone 1")
      (terraform.newVirtualNetworkGateway Z decimal.NewFromInt (fun l => l)
         (Some (terraform.mkProvider "azurerm"))
         (terraform.mkValues Z "VpnGw1" "North Europe" 120))
    = Done [gateway'; p2s'; transfer'] /\
    query.Usage transfer' = true /\
    query.MonthlyQuantity transfer' = decimal.NewFromInt 120.
Proof.
  destruct (gateway_data_transfer_quantity_from_usage Z decimal.NewFromInt (fun l => l)
              (fun _ => "Zone 1") (terraform.mkProvider "azurerm")
              (terraform.mkValues Z "Basic" "France Central" 120))
    as (gateway & p2s & transfer & _ & (_ & Hq & _) & _ & _ & H).
  destruct (H (terraform.mkValues Z "VpnGw1" "North Europe" 120) eq_refl)
    as (gateway' & p2s' & transfer' & Hc & Hu & Hm).
  exists gateway', p2s', transfer'. split; [exact Hc|]. split; [exact Hu|].
  rewrite Hm. exact Hq.
Defined.

(** * Further properties of the code *)

#[local] Set Warnings "-clear-no-such-hyp".

(** ** addComponent as an insertion into a map of maps *)
Section Insertion.
Context {B : Type}.
Implicit Types (s : cost.State) (w : B) (c : cost.Component).

(** Where the address is writable the insertion returns, and this is the
    state it leaves. *)
Lemma addComponent_writable (a l : string) c s w :
  cost.writable s a ->
  cost.addComponent a l c s w =
  Done (tt, cost.mkState (<[a := cost.mkResource
                                   (Some (<[l := c]> (cost.componentsIn s a)))
                                   (cost.skippedAt s a)]> (cost.Resources s)), w).
Proof.
  unfold cost.writable, cost.componentsIn, cost.skippedAt.
  destruct (cost.Resources s !! a) as [[[comps|] sk]|] eqn:H; simpl.
  - intros _. by apply addComponent_allocated.
  - intros [? ?]. discriminate.
  - intros _. rewrite insert_empty. by apply addComponent_fresh.
Qed.

Lemma addComponent_Done_state (a l : string) c s w u s' w' :
  cost.addComponent a l c s w = Done (u, s', w') ->
  cost.writable s a /\ w' = w /\
  s' = cost.mkState (<[a := cost.mkResource
                              (Some (<[l := c]> (cost.componentsIn s a)))
                              (cost.skippedAt s a)]> (cost.Resources s)).
Proof.
  intros H. destruct (addComponent_cases a l c s w) as [[Hw _]|[_ E]];
    [|rewrite E in H; discriminate].
  rewrite (addComponent_writable a l c s w Hw) in H. by injection H as _ <- <-.
Qed.

Lemma componentsIn_insert (R : gmap string cost.Resource) (a : string) m sk :
  cost.componentsIn (cost.mkState (<[a := cost.mkResource (Some m) sk]> R)) a = m.
Proof. unfold cost.componentsIn. simpl. by rewrite lookup_insert_eq. Qed.

Lemma skippedAt_insert (R : gmap string cost.Resource) (a : string) m sk :
  cost.skippedAt (cost.mkState (<[a := cost.mkResource m sk]> R)) a = sk.
Proof. unfold cost.skippedAt. simpl. by rewrite lookup_insert_eq. Qed.

Lemma componentsIn_insert_ne (R : gmap string cost.Resource) (a a' : string) re :
  a ≠ a' ->
  cost.componentsIn (cost.mkState (<[a := re]> R)) a' = cost.componentsIn (cost.mkState R) a'.
Proof. intros H. unfold cost.componentsIn. simpl. by rewrite lookup_insert_ne. Qed.

Lemma skippedAt_insert_ne (R : gmap string cost.Resource) (a a' : string) re :
  a ≠ a' ->
  cost.skippedAt (cost.mkState (<[a := re]> R)) a' = cost.skippedAt (cost.mkState R) a'.
Proof. intros H. unfold cost.skippedAt. simpl. by rewrite lookup_insert_ne. Qed.

Lemma writable_insert (R : gmap string cost.Resource) (a : string) m sk :
  cost.writable (cost.mkState (<[a := cost.mkResource (Some m) sk]> R)) a.
Proof. unfold cost.writable. simpl. rewrite lookup_insert_eq. simpl. eauto. Qed.

Lemma writable_insert_ne (R : gmap string cost.Resource) (a a' : string) re :
  a ≠ a' ->
  cost.writable (cost.mkState (<[a := re]> R)) a' <-> cost.writable (cost.mkState R) a'.
Proof. intros H. unfold cost.writable. simpl. by rewrite lookup_insert_ne. Qed.

End Insertion.

(** X1. An insertion that returns is a map insertion: afterwards the
    component is found at the address under the label, every other address
    and every other label of the same resource holds what it held before,
    the skipped flag of every resource is kept (a resource created by the
    insertion is not skipped), and the world is untouched. *)
Theorem addComponent_then_lookup {B} (a l : string) (c : cost.Component) (s : cost.State)
    (w : B) s' w' :
  cost.addComponent a l c s w = Done (tt, s', w') ->
  w' = w /\
  (forall a' l',
     cost.componentAt s' a' l' =
     if decide (a' = a /\ l' = l) then Some c else cost.componentAt s a' l') /\
  (forall a', cost.skippedAt s' a' = cost.skippedAt s a') /\
  is_Some (cost.Resources s' !! a).
Proof.
  intros H. apply addComponent_Done_state in H as (Hw & -> & ->).
  split; [done|]. split; [|split].
  - intros a' l'. unfold cost.componentAt. cbn [cost.Resources].
    destruct (decide (a' = a)) as [->|Ha].
    + rewrite lookup_insert_eq. simpl.
      destruct (decide (l' = l)) as [->|Hl].
      * rewrite lookup_insert_eq. by rewrite decide_True.
      * rewrite lookup_insert_ne by done. rewrite decide_False by (by intros [_ ?]).
        unfold cost.componentsIn, cost.writable in *.
        destruct (cost.Resources s !! a) as [[[comps|] sk]|]; simpl;
          first [done | by destruct Hw].
    + rewrite lookup_insert_ne by done. by rewrite decide_False by (by intros [? _]).
  - intros a'. destruct (decide (a = a')) as [<-|Ha].
    + by rewrite skippedAt_insert.
    + rewrite skippedAt_insert_ne by done. by destruct s.
  - cbn [cost.Resources]. rewrite lookup_insert_eq. eauto.
Qed.

Lemma addComponent_then_lookup_witness :
  let s := cost.mkState {["gateway-1" := cost.mkResource None true]} in
  let c := cost.ComponentError ErrPriceNotFound in
  let s' := cost.mkState (<["compute-1" := cost.mkResource (Some {["instance" := c]}) false]>
                            (cost.Resources s)) in
  cost.componentAt s' "compute-1" "instance" = Some c /\
  cost.componentAt s' "gateway-1" "instance" = None /\
  cost.skippedAt s' "gateway-1" = true.
Proof.
  intros s c s'.
  destruct (addComponent_then_lookup "compute-1" "instance" c s 0%nat s' 0%nat
              ltac:(vm_compute; reflexivity)) as (_ & Hl & Hs & _).
  split; [exact (Hl "compute-1" "instance")|].
  split; [exact (Hl "gateway-1" "instance")|exact (Hs "gateway-1")].
Defined.

(** X3. The last write wins: a second insertion at the same address under
    the same label leaves the state that it alone would have left. *)
Theorem addComponent_last_write_wins {B} (a l : string) (c1 c2 : cost.Component)
    (s : cost.State) (w : B) s1 w1 (w2 : B) :
  cost.addComponent a l c1 s w = Done (tt, s1, w1) ->
  cost.addComponent a l c2 s1 w2 = cost.addComponent a l c2 s w2.
Proof.
  intros H. apply addComponent_Done_state in H as (Hw & -> & ->).
  rewrite (addComponent_writable a l c2 s w2 Hw).
  rewrite addComponent_writable by apply writable_insert.
  rewrite componentsIn_insert, skippedAt_insert. cbn [cost.Resources].
  by rewrite insert_insert_eq, insert_insert_eq.
Qed.

Lemma addComponent_last_write_wins_witness :
  cost.addComponent "compute-1" "instance" (cost.ComponentError ErrPriceNotFound)
    (cost.mkState {["compute-1" :=
       cost.mkResource (Some {["instance" := cost.ComponentError Canceled]}) false]}) 7%nat =
  cost.addComponent "compute-1" "instance" (cost.ComponentError ErrPriceNotFound)
    (cost.mkState ∅) 7%nat.
Proof.
  apply (addComponent_last_write_wins "compute-1" "instance" (cost.ComponentError Canceled)
           (cost.ComponentError ErrPriceNotFound) (cost.mkState ∅) 0%nat _ 0%nat 7%nat).
  vm_compute. reflexivity.
Defined.

(** X4. Insertions under different keys commute: two insertions that differ
    in the address or in the label and return in one order return in the
    other order too, and leave the same state. *)
Theorem addComponent_commutes {B} (a l a' l' : string) (c c' : cost.Component)
    (s : cost.State) (w : B) s1 s2 :
  a ≠ a' \/ l ≠ l' ->
  cost.addComponent a l c s w = Done (tt, s1, w) ->
  cost.addComponent a' l' c' s1 w = Done (tt, s2, w) ->
  exists s1',
    cost.addComponent a' l' c' s w = Done (tt, s1', w) /\
    cost.addComponent a l c s1' w = Done (tt, s2, w).
Proof.
  intros Hne H1 H2.
  apply addComponent_Done_state in H1 as (Hw & _ & ->).
  apply addComponent_Done_state in H2 as (Hw' & _ & ->).
  destruct s as [R]. cbn [cost.Resources] in *.
  destruct (decide (a = a')) as [<-|Ha].
  - destruct Hne as [?|Hl]; [done|].
    eexists. split; [by apply addComponent_writable|].
    rewrite addComponent_writable by apply writable_insert.
    rewrite !componentsIn_insert, !skippedAt_insert. cbn [cost.Resources].
    rewrite !insert_insert_eq. do 4 f_equal.
    by rewrite insert_insert_ne by done.
  - apply (writable_insert_ne R a a') in Hw'; [|done].
    eexists. split; [by apply addComponent_writable|].
    rewrite addComponent_writable by (by apply writable_insert_ne).
    rewrite componentsIn_insert_ne, skippedAt_insert_ne by done.
    rewrite componentsIn_insert_ne, skippedAt_insert_ne by done.
    cbn [cost.Resources]. do 4 f_equal. by apply insert_insert_ne.
Qed.

Lemma addComponent_commutes_witness :
  exists s1',
    cost.addComponent "compute-1" "disk" (cost.ComponentError ErrPriceNotFound)
      (cost.mkState ∅) 0%nat = Done (tt, s1', 0%nat) /\
    cost.addComponent "compute-1" "instance" (cost.ComponentError Canceled) s1' 0%nat =
    Done (tt, cost.mkState {["compute-1" := cost.mkResource
            (Some (<["disk" := cost.ComponentError ErrPriceNotFound]>
                     {["instance" := cost.ComponentError Canceled]})) false]}, 0%nat).
Proof.
  apply (addComponent_commutes "compute-1" "instance" "compute-1" "disk"
           (cost.ComponentError Canceled) (cost.ComponentError ErrPriceNotFound)
           (cost.mkState ∅) 0%nat
           (cost.mkState {["compute-1" := cost.mkResource
              (Some {["instance" := cost.ComponentError Canceled]}) false]})).
  - right. discriminate.
  - vm_compute. reflexivity.
  - vm_compute. reflexivity.
Defined.

(** ** What a build leaves in the state *)
Section Built.
Context {B : Type}.
Implicit Types (backend : option (cost.Backend B)) (b : cost.Backend B).
Implicit Types (s : cost.State) (w : B) (res : query.Resource).
Implicit Types (comp : query.Component) (c : cost.Component).

(** The body of the inner loop is the lookups followed by one insertion. *)
Lemma componentStep_lookedUp b ctx res comp s w :
  cost.componentStep (Some b) ctx res comp s w =
  cost.addComponent (query.Address res) (query.Name comp)
    (cost.lookedUp b ctx comp w).1 s (cost.lookedUp b ctx comp w).2.
Proof.
  unfold cost.lookedUp.
  destruct (product.Filter_ (cost.Product b) ctx (query.ProductFilter comp) w)
    as [[prods [err|]] w1] eqn:H1.
  { by eapply componentStep_product_error. }
  destruct prods as [|prods0 prods].
  { by eapply componentStep_no_product. }
  destruct (price.Filter_ (cost.Price b) ctx (product.ID prods0)
              (query.PriceFilter comp) w1) as [[prices [err|]] w2] eqn:H2.
  { by eapply componentStep_price_error. }
  destruct prices as [|prices0 prices].
  { by eapply componentStep_no_price. }
  by eapply componentStep_priced.
Qed.

(** What the lookups can yield: an error and nothing else, or the unit and
    the details of the query with one of its two quantities. *)
Lemma lookedUp_shape b ctx comp w :
  (exists e, (cost.lookedUp b ctx comp w).1 = cost.ComponentError e) \/
  (cost.Error (cost.lookedUp b ctx comp w).1 = None /\
   cost.Unit (cost.lookedUp b ctx comp w).1 = query.Unit comp /\
   cost.Details (cost.lookedUp b ctx comp w).1 = query.Details comp /\
   ((cost.Quantity (cost.lookedUp b ctx comp w).1 = query.MonthlyQuantity comp /\
     ~ (decimal.toQ (query.MonthlyQuantity comp) == 0)%Q) \/
    (cost.Quantity (cost.lookedUp b ctx comp w).1 = query.HourlyQuantity comp /\
     (decimal.toQ (query.MonthlyQuantity comp) == 0)%Q))).
Proof.
  unfold cost.lookedUp.
  destruct (product.Filter_ (cost.Product b) ctx (query.ProductFilter comp) w)
    as [[prods [err|]] w1]; [left; eauto|].
  destruct prods as [|prods0 prods]; [left; eauto|].
  destruct (price.Filter_ (cost.Price b) ctx (product.ID prods0)
              (query.PriceFilter comp) w1) as [[prices [err|]] w2]; [left; eauto|].
  destruct prices as [|prices0 prices]; [left; eauto|].
  right. cbn [fst].
  destruct (decimal.Equals (query.MonthlyQuantity comp) decimal.Zero) eqn:E;
    cbn [cost.Error cost.Unit cost.Details cost.Quantity].
  - apply Equals_Zero, toQ_zero_iff in E. eauto 7.
  - do 3 (split; [done|]). left. split; [done|].
    intros H. apply toQ_zero_iff, Equals_Zero in H. congruence.
Qed.

Lemma componentStep_Done_state backend ctx res comp s w u s' w' :
  cost.componentStep backend ctx res comp s w = Done (u, s', w') ->
  exists b,
    backend = Some b /\ cost.writable s (query.Address res) /\
    w' = (cost.lookedUp b ctx comp w).2 /\
    s' = cost.mkState
           (<[query.Address res :=
                cost.mkResource
                  (Some (<[query.Name comp := (cost.lookedUp b ctx comp w).1]>
                           (cost.componentsIn s (query.Address res))))
                  (cost.skippedAt s (query.Address res))]> (cost.Resources s)).
Proof.
  destruct backend as [b|]; [|discriminate].
  rewrite componentStep_lookedUp. intros H.
  apply addComponent_Done_state in H as (? & ? & ?). eauto.
Qed.

Lemma componentAt_insert (R : gmap string cost.Resource) (a a' l' : string) re :
  cost.componentAt (cost.mkState (<[a := re]> R)) a' l' =
  if decide (a' = a) then cost.Components re ≫= (.!! l')
  else cost.componentAt (cost.mkState R) a' l'.
Proof.
  unfold cost.componentAt. cbn [cost.Resources]. case_decide as Ha.
  - subst. by rewrite lookup_insert_eq.
  - by rewrite lookup_insert_ne.
Qed.

Lemma componentAt_componentsIn s (a l : string) :
  cost.componentAt s a l = cost.componentsIn s a !! l.
Proof.
  unfold cost.componentAt, cost.componentsIn.
  destruct (cost.Resources s !! a) as [[[m|] sk]|]; simpl; by rewrite ?lookup_empty.
Qed.

(** *** Every stored component comes from a query *)

Section Invariant.
Variable P : string -> string -> cost.Component -> Prop.

Lemma forComponents_invariant backend ctx res comps s w u s' w' :
  (forall a l c, cost.componentAt s a l = Some c -> P a l c) ->
  (forall b comp w0, backend = Some b -> comp ∈ comps ->
     P (query.Address res) (query.Name comp) (cost.lookedUp b ctx comp w0).1) ->
  cost.forComponents backend ctx res comps s w = Done (u, s', w') ->
  forall a l c, cost.componentAt s' a l = Some c -> P a l c.
Proof.
  revert s w. induction comps as [|comp rest IH]; intros s w Hs Hq H.
  - by injection H as _ <- _.
  - cbn [cost.forComponents] in H. unfold mbind, cost.M_bind in H.
    destruct (cost.componentStep backend ctx res comp s w) as [[[[] s1] w1]|p] eqn:E;
      [|discriminate].
    apply componentStep_Done_state in E as (b & -> & Hw & -> & ->).
    eapply IH; [| |exact H].
    + intros a l c. destruct s as [R]. rewrite componentAt_insert.
      case_decide as Ha; [|apply Hs]. subst a. cbn [cost.Components mbind option_bind].
      destruct (decide (l = query.Name comp)) as [->|Hl].
      * rewrite lookup_insert_eq. intros [= <-]. apply (Hq b); [done|left].
      * rewrite lookup_insert_ne by done. rewrite <- componentAt_componentsIn. apply Hs.
    + intros b' comp' w0 Hb Hin. apply Hq; [done|by right].
Qed.

Lemma forResources_invariant backend ctx queries s w u s' w' :
  (forall a l c, cost.componentAt s a l = Some c -> P a l c) ->
  (forall b res comp w0, backend = Some b -> res ∈ queries ->
     comp ∈ query.Components res ->
     P (query.Address res) (query.Name comp) (cost.lookedUp b ctx comp w0).1) ->
  cost.forResources backend ctx queries s w = Done (u, s', w') ->
  forall a l c, cost.componentAt s' a l = Some c -> P a l c.
Proof.
  revert s w. induction queries as [|res rest IH]; intros s w Hs Hq H.
  - by injection H as _ <- _.
  - cbn [cost.forResources] in H. unfold mbind, cost.M_bind in H.
    destruct (cost.resourceStep backend ctx res s w) as [[[[] s1] w1]|p] eqn:E;
      [|discriminate].
    eapply IH; [| |exact H].
    + destruct (query.Components res) as [|comp comps] eqn:Hc.
      * rewrite resourceStep_no_components in E by done. injection E as <- _.
        intros a l c. destruct s as [R]. rewrite componentAt_insert.
        case_decide; [done|apply Hs].
      * rewrite resourceStep_components in E by (by rewrite Hc).
        eapply forComponents_invariant; [exact Hs| |exact E].
        intros b comp' w0 Hb Hin. apply Hq; [done|left|done].
    + intros b res' comp w0 Hb Hin. apply Hq; [done|by right].
Qed.

End Invariant.

(** *** The addresses of the state *)

Lemma forComponents_dom backend ctx res comps s w u s' w' :
  cost.forComponents backend ctx res comps s w = Done (u, s', w') ->
  dom (cost.Resources s') =
  dom (cost.Resources s) ∪ (if comps is [] then ∅ else {[query.Address res]}).
Proof.
  revert s w. induction comps as [|comp rest IH]; intros s w H.
  - injection H as _ <- _. set_solver.
  - cbn [cost.forComponents] in H. unfold mbind, cost.M_bind in H.
    destruct (cost.componentStep backend ctx res comp s w) as [[[[] s1] w1]|p] eqn:E;
      [|discriminate].
    apply componentStep_Done_state in E as (b & _ & _ & _ & ->).
    apply IH in H. rewrite H. cbn [cost.Resources]. rewrite dom_insert_L.
    destruct rest; set_solver.
Qed.

Lemma forResources_dom backend ctx queries s w u s' w' :
  cost.forResources backend ctx queries s w = Done (u, s', w') ->
  dom (cost.Resources s') =
  dom (cost.Resources s) ∪ list_to_set (query.Address <$> queries).
Proof.
  revert s w. induction queries as [|res rest IH]; intros s w H.
  - injection H as _ <- _. set_solver.
  - cbn [cost.forResources] in H. unfold mbind, cost.M_bind in H.
    destruct (cost.resourceStep backend ctx res s w) as [[[[] s1] w1]|p] eqn:E;
      [|discriminate].
    apply IH in H. rewrite H, fmap_cons, list_to_set_cons.
    destruct (query.Components res) as [|comp comps] eqn:Hc.
    + rewrite resourceStep_no_components in E by done. injection E as <- _.
      cbn [cost.Resources]. rewrite dom_insert_L. set_solver.
    + rewrite resourceStep_components in E by (by rewrite Hc).
      apply forComponents_dom in E. rewrite E, Hc. set_solver.
Qed.

End Built.

Section BuiltFlags.
Context {B : Type}.
Implicit Types (backend : option (cost.Backend B)) (s : cost.State) (w : B).

Lemma flagged_insert s (a l : string) (c : cost.Component) :
  (forall a' re, cost.Resources s !! a' = Some re -> cost.flagged re) ->
  cost.writable s a ->
  forall a' re,
    <[a := cost.mkResource (Some (<[l := c]> (cost.componentsIn s a)))
                           (cost.skippedAt s a)]> (cost.Resources s) !! a' = Some re ->
    cost.flagged re.
Proof.
  intros Hs Hw a' re. destruct (decide (a = a')) as [<-|Ha].
  - rewrite lookup_insert_eq. intros [= <-]. unfold cost.flagged. simpl.
    split; [|apply insert_non_empty].
    unfold cost.skippedAt, cost.writable in *.
    destruct (cost.Resources s !! a) as [re|] eqn:E; [|done].
    specialize (Hs a re E). unfold cost.flagged in Hs. simpl.
    destruct (cost.Components re); [by destruct Hs|by destruct Hw].
  - rewrite lookup_insert_ne by done. apply Hs.
Qed.

Lemma forComponents_flagged backend ctx res comps s w u s' w' :
  (forall a re, cost.Resources s !! a = Some re -> cost.flagged re) ->
  cost.forComponents backend ctx res comps s w = Done (u, s', w') ->
  forall a re, cost.Resources s' !! a = Some re -> cost.flagged re.
Proof.
  revert s w. induction comps as [|comp rest IH]; intros s w Hs H.
  - by injection H as _ <- _.
  - cbn [cost.forComponents] in H. unfold mbind, cost.M_bind in H.
    destruct (cost.componentStep backend ctx res comp s w) as [[[[] s1] w1]|p] eqn:E;
      [|discriminate].
    apply componentStep_Done_state in E as (b & _ & Hw & _ & ->).
    eapply IH; [|exact H]. cbn [cost.Resources]. by apply flagged_insert.
Qed.

Lemma forResources_flagged backend ctx queries s w u s' w' :
  (forall a re, cost.Resources s !! a = Some re -> cost.flagged re) ->
  cost.forResources backend ctx queries s w = Done (u, s', w') ->
  forall a re, cost.Resources s' !! a = Some re -> cost.flagged re.
Proof.
  revert s w. induction queries as [|res rest IH]; intros s w Hs H.
  - by injection H as _ <- _.
  - cbn [cost.forResources] in H. unfold mbind, cost.M_bind in H.
    destruct (cost.resourceStep backend ctx res s w) as [[[[] s1] w1]|p] eqn:E;
      [|discriminate].
    eapply IH; [|exact H].
    destruct (query.Components res) as [|comp comps] eqn:Hc.
    + rewrite resourceStep_no_components in E by done. injection E as <- _.
      intros a re. cbn [cost.Resources].
      destruct (decide (query.Address res = a)) as [<-|Ha].
      * rewrite lookup_insert_eq. by intros [= <-].
      * rewrite lookup_insert_ne by done. apply Hs.
    + rewrite resourceStep_components in E by (by rewrite Hc).
      by eapply forComponents_flagged.
Qed.

(** *** The labels of a resource *)

Lemma forComponents_labels backend ctx res comps s w u s' w' :
  cost.forComponents backend ctx res comps s w = Done (u, s', w') ->
  dom (cost.componentsIn s' (query.Address res)) =
    dom (cost.componentsIn s (query.Address res)) ∪ list_to_set (query.Name <$> comps) /\
  (comps ≠ [] ->
   cost.Resources s' !! query.Address res =
   Some (cost.mkResource (Some (cost.componentsIn s' (query.Address res)))
                         (cost.skippedAt s (query.Address res)))).
Proof.
  revert s w. induction comps as [|comp rest IH]; intros s w H.
  - injection H as _ <- _. split; [set_solver|done].
  - cbn [cost.forComponents] in H. unfold mbind, cost.M_bind in H.
    destruct (cost.componentStep backend ctx res comp s w) as [[[[] s1] w1]|p] eqn:E;
      [|discriminate].
    apply componentStep_Done_state in E as (b & _ & Hw & _ & ->).
    destruct rest as [|comp' rest'].
    + injection H as _ <- _. rewrite componentsIn_insert. cbn [cost.Resources].
      rewrite lookup_insert_eq, dom_insert_L. split; [set_solver|done].
    + apply IH in H as [Hdom Hlook].
      rewrite componentsIn_insert in Hdom. rewrite skippedAt_insert in Hlook.
      split; [|intros _; by apply Hlook].
      rewrite Hdom, dom_insert_L, !fmap_cons, !list_to_set_cons. set_solver.
Qed.

End BuiltFlags.

(** X5. The addresses of a built state are the addresses of the query
    resources, no more and no fewer: every query resource is in the state,
    be it skipped or with all its components in error, and nothing else
    is. *)
Theorem NewState_addresses {B} ctx (backend : option (cost.Backend B)) queries w st err w' :
  cost.NewState ctx backend queries w = Done (st, err, w') ->
  dom (cost.Resources st) = list_to_set (query.Address <$> queries).
Proof.
  unfold cost.NewState.
  destruct (cost.forResources backend ctx queries (cost.mkState ∅) w)
    as [[[[] s1] w1]|p] eqn:E; [|discriminate].
  intros [= <- _ _]. apply forResources_dom in E. rewrite E. cbn [cost.Resources].
  rewrite dom_empty_L. set_solver.
Qed.

Lemma NewState_addresses_witness :
  exists st,
    cost.NewState Background (Some sample.memory)
      [sample.compute1; sample.gateway1; sample.database1] 0%nat = Done (st, None, 5%nat) /\
    dom (cost.Resources st) =
    list_to_set (query.Address <$> [sample.compute1; sample.gateway1; sample.database1]).
Proof.
  eexists. split; [vm_compute; reflexivity|].
  apply (NewState_addresses Background (Some sample.memory)
           [sample.compute1; sample.gateway1; sample.database1] 0%nat _ None 5%nat).
  vm_compute. reflexivity.
Defined.

(** X6. Every component of a built state comes from a query: it is stored
    under the address of a query resource and the name of one of the query
    components of that resource, and it is either an error with nothing else
    (zero quantity, zero rate, no unit, no details), or it has no error, the
    unit and the details of the query component, and as quantity the monthly
    quantity of the query when that is not zero and the hourly quantity
    otherwise. *)
Theorem NewState_components_come_from_queries {B} ctx (backend : option (cost.Backend B))
    queries w st err w' (a l : string) (c : cost.Component) :
  cost.NewState ctx backend queries w = Done (st, err, w') ->
  cost.componentAt st a l = Some c ->
  exists res comp,
    res ∈ queries /\ comp ∈ query.Components res /\
    query.Address res = a /\ query.Name comp = l /\
    ((exists e, c = cost.ComponentError e) \/
     (cost.Error c = None /\
      cost.Unit c = query.Unit comp /\
      cost.Details c = query.Details comp /\
      ((cost.Quantity c = query.MonthlyQuantity comp /\
        ~ (decimal.toQ (query.MonthlyQuantity comp) == 0)%Q) \/
       (cost.Quantity c = query.HourlyQuantity comp /\
        (decimal.toQ (query.MonthlyQuantity comp) == 0)%Q)))).
Proof.
  unfold cost.NewState.
  destruct (cost.forResources backend ctx queries (cost.mkState ∅) w)
    as [[[[] s1] w1]|p] eqn:E; [|discriminate].
  intros [= <- _ _].
  revert a l c. eapply forResources_invariant; [| |exact E].
  - intros a l c. unfold cost.componentAt. cbn [cost.Resources].
    by rewrite lookup_empty.
  - intros b res comp w0 _ Hres Hcomp. exists res, comp.
    do 4 (split; [done|]). apply lookedUp_shape.
Qed.

Lemma NewState_components_come_from_queries_witness :
  exists res comp,
    res ∈ [sample.compute1; sample.database1] /\ comp ∈ query.Components res /\
    query.Address res = "database-1" /\ query.Name comp = "engine" /\
    ((exists e, cost.ComponentError ErrProductNotFound = cost.ComponentError e) \/
     (cost.Error (cost.ComponentError ErrProductNotFound) = None /\
      cost.Unit (cost.ComponentError ErrProductNotFound) = query.Unit comp /\
      cost.Details (cost.ComponentError ErrProductNotFound) = query.Details comp /\
      ((cost.Quantity (cost.ComponentError ErrProductNotFound) = query.MonthlyQuantity comp /\
        ~ (decimal.toQ (query.MonthlyQuantity comp) == 0)%Q) \/
       (cost.Quantity (cost.ComponentError ErrProductNotFound) = query.HourlyQuantity comp /\
        (decimal.toQ (query.MonthlyQuantity comp) == 0)%Q)))).
Proof.
  apply (NewState_components_come_from_queries Background (Some sample.memory)
           [sample.compute1; sample.database1] 0%nat
           (match cost.NewState Background (Some sample.memory)
                    [sample.compute1; sample.database1] 0%nat with
            | Done (st, _, _) => st
            | Panicked _ => cost.mkState ∅
            end) None 5%nat).
  - vm_compute. reflexivity.
  - vm_compute. reflexivity.
Defined.

(** X7. A built state holds two kinds of resources only: skipped ones, whose
    component map was never allocated, and resources that are not skipped
    and have at least one component. The skipped flag is set exactly on the
    resources without a component map. *)
Theorem NewState_resources_skipped_or_with_components {B} ctx
    (backend : option (cost.Backend B)) queries w st err w' (a : string) re :
  cost.NewState ctx backend queries w = Done (st, err, w') ->
  cost.Resources st !! a = Some re ->
  (cost.Components re = None /\ cost.Skipped re = true) \/
  (exists comps, cost.Components re = Some comps /\ comps ≠ ∅ /\ cost.Skipped re = false).
Proof.
  unfold cost.NewState.
  destruct (cost.forResources backend ctx queries (cost.mkState ∅) w)
    as [[[[] s1] w1]|p] eqn:E; [|discriminate].
  intros [= <- _ _] Hre.
  assert (H : cost.flagged re).
  { eapply forResources_flagged; [|exact E|exact Hre].
    intros a' re'. cbn [cost.Resources]. by rewrite lookup_empty. }
  unfold cost.flagged in H. destruct (cost.Components re) as [comps|].
  - right. exists comps. by destruct H.
  - by left.
Qed.

Lemma NewState_resources_skipped_or_with_components_witness :
  (cost.Components (cost.mkResource None true) = None /\
   cost.Skipped (cost.mkResource None true) = true) \/
  (exists comps, cost.Components (cost.mkResource None true) = Some comps /\
                 comps ≠ ∅ /\ cost.Skipped (cost.mkResource None true) = false).
Proof.
  apply (NewState_resources_skipped_or_with_components Background (Some sample.memory)
           [sample.compute1; sample.gateway1] 0%nat
           (match cost.NewState Background (Some sample.memory)
                    [sample.compute1; sample.gateway1] 0%nat with
            | Done (st, _, _) => st
            | Panicked _ => cost.mkState ∅
            end) None 2%nat "gateway-1").
  - vm_compute. reflexivity.
  - vm_compute. reflexivity.
Defined.

(** X8. With pairwise distinct addresses, a query resource that has
    components is in the built state as a resource that is not skipped and
    whose labels are exactly the names of its query components: every
    component is recorded, resolved or in error, and none is added. *)
Theorem NewState_labels {B} ctx (backend : option (cost.Backend B)) queries w st err w' res :
  NoDup (query.Address <$> queries) ->
  cost.NewState ctx backend queries w = Done (st, err, w') ->
  res ∈ queries ->
  query.Components res ≠ [] ->
  exists comps,
    cost.Resources st !! query.Address res = Some (cost.mkResource (Some comps) false) /\
    dom comps = list_to_set (query.Name <$> query.Components res).
Proof.
  intros Hnd HN Hin Hc.
  apply list_elem_of_split in Hin as (pre & post & ->).
  rewrite fmap_app, fmap_cons in Hnd.
  apply NoDup_app in Hnd as (Hndpre & Hnotin & Hndpost).
  apply NoDup_cons in Hndpost as [Hnotpost Hndpost].
  unfold cost.NewState in HN. rewrite forResources_app in HN.
  pose proof (forResources_distinct backend ctx pre (cost.mkState ∅) w Hndpre) as Hpre.
  destruct (cost.forResources backend ctx pre (cost.mkState ∅) w)
    as [[[[] s1] w1]|p]; [|discriminate].
  assert (Hfresh1 : forall a, a ∉ query.Address <$> pre -> cost.Resources s1 !! a = None).
  { intros a Ha. rewrite Hpre; [apply lookup_empty| |done].
    intros res' _. apply lookup_empty. }
  cbn [cost.forResources] in HN. unfold mbind, cost.M_bind in HN.
  rewrite resourceStep_components in HN by done.
  assert (Hres1 : cost.Resources s1 !! query.Address res = None).
  { apply Hfresh1. intros Hin. apply (Hnotin _ Hin). left. }
  assert (Hw1 : cost.writable s1 (query.Address res)).
  { unfold cost.writable. by rewrite Hres1. }
  pose proof (forComponents_writable backend ctx res (query.Components res) s1 w1 Hw1)
    as Hframe.
  destruct (cost.forComponents backend ctx res (query.Components res) s1 w1)
    as [[[[] s2] w2]|p] eqn:E; [|discriminate].
  destruct Hframe as [_ Hframe].
  apply forComponents_labels in E as [Hdom Hlook]. specialize (Hlook Hc).
  unfold cost.componentsIn at 2 in Hdom. unfold cost.skippedAt in Hlook.
  rewrite Hres1 in Hdom, Hlook. simpl in Hdom, Hlook.
  pose proof (forResources_distinct backend ctx post s2 w2 Hndpost) as Hpost.
  destruct (cost.forResources backend ctx post s2 w2) as [[[[] s3] w3]|p];
    [|discriminate].
  injection HN as <- _ _.
  exists (cost.componentsIn s2 (query.Address res)). split.
  - rewrite Hpost; [done| |done].
    intros res' Hin'.
    assert (Hne : query.Address res' ≠ query.Address res).
    { intros Heq. apply Hnotpost. rewrite <- Heq. by apply list_elem_of_fmap_2. }
    rewrite Hframe by done. apply Hfresh1.
    intros Hin. apply (Hnotin _ Hin). right. by apply list_elem_of_fmap_2.
  - rewrite Hdom, dom_empty_L. set_solver.
Qed.

Lemma NewState_labels_witness :
  exists comps,
    cost.Resources (match cost.NewState Background (Some sample.memory)
                            [sample.gateway1; sample.database1] 0%nat with
                    | Done (st, _, _) => st
                    | Panicked _ => cost.mkState ∅
                    end) !! "database-1" = Some (cost.mkResource (Some comps) false) /\
    dom comps = list_to_set (query.Name <$> query.Components sample.database1).
Proof.
  apply (NewState_labels Background (Some sample.memory)
           [sample.gateway1; sample.database1] 0%nat _ None 3%nat sample.database1).
  - by apply (bool_decide_unpack _).
  - vm_compute. reflexivity.
  - apply list_elem_of_further, list_elem_of_here.
  - discriminate.
Defined.

(** ** A build against a catalog with stable responses *)
Section StableBuild.
Context {B : Type}.
Implicit Types (b : cost.Backend B) (s : cost.State) (w : B) (res : query.Resource).

Lemma lookedUp_stable b ctx comp w w' :
  cost.stable b -> (cost.lookedUp b ctx comp w).1 = (cost.lookedUp b ctx comp w').1.
Proof.
  intros Hst. unfold cost.lookedUp.
  destruct (Hst ctx w w') as [Hprod _]. specialize (Hprod (query.ProductFilter comp)).
  destruct (product.Filter_ (cost.Product b) ctx (query.ProductFilter comp) w)
    as [[prods err] w1].
  destruct (product.Filter_ (cost.Product b) ctx (query.ProductFilter comp) w')
    as [[prods' err'] w1'].
  simpl in Hprod. injection Hprod as <- <-.
  destruct err as [err|]; [done|]. destruct prods as [|prods0 prods]; [done|].
  destruct (Hst ctx w1 w1') as [_ Hprice].
  specialize (Hprice (product.ID prods0) (query.PriceFilter comp)).
  destruct (price.Filter_ (cost.Price b) ctx (product.ID prods0)
              (query.PriceFilter comp) w1) as [[prices err] w2].
  destruct (price.Filter_ (cost.Price b) ctx (product.ID prods0)
              (query.PriceFilter comp) w1') as [[prices' err'] w2'].
  simpl in Hprice. injection Hprice as <- <-.
  destruct err as [err|]; [done|]. by destruct prices.
Qed.

(** The inner loop over a non-empty list, from a writable address: the map
    at the address grows by the components looked up, in order. *)
Lemma forComponents_stable_state b ctx (w0 : B) res comp rest s w :
  cost.stable b ->
  cost.writable s (query.Address res) ->
  exists w',
    cost.forComponents (Some b) ctx res (comp :: rest) s w =
    Done (tt,
          cost.mkState
            (<[query.Address res :=
                 cost.mkResource
                   (Some (foldl (fun m comp =>
                                   <[query.Name comp := (cost.lookedUp b ctx comp w0).1]> m)
                                (cost.componentsIn s (query.Address res)) (comp :: rest)))
                   (cost.skippedAt s (query.Address res))]> (cost.Resources s)),
          w').
Proof.
  intros Hst. revert comp s w. induction rest as [|comp' rest IH]; intros comp s w Hw;
    (erewrite forComponents_cons_Done;
     [|rewrite componentStep_lookedUp, (addComponent_writable _ _ _ _ _ Hw),
         (lookedUp_stable b ctx comp w w0 Hst); reflexivity]).
  - eexists. reflexivity.
  - destruct s as [R].
    edestruct (IH comp') as [w' ->]; [apply writable_insert|].
    exists w'. rewrite componentsIn_insert, skippedAt_insert. cbn [cost.Resources].
    by rewrite insert_insert_eq.
Qed.

Lemma resourceStep_stable_state b ctx (w0 : B) res s w :
  cost.stable b ->
  cost.Resources s !! query.Address res = None ->
  exists w',
    cost.resourceStep (Some b) ctx res s w =
    Done (tt, cost.mkState (<[query.Address res := cost.resourceFor b ctx w0 res]>
                              (cost.Resources s)), w').
Proof.
  intros Hst Hfresh. unfold cost.resourceFor.
  destruct (query.Components res) as [|comp rest] eqn:Hc.
  - exists w. by apply resourceStep_no_components.
  - rewrite resourceStep_components by (by rewrite Hc). rewrite Hc.
    destruct (forComponents_stable_state b ctx w0 res comp rest s w Hst) as [w' ->].
    { unfold cost.writable. by rewrite Hfresh. }
    exists w'. unfold cost.componentsIn, cost.skippedAt, cost.componentsFor.
    by rewrite Hfresh.
Qed.

Lemma forResources_stable_state b ctx (w0 : B) queries s w :
  cost.stable b ->
  NoDup (query.Address <$> queries) ->
  (forall res, res ∈ queries -> cost.Resources s !! query.Address res = None) ->
  exists w',
    cost.forResources (Some b) ctx queries s w =
    Done (tt,
          cost.mkState
            (list_to_map ((fun res => (query.Address res, cost.resourceFor b ctx w0 res))
                            <$> queries) ∪ cost.Resources s),
          w').
Proof.
  intros Hst. revert s w. induction queries as [|res rest IH]; intros s w Hnd Hfresh.
  - exists w. destruct s as [R]. simpl. by rewrite (left_id_L ∅ (∪)).
  - rewrite fmap_cons in Hnd. apply NoDup_cons in Hnd as [Hnotin Hnd].
    cbn [cost.forResources]. unfold mbind, cost.M_bind.
    destruct (resourceStep_stable_state b ctx w0 res s w Hst) as [w1 ->];
      [apply Hfresh; left|].
    edestruct (IH (cost.mkState (<[query.Address res := cost.resourceFor b ctx w0 res]>
                                   (cost.Resources s))) w1 Hnd) as [w' ->].
    { intros res' Hin. cbn [cost.Resources]. rewrite lookup_insert_ne.
      - apply Hfresh. by right.
      - intros Heq. apply Hnotin. rewrite Heq. by apply list_elem_of_fmap_2. }
    exists w'. cbn [cost.Resources]. do 3 f_equal.
    rewrite fmap_cons, list_to_map_cons. cbn [fst snd].
    rewrite <- insert_union_l. symmetry. f_equal. apply insert_union_r.
    apply not_elem_of_list_to_map_1. rewrite <- list_fmap_compose. exact Hnotin.
Qed.

End StableBuild.

(** X9. Against a catalog with stable responses and for pairwise distinct
    addresses, [NewState] returns, and the state it returns is a function
    of the queries and of the answers of the catalog alone: at the address
    of each query resource, a skipped resource if the query has no
    components, and else the map from the names of its components to what
    the lookups yield for them, a later component replacing an earlier one
    of the same name. *)
Theorem NewState_of_stable_catalog {B} (b : cost.Backend B) ctx queries (w w0 : B) :
  cost.stable b ->
  NoDup (query.Address <$> queries) ->
  exists w',
    cost.NewState ctx (Some b) queries w = Done (cost.stateFor b ctx w0 queries, None, w').
Proof.
  intros Hst Hnd. unfold cost.NewState.
  destruct (forResources_stable_state b ctx w0 queries (cost.mkState ∅) w Hst Hnd)
    as [w' ->].
  { intros res _. apply lookup_empty. }
  exists w'. unfold cost.stateFor. cbn [cost.Resources].
  by rewrite (right_id_L ∅ (∪)).
Qed.

Lemma NewState_of_stable_catalog_witness :
  exists w',
    cost.NewState Background (Some sample.memory)
      [sample.compute1; sample.gateway1; sample.database1] 0%nat =
    Done (cost.stateFor sample.memory Background 9%nat
            [sample.compute1; sample.gateway1; sample.database1], None, w').
Proof.
  apply (NewState_of_stable_catalog sample.memory Background
           [sample.compute1; sample.gateway1; sample.database1] 0%nat 9%nat).
  - intros ctx w w'. split; reflexivity.
  - by apply (bool_decide_unpack _).
Defined.

(** X10. Against a catalog with stable responses, the order of the query
    resources does not matter: two lists of query resources with pairwise
    distinct addresses that are permutations of each other give the same
    state, and so the same cost. *)
Theorem NewState_order_of_resources {B} (b : cost.Backend B) ctx queries queries' (w w' : B) :
  cost.stable b ->
  NoDup (query.Address <$> queries) ->
  queries ≡ₚ queries' ->
  cost.returned (cost.NewState ctx (Some b) queries w) =
  cost.returned (cost.NewState ctx (Some b) queries' w') /\
  exists st, cost.returned (cost.NewState ctx (Some b) queries w) = Done (st, None).
Proof.
  intros Hst Hnd Hperm.
  assert (Hnd' : NoDup (query.Address <$> queries')) by (by rewrite <- Hperm).
  destruct (forResources_stable_state b ctx w queries (cost.mkState ∅) w Hst Hnd)
    as [w1 E]; [intros res _; apply lookup_empty|].
  destruct (forResources_stable_state b ctx w queries' (cost.mkState ∅) w' Hst Hnd')
    as [w1' E']; [intros res _; apply lookup_empty|].
  unfold cost.NewState. rewrite E, E'. cbn [cost.returned cost.Resources].
  rewrite !(right_id_L ∅ (∪)). split; [|eauto]. do 3 f_equal.
  apply list_to_map_proper; [|by apply fmap_Permutation].
  by rewrite <- list_fmap_compose.
Qed.

Lemma NewState_order_of_resources_witness :
  cost.returned (cost.NewState Background (Some sample.memory)
                   [sample.compute1; sample.gateway1; sample.database1] 0%nat) =
  cost.returned (cost.NewState Background (Some sample.memory)
                   [sample.database1; sample.compute1; sample.gateway1] 3%nat).
Proof.
  refine (proj1 (NewState_order_of_resources sample.memory Background
                   [sample.compute1; sample.gateway1; sample.database1]
                   [sample.database1; sample.compute1; sample.gateway1] 0%nat 3%nat
                   _ _ _)).
  - intros ctx w w'. split; reflexivity.
  - by apply (bool_decide_unpack _).
  - etrans; [|apply Permutation_swap]. apply Permutation_skip, Permutation_swap.
Defined.


(** ** More on totals *)
Section MoreTotals.

Lemma foldl_Add_acc (l : list Decimal) (a x : Decimal) :
  foldl decimal.Add (decimal.Add a x) l = decimal.Add (foldl decimal.Add a l) x.
Proof.
  revert a. induction l as [|y l IH]; intros a; [reflexivity|].
  cbn [foldl]. rewrite <- IH. f_equal.
  rewrite !Add_assoc. f_equal. apply Add_comm.
Qed.

Lemma CostVisiting_sumCosts (visited : list (string * cost.Resource)) :
  cost.CostVisiting visited = cost.sumCosts (cost.ResourceCost <$> visited.*2).
Proof.
  unfold cost.CostVisiting, cost.sumCosts. generalize decimal.Zero.
  induction visited as [|[a re] visited IH]; intros total; [reflexivity|].
  cbn [foldl fmap list_fmap snd]. apply IH.
Qed.

End MoreTotals.

(** X11. [State.Cost] does not depend on the order in which the loop visits
    the resources of the map: in whatever order they are visited, the total
    is the same decimal, value and exponent. *)
Theorem Cost_in_any_order (s : cost.State) (visited : list (string * cost.Resource)) :
  visited ≡ₚ map_to_list (cost.Resources s) ->
  cost.CostVisiting visited = cost.Cost s.
Proof.
  intros Hperm. rewrite CostVisiting_sumCosts. unfold cost.Cost.
  apply sumCosts_Permutation. by rewrite Hperm.
Qed.

Lemma Cost_in_any_order_witness :
  cost.CostVisiting (reverse (map_to_list (cost.Resources (cost.Planned sample.plan)))) =
  cost.Cost (cost.Planned sample.plan).
Proof.
  apply (Cost_in_any_order (cost.Planned sample.plan)). apply reverse_Permutation.
Defined.

(** X12. The cost of a state is additive over its resources: a state with one
    more resource, at an address it did not have, costs the cost of the
    state plus the cost of that resource, as decimals and so as numbers. *)
Theorem Cost_insert (s : cost.State) (a : string) (re : cost.Resource) :
  cost.Resources s !! a = None ->
  cost.Cost (cost.mkState (<[a := re]> (cost.Resources s))) =
    decimal.Add (cost.Cost s) (cost.ResourceCost re) /\
  (decimal.toQ (cost.Cost (cost.mkState (<[a := re]> (cost.Resources s)))) ==
   decimal.toQ (cost.Cost s) + decimal.toQ (cost.ResourceCost re))%Q.
Proof.
  intros Hfresh.
  assert (H : cost.Cost (cost.mkState (<[a := re]> (cost.Resources s))) =
              decimal.Add (cost.Cost s) (cost.ResourceCost re)).
  { unfold cost.Cost. cbn [cost.Resources].
    etrans; [apply sumCosts_Permutation;
             rewrite (map_to_list_insert _ _ _ Hfresh); reflexivity|].
    rewrite !fmap_cons. unfold cost.sumCosts. cbn [foldl snd]. apply foldl_Add_acc. }
  split; [done|]. rewrite H. apply toQ_Add.
Qed.

Lemma Cost_insert_witness :
  cost.Cost (cost.mkState (<["volume-1" := sample.priced]>
               (cost.Resources (cost.mkState {["database-1" := sample.unpriced]})))) =
  decimal.Add (cost.Cost (cost.mkState {["database-1" := sample.unpriced]}))
              (cost.ResourceCost sample.priced).
Proof.
  refine (proj1 (Cost_insert (cost.mkState {["database-1" := sample.unpriced]})
                   "volume-1" sample.priced _)).
  vm_compute. reflexivity.
Defined.

(** ** Components in error, counted or not *)
Section ErrorsCostNothing.
Context {B : Type}.

Lemma NewState_error_shape ctx (backend : option (cost.Backend B)) queries (w : B)
    st err w' (a l : string) (c : cost.Component) :
  cost.NewState ctx backend queries w = Done (st, err, w') ->
  cost.componentAt st a l = Some c ->
  cost.resolved c = false ->
  exists e, c = cost.ComponentError e.
Proof.
  unfold cost.NewState.
  destruct (cost.forResources backend ctx queries (cost.mkState ∅) w)
    as [[[[] s1] w1]|p] eqn:E; [|discriminate].
  intros [= <- _ _]. revert a l c.
  eapply (forResources_invariant
            (fun _ _ c => cost.resolved c = false -> exists e, c = cost.ComponentError e));
    [| |exact E].
  - intros a l c. unfold cost.componentAt. cbn [cost.Resources]. by rewrite lookup_empty.
  - intros b res comp w0 _ _ _ Hres.
    destruct (lookedUp_shape b ctx comp w0) as [?|(Herr & _)]; [done|].
    unfold cost.resolved in Hres. by rewrite Herr in Hres.
Qed.

Lemma componentsOf_componentAt (st : cost.State) (a l : string) re c :
  cost.Resources st !! a = Some re ->
  (l, c) ∈ cost.componentsOf re ->
  cost.componentAt st a l = Some c.
Proof.
  intros Hre Hin. unfold cost.componentAt, cost.componentsOf in *. rewrite Hre. simpl.
  destruct (cost.Components re) as [m|]; simpl.
  - by apply elem_of_map_to_list.
  - by apply elem_of_nil in Hin.
Qed.

End ErrorsCostNothing.

(** X13. In a built state a component in error costs nothing even when it is
    counted: its quantity times its rate is the zero value. So the cost of
    the state is also the sum of quantity times rate over all the components
    of all the resources, those in error included. *)
Theorem NewState_errors_cost_nothing {B} ctx (backend : option (cost.Backend B)) queries
    (w : B) st err w' :
  cost.NewState ctx backend queries w = Done (st, err, w') ->
  (forall a l c e,
     cost.componentAt st a l = Some c -> cost.Error c = Some e ->
     cost.ComponentCost c = decimal.zeroValue) /\
  (decimal.toQ (cost.Cost st) ==
   cost.Qsum ((fun are : string * cost.Resource =>
                 cost.Qsum ((fun lc : string * cost.Component =>
                               decimal.toQ (cost.ComponentCost lc.2))
                              <$> cost.componentsOf are.2))
                <$> map_to_list (cost.Resources st)))%Q.
Proof.
  intros HN. split.
  - intros a l c e Hc He.
    destruct (NewState_error_shape ctx backend queries w st err w' a l c HN Hc)
      as [e' ->]; [|reflexivity].
    unfold cost.resolved. by rewrite He.
  - unfold cost.Cost. rewrite toQ_sumCosts, <- !list_fmap_compose.
    apply Qsum_ext. intros [a re] Hin. cbn [compose snd].
    rewrite toQ_ResourceCost. unfold cost.resourceTotal.
    rewrite <- list_fmap_compose. apply Qsum_ext. intros [l c] Hlc. cbn [compose snd].
    unfold cost.lineTotal. destruct (cost.resolved c) eqn:Hres.
    + unfold cost.ComponentCost. by rewrite toQ_Mul.
    + apply elem_of_map_to_list in Hin.
      destruct (NewState_error_shape ctx backend queries w st err w' a l c HN) as [e ->];
        [by eapply componentsOf_componentAt|done|reflexivity].
Qed.

Lemma NewState_errors_cost_nothing_witness :
  cost.ComponentCost (cost.ComponentError ErrProductNotFound) = decimal.zeroValue.
Proof.
  refine (proj1 (NewState_errors_cost_nothing Background (Some sample.memory)
                   [sample.compute1; sample.database1] 0%nat
                   (match cost.NewState Background (Some sample.memory)
                            [sample.compute1; sample.database1] 0%nat with
                    | Done (st, _, _) => st
                    | Panicked _ => cost.mkState ∅
                    end) None 5%nat _)
            "database-1" "engine" (cost.ComponentError ErrProductNotFound)
            ErrProductNotFound _ _).
  - vm_compute. reflexivity.
  - vm_compute. reflexivity.
  - reflexivity.
Defined.

(** ** The gateway, from its components to the state *)
Section GatewayBuilt.
Variable float64 : Type.
Variable NewFromFloat : float64 -> Decimal.
Variable getLocationName : string -> string.
Variable getRegionToVNETZone : string -> string.

Local Abbreviation generate p vals :=
  (terraform.Components getRegionToVNETZone
     (terraform.newVirtualNetworkGateway float64 NewFromFloat getLocationName
        (Some p) vals)).

Lemma gateway_components (p : terraform.Provider)
    (vals : terraform.virtualNetworkGatewayValues float64) :
  exists meterName,
    generate p vals =
    Done [terraform.virtualNetworkGatewayComponent
            (terraform.newVirtualNetworkGateway float64 NewFromFloat getLocationName
               (Some p) vals)
            (terraform.key p) (getLocationName (terraform.Location float64 vals))
            (terraform.SKU float64 vals) meterName;
          terraform.virtualNetworkGatewayP2SComponent
            (terraform.newVirtualNetworkGateway float64 NewFromFloat getLocationName
               (Some p) vals)
            (terraform.key p) (getLocationName (terraform.Location float64 vals))
            (terraform.SKU float64 vals);
          terraform.virtualNetworkGatewayDataTransfersComponent getRegionToVNETZone
            (terraform.newVirtualNetworkGateway float64 NewFromFloat getLocationName
               (Some p) vals)
            (terraform.key p) (getLocationName (terraform.Location float64 vals))] /\
    meterName = (if String.eqb (terraform.SKU float64 vals) "Basic"
                 then "Basic Gateway" else terraform.SKU float64 vals).
Proof.
  unfold terraform.Components, terraform.newVirtualNetworkGateway.
  destruct (String.eqb (terraform.SKU float64 vals) "Basic");
    eexists; split; reflexivity.
Qed.

(** X14. Whatever the SKU, the three components of a gateway have three
    different names. The builder keys the components of a resource by name,
    so none of the three replaces another: the state built from the
    components of a gateway holds, at the address of the resource, a
    resource that is not skipped and has exactly three components. *)
Theorem gateway_components_are_all_recorded (p : terraform.Provider)
    (vals : terraform.virtualNetworkGatewayValues float64) :
  exists gateway p2s transfer,
    generate p vals = Done [gateway; p2s; transfer] /\
    NoDup [query.Name gateway; query.Name p2s; query.Name transfer] /\
    forall (B : Type) ctx (backend : option (cost.Backend B)) (address : string)
           (w : B) st err w',
      cost.NewState ctx backend
        [query.mkResource address [gateway; p2s; transfer]] w = Done (st, err, w') ->
      exists comps,
        cost.Resources st !! address = Some (cost.mkResource (Some comps) false) /\
        size comps = 3%nat.
Proof.
  destruct (gateway_components p vals) as (meterName & -> & _).
  eexists _, _, _. split; [reflexivity|].
  assert (Hnd : NoDup [("VPN gateway (" ++ terraform.SKU float64 vals ++ ")")%string;
                       "VPN gateway P2S tunnels (over 128)";
                       "VPN gateway data tranfer"]).
  { repeat apply NoDup_cons_2; try apply NoDup_nil_2;
      rewrite ?elem_of_cons, ?elem_of_nil; intros H;
      repeat destruct H as [H|H]; try done; simpl in H; discriminate. }
  split; [exact Hnd|].
  intros B ctx backend address w st err w' HN.
  unfold cost.NewState in HN. cbn [cost.forResources] in HN.
  unfold mbind at 1, cost.M_bind at 1 in HN.
  rewrite resourceStep_components in HN by done.
  destruct (cost.forComponents backend ctx _ _ (cost.mkState ∅) w)
    as [[[[] s1] w1]|pn] eqn:E; [|discriminate].
  injection HN as <- _ _.
  apply forComponents_labels in E as [Hdom Hlook].
  specialize (Hlook ltac:(discriminate)).
  cbn [query.Address query.Components] in Hdom, Hlook.
  eexists. split; [exact Hlook|].
  rewrite <- size_dom, Hdom. unfold cost.componentsIn at 1. cbn [cost.Resources].
  rewrite lookup_empty. cbn [mbind option_bind default].
  rewrite dom_empty_L, (left_id_L ∅ (∪)), size_list_to_set; [reflexivity|exact Hnd].
Qed.

End GatewayBuilt.

(** ** The lines of the report *)

(** X17. The report has one line for each resource diff, in the order of
    the diffs and against the address of the diff. The line is the failure
    of the prior cost whenever that fails, whatever the planned side is; the
    failure of the planned cost when only that fails; and the two costs when
    both are computed. *)
Theorem estimateDisplay_one_line_per_resource (p : cost.Plan) :
  length (estimateDisplay p) = length (cost.ResourceDifferences p) /\
  forall i rd,
    cost.ResourceDifferences p !! i = Some rd ->
    exists line,
      estimateDisplay p !! i = Some line /\
      match cost.PriorCost rd, cost.PlannedCost rd with
      | inr err, _ => line = PriorCostFailed (cost.Address rd) err
      | inl _, inr err => line = PlannedCostFailed (cost.Address rd) err
      | inl priorCost, inl plannedCost =>
          line = Costs (cost.Address rd) priorCost plannedCost
      end.
Proof.
  rewrite estimateDisplay_fmap. split; [apply length_fmap|].
  intros i rd Hrd. exists (displayStep rd). split.
  - by rewrite list_lookup_fmap, Hrd.
  - unfold displayStep. destruct (cost.PriorCost rd); [|done].
    by destruct (cost.PlannedCost rd).
Qed.

Lemma estimateDisplay_one_line_per_resource_witness :
  exists line,
    estimateDisplay sample.plan !! 1%nat = Some line /\
    line = PlannedCostFailed "database-1" ErrProductNotFound.
Proof.
  destruct (estimateDisplay_one_line_per_resource sample.plan) as [_ H].
  exact (H 1%nat (cost.mkResourceDiff "database-1" None (Some sample.unpriced))
           ltac:(vm_compute; reflexivity)).
Defined.

(** ** When a build with a backend stops *)
Section BuildStops.
Context {B : Type}.
Implicit Types (b : cost.Backend B) (s : cost.State) (w : B) (res : query.Resource).

Lemma writable_markSkipped s (a a' : string) :
  cost.writable (cost.mkState (<[a := cost.mkResource None true]> (cost.Resources s))) a'
  <-> a' ≠ a /\ cost.writable s a'.
Proof.
  unfold cost.writable. cbn [cost.Resources].
  destruct (decide (a = a')) as [<-|Ha].
  - rewrite lookup_insert_eq. simpl. split; [intros [? ?]; discriminate|by intros [? _]].
  - rewrite lookup_insert_ne by done. split; [by intros ?|by intros [_ ?]].
Qed.

Lemma forComponents_not_writable b ctx res comp rest s w :
  ~ cost.writable s (query.Address res) ->
  cost.forComponents (Some b) ctx res (comp :: rest) s w = Panicked NilMapWrite.
Proof.
  intros Hw. cbn [cost.forComponents]. unfold mbind, cost.M_bind.
  rewrite componentStep_lookedUp.
  destruct (addComponent_cases (query.Address res) (query.Name comp)
              (cost.lookedUp b ctx comp w).1 s (cost.lookedUp b ctx comp w).2)
    as [[? _]|[_ ->]]; [contradiction|reflexivity].
Qed.

Lemma writable_dec s (a : string) : cost.writable s a \/ ~ cost.writable s a.
Proof.
  unfold cost.writable. destruct (cost.Resources s !! a) as [[[m|] sk]|]; simpl.
  - left. eauto.
  - right. intros [? ?]. discriminate.
  - by left.
Qed.

(** The outer loop with a backend stops exactly when it reaches a resource
    with components whose address is not writable at the start or was
    marked as skipped on the way; and then it stops on the nil map. *)
Lemma forResources_stops b ctx queries s w :
  (cost.forResources (Some b) ctx queries s w = Panicked NilMapWrite <->
   exists pre res' post,
     queries = pre ++ res' :: post /\ query.Components res' ≠ [] /\
     (~ cost.writable s (query.Address res') \/
      exists res, res ∈ pre /\ query.Components res = [] /\
                  query.Address res = query.Address res')) /\
  cost.forResources (Some b) ctx queries s w ≠ Panicked NilDereference.
Proof.
  revert s w. induction queries as [|res rest IH]; intros s w.
  { split; [|done]. split; [discriminate|].
    intros (pre & res' & post & H & _). by destruct pre. }
  cbn [cost.forResources]. unfold mbind, cost.M_bind.
  destruct (query.Components res) as [|comp comps] eqn:Hc.
  - rewrite resourceStep_no_components by done.
    destruct (IH (cost.mkState (<[query.Address res := cost.mkResource None true]>
                                  (cost.Resources s))) w) as [IH1 IH2].
    split; [|exact IH2]. rewrite IH1. split.
    + intros (pre & res' & post & -> & Hne & Hcond).
      exists (res :: pre), res', post. split; [done|]. split; [done|].
      destruct Hcond as [Hnw|(r & Hin & Hr & Ha)].
      * destruct (decide (query.Address res' = query.Address res)) as [Heq|Hneq].
        -- right. exists res. split; [left|done].
        -- left. intros Hw. apply Hnw. by apply writable_markSkipped.
      * right. exists r. split; [by right|done].
    + intros (pre & res' & post & Hq & Hne & Hcond).
      destruct pre as [|r0 pre]; injection Hq as <- ->; [by rewrite Hc in Hne|].
      exists pre, res', post. split; [done|]. split; [done|].
      destruct Hcond as [Hnw|(r & Hin & Hr & Ha)].
      * left. intros Hw. apply writable_markSkipped in Hw as [_ Hw]. by apply Hnw.
      * apply elem_of_cons in Hin as [->|Hin].
        -- left. intros Hw. apply writable_markSkipped in Hw as [Hw _]. by apply Hw.
        -- right. exists r. done.
  - rewrite resourceStep_components by (by rewrite Hc). rewrite Hc.
    destruct (writable_dec s (query.Address res)) as [Hw|Hnw].
    + pose proof (forComponents_writable (Some b) ctx res (comp :: comps) s w Hw) as HF.
      destruct (cost.forComponents (Some b) ctx res (comp :: comps) s w)
        as [[[[] s1] w1]|p]; [|by destruct HF].
      destruct HF as [Hw1 Hframe].
      assert (Hsame : forall a, cost.writable s1 a <-> cost.writable s a).
      { intros a. destruct (decide (a = query.Address res)) as [->|Ha]; [done|].
        unfold cost.writable. by rewrite Hframe. }
      destruct (IH s1 w1) as [IH1 IH2]. split; [|exact IH2]. rewrite IH1. split.
      * intros (pre & res' & post & -> & Hne & Hcond).
        exists (res :: pre), res', post. split; [done|]. split; [done|].
        destruct Hcond as [Hnw|(r & Hin & Hr & Ha)].
        -- left. by rewrite <- Hsame.
        -- right. exists r. split; [by right|done].
      * intros (pre & res' & post & Hq & Hne & Hcond).
        destruct pre as [|r0 pre]; injection Hq as <- ->.
        { destruct Hcond as [Hnw|(r & Hin & _)]; [done|by apply elem_of_nil in Hin]. }
        exists pre, res', post. split; [done|]. split; [done|].
        destruct Hcond as [Hnw|(r & Hin & Hr & Ha)].
        -- left. by rewrite Hsame.
        -- apply elem_of_cons in Hin as [->|Hin]; [by rewrite Hc in Hr|].
           right. exists r. done.
    + rewrite (forComponents_not_writable b ctx res comp comps s w Hnw).
      split; [|done]. split; [|done]. intros _.
      exists [], res, rest. split; [done|]. split; [by rewrite Hc|by left].
Qed.

End BuildStops.

(** X18. With a backend, [NewState] stops in one case only, and then on
    the write to a nil map: when a query resource without components is
    followed, anywhere later in the list, by a query resource with components
    at the same address. In every other case it returns a state. *)
Theorem NewState_stops_exactly_on_skipped_then_components {B} (b : cost.Backend B) ctx
    queries (w : B) :
  (cost.NewState ctx (Some b) queries w = Panicked NilMapWrite <->
   exists pre res mid res' post,
     queries = pre ++ res :: mid ++ res' :: post /\
     query.Components res = [] /\ query.Components res' ≠ [] /\
     query.Address res' = query.Address res) /\
  ((exists st w', cost.NewState ctx (Some b) queries w = Done (st, None, w')) <->
   cost.NewState ctx (Some b) queries w ≠ Panicked NilMapWrite).
Proof.
  destruct (forResources_stops b ctx queries (cost.mkState ∅) w) as [Hstop Hnil].
  unfold cost.NewState.
  destruct (cost.forResources (Some b) ctx queries (cost.mkState ∅) w)
    as [[[[] s1] w1]|p] eqn:E.
  - split.
    + split; [discriminate|]. intros (pre & res & mid & res' & post & -> & Hr & Hr' & Ha).
      assert (H : @Done (unit * cost.State * B) (tt, s1, w1) = Panicked NilMapWrite);
        [|discriminate].
      apply Hstop. exists (pre ++ res :: mid), res', post.
      split; [by rewrite <- app_assoc|]. split; [done|]. right.
      exists res. split; [|done]. apply elem_of_app. right. left.
    + split; [discriminate|eauto].
  - destruct p; [done|]. split.
    + split; [|done]. intros _.
      destruct (proj1 Hstop eq_refl) as (pre & res' & post & -> & Hne & Hcond).
      destruct Hcond as [Hnw|(res & Hin & Hr & Ha)].
      * exfalso. apply Hnw. unfold cost.writable. cbn [cost.Resources].
        by rewrite lookup_empty.
      * apply list_elem_of_split in Hin as (pre1 & mid & ->).
        exists pre1, res, mid, res', post. split; [by rewrite <- app_assoc|done].
    + split; [intros (? & ? & ?); discriminate|done].
Qed.

(** ** Components of the same name *)
Section SameName.
Context {B : Type}.

Lemma foldl_insert_keeps (b : cost.Backend B) ctx (w0 : B) (l : string)
    (post : list query.Component) (m : gmap string cost.Component) :
  (forall comp', comp' ∈ post -> query.Name comp' ≠ l) ->
  foldl (fun m comp => <[query.Name comp := (cost.lookedUp b ctx comp w0).1]> m) m post
    !! l = m !! l.
Proof.
  revert m. induction post as [|comp' post IH]; intros m Hpost; [done|].
  cbn [foldl]. rewrite IH by (intros c Hc; apply Hpost; by right).
  apply lookup_insert_ne, Hpost. left.
Qed.

Lemma componentsFor_last (b : cost.Backend B) ctx (w0 : B) pre comp post :
  (forall comp', comp' ∈ post -> query.Name comp' ≠ query.Name comp) ->
  cost.componentsFor b ctx w0 (pre ++ comp :: post) !! query.Name comp =
  Some (cost.lookedUp b ctx comp w0).1.
Proof.
  intros Hpost. unfold cost.componentsFor. rewrite foldl_app. cbn [foldl].
  rewrite foldl_insert_keeps by done. apply lookup_insert_eq.
Qed.

End SameName.

(** X19. Components of one resource that have the same name replace each
    other, and the last one stays: against a catalog with stable responses
    and for pairwise distinct addresses, the component found in the built
    state under a name is what the lookups yield for the last query
    component of that name. *)
Theorem NewState_keeps_last_component_of_a_name {B} (b : cost.Backend B) ctx queries
    (w w0 : B) st err w' res pre comp post :
  cost.stable b ->
  NoDup (query.Address <$> queries) ->
  cost.NewState ctx (Some b) queries w = Done (st, err, w') ->
  res ∈ queries ->
  query.Components res = pre ++ comp :: post ->
  (forall comp', comp' ∈ post -> query.Name comp' ≠ query.Name comp) ->
  cost.componentAt st (query.Address res) (query.Name comp) =
  Some (cost.lookedUp b ctx comp w0).1.
Proof.
  intros Hst Hnd HN Hin Hc Hpost.
  destruct (forResources_stable_state b ctx w0 queries (cost.mkState ∅) w Hst Hnd)
    as [w1 E]; [intros res' _; apply lookup_empty|].
  unfold cost.NewState in HN. rewrite E in HN. injection HN as <- _ _.
  unfold cost.componentAt. cbn [cost.Resources]. rewrite (right_id_L ∅ (∪)).
  erewrite (elem_of_list_to_map_1 _ (query.Address res) (cost.resourceFor b ctx w0 res)).
  - unfold cost.resourceFor. rewrite Hc.
    destruct (pre ++ comp :: post) as [|c0 cs] eqn:Hl; [by destruct pre|].
    cbn [mbind option_bind cost.Components]. rewrite <- Hl.
    by apply componentsFor_last.
  - by rewrite <- list_fmap_compose.
  - apply list_elem_of_fmap. by exists res.
Qed.

Lemma NewState_keeps_last_component_of_a_name_witness :
  cost.componentAt
    (match cost.NewState Background (Some sample.memory)
             [query.mkResource "compute-1"
                [sample.hourly "instance" "Database" 1;
                 sample.hourly "instance" "Compute" 2]] 0%nat with
     | Done (st, _, _) => st
     | Panicked _ => cost.mkState ∅
     end) "compute-1" "instance" =
  Some (cost.lookedUp sample.memory Background (sample.hourly "instance" "Compute" 2)
          7%nat).1.
Proof.
  apply (NewState_keeps_last_component_of_a_name sample.memory Background
           [query.mkResource "compute-1"
              [sample.hourly "instance" "Database" 1;
               sample.hourly "instance" "Compute" 2]] 0%nat 7%nat _ None 3%nat
           (query.mkResource "compute-1"
              [sample.hourly "instance" "Database" 1;
               sample.hourly "instance" "Compute" 2])
           [sample.hourly "instance" "Database" 1]
           (sample.hourly "instance" "Compute" 2) []).
  - intros ctx w w'. split; reflexivity.
  - by apply (bool_decide_unpack _).
  - vm_compute. reflexivity.
  - left.
  - reflexivity.
  - intros comp' Hin. by apply elem_of_nil in Hin.
Defined.

(** ** How many lookups a build makes *)
Section Lookups.
Context {B : Type}.
Implicit Types (b : cost.Backend B) (s : cost.State) (w : B) (res : query.Resource).

Lemma lookedUp_counted b ctx comp w (np nq : nat) :
  exists nq',
    cost.lookedUp (cost.counted b) ctx comp (w, (np, nq)) =
    ((cost.lookedUp b ctx comp w).1, ((cost.lookedUp b ctx comp w).2, (S np, nq'))) /\
    (nq <= nq' <= S nq)%nat.
Proof.
  unfold cost.lookedUp, cost.counted. cbn [cost.Product cost.Price product.Filter_
    price.Filter_].
  destruct (product.Filter_ (cost.Product b) ctx (query.ProductFilter comp) w)
    as [[prods [err|]] w1]; [exists nq; split; [done|lia]|].
  destruct prods as [|prods0 prods]; [exists nq; split; [done|lia]|].
  destruct (price.Filter_ (cost.Price b) ctx (product.ID prods0)
              (query.PriceFilter comp) w1) as [[prices [err|]] w2];
    [exists (S nq); split; [done|lia]|].
  destruct prices as [|prices0 prices]; exists (S nq); (split; [done|lia]).
Qed.

Lemma forComponents_counted b ctx res comps s w (np nq : nat) :
  match cost.forComponents (Some b) ctx res comps s w with
  | Done (_, s', w') =>
      exists nq',
        cost.forComponents (Some (cost.counted b)) ctx res comps s (w, (np, nq)) =
        Done (tt, s', (w', ((np + length comps)%nat, nq'))) /\
        (nq <= nq' <= nq + length comps)%nat
  | Panicked p =>
      cost.forComponents (Some (cost.counted b)) ctx res comps s (w, (np, nq)) = Panicked p
  end.
Proof.
  revert s w np nq. induction comps as [|comp rest IH]; intros s w np nq.
  - exists nq. cbn [cost.forComponents length]. rewrite Nat.add_0_r.
    split; [reflexivity|lia].
  - cbn [cost.forComponents]. unfold mbind, cost.M_bind.
    rewrite !componentStep_lookedUp.
    destruct (lookedUp_counted b ctx comp w np nq) as (nq1 & -> & Hnq1). cbn [fst snd].
    destruct (addComponent_cases (query.Address res) (query.Name comp)
                (cost.lookedUp b ctx comp w).1 s (cost.lookedUp b ctx comp w).2)
      as [[Hw _]|[Hw E]].
    + rewrite !(addComponent_writable _ _ _ _ _ Hw).
      specialize (IH (cost.mkState
                        (<[query.Address res :=
                             cost.mkResource
                               (Some (<[query.Name comp := (cost.lookedUp b ctx comp w).1]>
                                        (cost.componentsIn s (query.Address res))))
                               (cost.skippedAt s (query.Address res))]> (cost.Resources s)))
                     (cost.lookedUp b ctx comp w).2 (S np) nq1).
      destruct (cost.forComponents (Some b) ctx res rest _ _) as [[[[] s'] w']|p].
      * destruct IH as (nq' & -> & Hnq'). exists nq'. cbn [length].
        split; [do 4 f_equal; lia|lia].
      * exact IH.
    + rewrite E.
      destruct (addComponent_cases (query.Address res) (query.Name comp)
                  (cost.lookedUp b ctx comp w).1 s
                  ((cost.lookedUp b ctx comp w).2, (S np, nq1)))
        as [[? _]|[_ ->]]; [contradiction|reflexivity].
Qed.

Lemma forResources_counted b ctx queries s w (np nq : nat) :
  match cost.forResources (Some b) ctx queries s w with
  | Done (_, s', w') =>
      exists nq',
        cost.forResources (Some (cost.counted b)) ctx queries s (w, (np, nq)) =
        Done (tt, s', (w', ((np + length (queries ≫= query.Components))%nat, nq'))) /\
        (nq <= nq' <= nq + length (queries ≫= query.Components))%nat
  | Panicked p =>
      cost.forResources (Some (cost.counted b)) ctx queries s (w, (np, nq)) = Panicked p
  end.
Proof.
  revert s w np nq. induction queries as [|res rest IH]; intros s w np nq.
  - exists nq. cbn. rewrite Nat.add_0_r. split; [reflexivity|lia].
  - cbn [cost.forResources]. unfold mbind, cost.M_bind.
    rewrite bind_cons, length_app.
    destruct (query.Components res) as [|comp comps] eqn:Hc.
    + rewrite !resourceStep_no_components by done. cbn [length].
      specialize (IH (cost.mkState (<[query.Address res := cost.mkResource None true]>
                                      (cost.Resources s))) w np nq).
      destruct (cost.forResources (Some b) ctx rest _ w) as [[[[] s'] w']|p]; exact IH.
    + rewrite !resourceStep_components by (by rewrite Hc). rewrite Hc.
      pose proof (forComponents_counted b ctx res (comp :: comps) s w np nq) as HC.
      destruct (cost.forComponents (Some b) ctx res (comp :: comps) s w)
        as [[[[] s1] w1]|p]; [|by rewrite HC].
      destruct HC as (nq1 & -> & Hnq1).
      specialize (IH s1 w1 (np + length (comp :: comps))%nat nq1).
      destruct (cost.forResources (Some b) ctx rest s1 w1) as [[[[] s'] w']|p];
        [|exact IH].
      destruct IH as (nq' & -> & Hnq'). exists nq'.
      split; [do 4 f_equal; lia|lia].
Qed.

End Lookups.

(** X20. A build makes exactly one product lookup for each query component
    and at most one price lookup for it, and none for a resource without
    components: counting the lookups of a backend does not change what
    [NewState] returns, and when the build returns, the number of product
    lookups made is the number of query components and the number of price
    lookups is at most that. *)
Theorem NewState_lookups_per_component {B} (b : cost.Backend B) ctx queries (w : B)
    st err w' :
  cost.NewState ctx (Some b) queries w = Done (st, err, w') ->
  exists prices,
    cost.NewState ctx (Some (cost.counted b)) queries (w, (0, 0)%nat) =
    Done (st, err, (w', (length (queries ≫= query.Components), prices))) /\
    (prices <= length (queries ≫= query.Components))%nat.
Proof.
  unfold cost.NewState. intros HN.
  pose proof (forResources_counted b ctx queries (cost.mkState ∅) w 0 0) as HC.
  destruct (cost.forResources (Some b) ctx queries (cost.mkState ∅) w)
    as [[[[] s1] w1]|p]; [|discriminate].
  injection HN as <- <- <-.
  destruct HC as (nq' & -> & Hnq'). exists nq'. split; [reflexivity|lia].
Qed.

(** Three components, one of them without a product: three product lookups
    and two price lookups. *)
Lemma NewState_lookups_per_component_witness :
  exists prices,
    cost.NewState Background (Some (cost.counted sample.memory))
      [sample.compute1; sample.gateway1; sample.database1] (0%nat, (0, 0)%nat) =
    Done (match cost.NewState Background (Some sample.memory)
                  [sample.compute1; sample.gateway1; sample.database1] 0%nat with
          | Done (st, _, _) => st
          | Panicked _ => cost.mkState ∅
          end, None, (5%nat, (3%nat, prices))) /\
    (prices <= 3)%nat.
Proof.
  apply (NewState_lookups_per_component sample.memory Background
           [sample.compute1; sample.gateway1; sample.database1] 0%nat _ None 5%nat).
  vm_compute. reflexivity.
Defined.

(** ** Costs that cannot be negative *)
Section NonNegative.
Context {B : Type}.

Lemma toQ_nonneg (d : Decimal) : 0 <= decimal.value d -> (0 <= decimal.toQ d)%Q.
Proof.
  intros H. unfold decimal.toQ. apply Qmult_le_0_compat.
  - change 0%Q with (inject_Z 0). by rewrite <- Zle_Qle.
  - apply Qpower_0_le. discriminate.
Qed.

Lemma Qsum_nonneg {A} (f : A -> Q) (l : list A) :
  (forall x, x ∈ l -> (0 <= f x)%Q) -> (0 <= cost.Qsum (f <$> l))%Q.
Proof.
  induction l as [|x l IH]; intros H; [apply Qle_refl|].
  rewrite fmap_cons, Qsum_cons.
  apply (Qplus_le_compat 0 (f x) 0);
    [apply H; left|apply IH; intros y Hy; apply H; by right].
Qed.

(** With prices and quantities that are not negative, what the lookups
    yield has a quantity and a rate that are not negative. *)
Lemma lookedUp_nonneg (b : cost.Backend B) ctx comp (w : B) :
  (forall ctx id f w price,
     price ∈ (price.Filter_ (cost.Price b) ctx id f w).1.1 ->
     0 <= decimal.value (price.Value_ price)) ->
  0 <= decimal.value (query.MonthlyQuantity comp) ->
  0 <= decimal.value (query.HourlyQuantity comp) ->
  0 <= decimal.value (cost.Quantity (cost.lookedUp b ctx comp w).1) /\
  0 <= decimal.value (cost.Rate (cost.lookedUp b ctx comp w).1).
Proof.
  intros Hprice Hm Hh. unfold cost.lookedUp.
  destruct (product.Filter_ (cost.Product b) ctx (query.ProductFilter comp) w)
    as [[prods [err|]] w1]; [done|].
  destruct prods as [|prods0 prods]; [done|].
  specialize (Hprice ctx (product.ID prods0) (query.PriceFilter comp) w1).
  destruct (price.Filter_ (cost.Price b) ctx (product.ID prods0)
              (query.PriceFilter comp) w1) as [[prices [err|]] w2]; [done|].
  destruct prices as [|prices0 prices]; [done|].
  specialize (Hprice prices0 ltac:(left)). cbn [fst].
  destruct (decimal.Equals (query.MonthlyQuantity comp) decimal.Zero);
    cbn [cost.Quantity cost.Rate decimal.Mul decimal.value decimal.NewFromInt]; split;
    try done.
  unfold cost.HoursPerMonth. lia.
Qed.

End NonNegative.

(** X21. Costs are not negative when nothing that enters them is: if the
    values of the prices that the catalog returns and the monthly and hourly
    quantities of the query components are not negative, the cost of the
    state that [NewState] returns is not negative. *)
Theorem NewState_cost_not_negative {B} (b : cost.Backend B) ctx queries (w : B) st err w' :
  (forall ctx id f w price,
     price ∈ (price.Filter_ (cost.Price b) ctx id f w).1.1 ->
     0 <= decimal.value (price.Value_ price)) ->
  (forall res comp,
     res ∈ queries -> comp ∈ query.Components res ->
     0 <= decimal.value (query.MonthlyQuantity comp) /\
     0 <= decimal.value (query.HourlyQuantity comp)) ->
  cost.NewState ctx (Some b) queries w = Done (st, err, w') ->
  (0 <= decimal.toQ (cost.Cost st))%Q.
Proof.
  intros Hprice Hq HN.
  assert (Hcomp : forall a l c,
             cost.componentAt st a l = Some c ->
             0 <= decimal.value (cost.Quantity c) /\ 0 <= decimal.value (cost.Rate c)).
  { unfold cost.NewState in HN.
    destruct (cost.forResources (Some b) ctx queries (cost.mkState ∅) w)
      as [[[[] s1] w1]|p] eqn:E; [|discriminate].
    injection HN as <- _ _.
    eapply (forResources_invariant
              (fun _ _ c => 0 <= decimal.value (cost.Quantity c) /\
                            0 <= decimal.value (cost.Rate c))); [| |exact E].
    - intros a l c. unfold cost.componentAt. cbn [cost.Resources].
      by rewrite lookup_empty.
    - intros b' res comp w0 [= <-] Hres Hin.
      destruct (Hq res comp Hres Hin). by apply lookedUp_nonneg. }
  unfold cost.Cost. rewrite toQ_sumCosts, <- !list_fmap_compose.
  apply Qsum_nonneg. intros [a re] Hin. cbn [compose snd].
  rewrite toQ_ResourceCost. unfold cost.resourceTotal. rewrite <- list_fmap_compose.
  apply Qsum_nonneg. intros [l c] Hlc. cbn [compose snd].
  unfold cost.lineTotal. destruct (cost.resolved c); [|apply Qle_refl].
  apply elem_of_map_to_list in Hin.
  destruct (Hcomp a l c) as [H1 H2]; [by eapply componentsOf_componentAt|].
  apply Qmult_le_0_compat; by apply toQ_nonneg.
Qed.

Lemma NewState_cost_not_negative_witness :
  (0 <= decimal.toQ
          (cost.Cost (match cost.NewState Background (Some sample.memory)
                              [sample.compute1; sample.volume1] 0%nat with
                      | Done (st, _, _) => st
                      | Panicked _ => cost.mkState ∅
                      end)))%Q.
Proof.
  apply (NewState_cost_not_negative sample.memory Background
           [sample.compute1; sample.volume1] 0%nat _ None 4%nat).
  - intros ctx id f w price Hin. cbn in Hin. unfold sample.findPrices in Hin.
    destruct (id =? 1); [|destruct (id =? 2)];
      repeat (apply elem_of_cons in Hin as [->|Hin]; [cbn; lia|]);
      by apply elem_of_nil in Hin.
  - intros res comp Hres Hcomp.
    rewrite !elem_of_cons, elem_of_nil in Hres.
    destruct Hres as [->|[->|[]]]; cbn in Hcomp;
      rewrite elem_of_cons, elem_of_nil in Hcomp; destruct Hcomp as [->|[]]; cbn; lia.
  - vm_compute. reflexivity.
Defined.

(** * The builder, from a lookup to the state returned *)

(** ** A run of the build through one query component *)
Section RunThrough.
Context {B : Type}.
Implicit Types (b : cost.Backend B) (s : cost.State) (w : B) (res : query.Resource).
Implicit Types (comp : query.Component).

Lemma lookedUp_product_error b ctx comp w prods err w1 :
  product.Filter_ (cost.Product b) ctx (query.ProductFilter comp) w
    = ((prods, Some err), w1) ->
  cost.lookedUp b ctx comp w = (cost.ComponentError err, w1).
Proof. intros H. unfold cost.lookedUp. by rewrite H. Qed.


Lemma lookedUp_price_error b ctx comp w prods0 prods w1 prices err w2 :
  product.Filter_ (cost.Product b) ctx (query.ProductFilter comp) w
    = ((prods0 :: prods, None), w1) ->
  price.Filter_ (cost.Price b) ctx (product.ID prods0) (query.PriceFilter comp) w1
    = ((prices, Some err), w2) ->
  cost.lookedUp b ctx comp w = (cost.ComponentError err, w2).
Proof. intros H1 H2. unfold cost.lookedUp. by rewrite H1, H2. Qed.


Lemma lookedUp_priced b ctx comp w prods0 prods w1 prices0 prices w2 :
  product.Filter_ (cost.Product b) ctx (query.ProductFilter comp) w
    = ((prods0 :: prods, None), w1) ->
  price.Filter_ (cost.Price b) ctx (product.ID prods0) (query.PriceFilter comp) w1
    = ((prices0 :: prices, None), w2) ->
  cost.lookedUp b ctx comp w =
  (if decimal.Equals (query.MonthlyQuantity comp) decimal.Zero
   then cost.mkComponent (query.HourlyQuantity comp) (query.Unit comp)
          (decimal.Mul (price.Value_ prices0) (decimal.NewFromInt cost.HoursPerMonth))
          (query.Details comp) None
   else cost.mkComponent (query.MonthlyQuantity comp) (query.Unit comp)
          (price.Value_ prices0) (query.Details comp) None,
   w2).
Proof. intros H1 H2. unfold cost.lookedUp. by rewrite H1, H2. Qed.

(** The inner loop leaves alone the labels that are not names of its
    components. *)
Lemma forComponents_keeps_label (backend : option (cost.Backend B)) ctx res comps s w
    u s' w' (l : string) :
  cost.forComponents backend ctx res comps s w = Done (u, s', w') ->
  (forall comp', comp' ∈ comps -> query.Name comp' ≠ l) ->
  cost.componentsIn s' (query.Address res) !! l =
  cost.componentsIn s (query.Address res) !! l.
Proof.
  revert s w. induction comps as [|comp rest IH]; intros s w H Hl.
  - by injection H as _ <- _.
  - cbn [cost.forComponents] in H. unfold mbind, cost.M_bind in H.
    destruct (cost.componentStep backend ctx res comp s w) as [[[[] s1] w1]|p] eqn:E;
      [|discriminate].
    apply componentStep_Done_state in E as (b & _ & _ & _ & ->).
    rewrite (IH _ _ H) by (intros c Hc; apply Hl; by right).
    rewrite componentsIn_insert. apply lookup_insert_ne, Hl. left.
Qed.

Lemma componentsIn_frame s s' (a : string) :
  cost.Resources s' !! a = cost.Resources s !! a ->
  cost.componentsIn s' a = cost.componentsIn s a.
Proof. intros H. unfold cost.componentsIn. by rewrite H. Qed.

(** With pairwise distinct addresses, a build that has reached a query
    component ([pre] and [cpre] behind it, in the state [s2] and the world
    [w2]) inserts what the lookups yield for it, goes on with the components
    and the resources that remain, and returns. *)
Lemma NewState_run_through b ctx queries w pre res post cpre comp cpost s1 w1 s2 w2 :
  NoDup (query.Address <$> queries) ->
  queries = pre ++ res :: post ->
  query.Components res = cpre ++ comp :: cpost ->
  cost.forResources (Some b) ctx pre (cost.mkState ∅) w = Done (tt, s1, w1) ->
  cost.forComponents (Some b) ctx res cpre s1 w1 = Done (tt, s2, w2) ->
  exists s3 s4 w5 st w',
    cost.componentStep (Some b) ctx res comp s2 w2 =
      Done (tt, s3, (cost.lookedUp b ctx comp w2).2) /\
    cost.componentAt s3 (query.Address res) (query.Name comp) =
      Some (cost.lookedUp b ctx comp w2).1 /\
    cost.forComponents (Some b) ctx res cpost s3 (cost.lookedUp b ctx comp w2).2 =
      Done (tt, s4, w5) /\
    cost.forResources (Some b) ctx post s4 w5 = Done (tt, st, w') /\
    cost.NewState ctx (Some b) queries w = Done (st, None, w') /\
    (forall comp', comp' ∈ query.Components res ->
       is_Some (cost.componentAt st (query.Address res) (query.Name comp'))) /\
    (forall res', res' ∈ queries -> is_Some (cost.Resources st !! query.Address res')) /\
    ((forall comp', comp' ∈ cpost -> query.Name comp' ≠ query.Name comp) ->
     cost.componentAt st (query.Address res) (query.Name comp) =
       Some (cost.lookedUp b ctx comp w2).1).
Proof.
  intros Hnd -> Hc Hpre Hcpre.
  rewrite fmap_app, fmap_cons in Hnd.
  apply NoDup_app in Hnd as (Hndpre & Hnotin & Hndpost).
  apply NoDup_cons in Hndpost as [Hnotpost Hndpost].
  (* the address is new when the resource is reached *)
  pose proof (forResources_distinct (Some b) ctx pre (cost.mkState ∅) w Hndpre) as Hfr.
  rewrite Hpre in Hfr.
  assert (Hfresh1 : forall a, a ∉ query.Address <$> pre -> cost.Resources s1 !! a = None).
  { intros a Ha. rewrite Hfr; [apply lookup_empty| |done].
    intros res' _. apply lookup_empty. }
  assert (Hres1 : cost.Resources s1 !! query.Address res = None).
  { apply Hfresh1. intros Hin. apply (Hnotin _ Hin). left. }
  assert (Hw1 : cost.writable s1 (query.Address res)).
  { unfold cost.writable. by rewrite Hres1. }
  (* the components before *)
  pose proof (forComponents_writable (Some b) ctx res cpre s1 w1 Hw1) as Hf2.
  rewrite Hcpre in Hf2. destruct Hf2 as [Hw2 Hframe2].
  pose proof (forComponents_labels (Some b) ctx res cpre s1 w1 tt s2 w2 Hcpre)
    as [Hdom2 _].
  (* the component itself *)
  pose proof (componentStep_lookedUp b ctx res comp s2 w2) as Hstep.
  rewrite (addComponent_writable _ _ _ _ _ Hw2) in Hstep.
  set (c := (cost.lookedUp b ctx comp w2).1) in *.
  set (w4 := (cost.lookedUp b ctx comp w2).2) in *.
  set (s3 := cost.mkState
               (<[query.Address res :=
                    cost.mkResource
                      (Some (<[query.Name comp := c]>
                               (cost.componentsIn s2 (query.Address res))))
                      (cost.skippedAt s2 (query.Address res))]> (cost.Resources s2)))
    in *.
  assert (Hw3 : cost.writable s3 (query.Address res)) by apply writable_insert.
  assert (Hat3 : cost.componentAt s3 (query.Address res) (query.Name comp) = Some c).
  { rewrite componentAt_componentsIn. unfold s3. rewrite componentsIn_insert.
    apply lookup_insert_eq. }
  (* the components after *)
  pose proof (forComponents_writable (Some b) ctx res cpost s3 w4 Hw3) as Hf4.
  destruct (cost.forComponents (Some b) ctx res cpost s3 w4) as [[[[] s4] w5]|p] eqn:E4;
    [|by destruct Hf4].
  destruct Hf4 as [Hw4 Hframe4].
  pose proof (forComponents_labels (Some b) ctx res cpost s3 w4 tt s4 w5 E4)
    as [Hdom4 _].
  (* the resources after *)
  assert (Hother : forall a, a ≠ query.Address res ->
                             cost.Resources s4 !! a = cost.Resources s1 !! a).
  { intros a Ha. rewrite Hframe4 by done. unfold s3. cbn [cost.Resources].
    rewrite lookup_insert_ne by done. by apply Hframe2. }
  pose proof (forResources_distinct (Some b) ctx post s4 w5 Hndpost) as Hf5.
  destruct (cost.forResources (Some b) ctx post s4 w5) as [[[[] st] w']|p] eqn:E5.
  2:{ destruct Hf5 as [_ ?]; [|done].
      intros res' Hin'. rewrite Hother.
      - apply Hfresh1. intros Hin. apply (Hnotin _ Hin). right.
        by apply list_elem_of_fmap_2.
      - intros Heq. apply Hnotpost. rewrite <- Heq. by apply list_elem_of_fmap_2. }
  assert (Hst : cost.Resources st !! query.Address res =
                cost.Resources s4 !! query.Address res).
  { apply Hf5; [|done].
    intros res' Hin'. rewrite Hother.
    - apply Hfresh1. intros Hin. apply (Hnotin _ Hin). right.
      by apply list_elem_of_fmap_2.
    - intros Heq. apply Hnotpost. rewrite <- Heq. by apply list_elem_of_fmap_2. }
  (* the whole run *)
  assert (Hrun : cost.forResources (Some b) ctx (pre ++ res :: post) (cost.mkState ∅) w =
                 Done (tt, st, w')).
  { rewrite forResources_app, Hpre. cbn [cost.forResources].
    unfold mbind, cost.M_bind.
    rewrite resourceStep_components by (rewrite Hc; by destruct cpre).
    rewrite Hc, forComponents_app, Hcpre.
    by rewrite (forComponents_cons_Done _ _ _ _ _ _ _ _ _ Hstep), E4. }
  exists s3, s4, w5, st, w'.
  split; [exact Hstep|]. split; [exact Hat3|]. split; [done|]. split; [done|].
  split; [unfold cost.NewState; by rewrite Hrun|].
  assert (Hin4 : cost.componentsIn st (query.Address res) =
                 cost.componentsIn s4 (query.Address res)) by (by apply componentsIn_frame).
  split; [|split].
  - intros comp' Hin'. rewrite componentAt_componentsIn, Hin4.
    apply elem_of_dom. rewrite Hdom4. unfold s3 at 1. rewrite componentsIn_insert.
    rewrite dom_insert_L, Hdom2.
    rewrite Hc in Hin'. apply elem_of_app in Hin' as [Hin'|Hin'].
    + apply elem_of_union_l, elem_of_union_r, elem_of_union_r, elem_of_list_to_set.
      by apply list_elem_of_fmap_2.
    + apply elem_of_cons in Hin' as [->|Hin'].
      * apply elem_of_union_l, elem_of_union_l. by apply elem_of_singleton.
      * apply elem_of_union_r, elem_of_list_to_set. by apply list_elem_of_fmap_2.
  - intros res' Hin'. apply elem_of_dom.
    rewrite (forResources_dom _ _ _ _ _ _ _ _ Hrun). apply elem_of_union_r.
    apply elem_of_list_to_set. by apply list_elem_of_fmap_2.
  - intros Hlater. rewrite componentAt_componentsIn, Hin4.
    rewrite (forComponents_keeps_label _ _ _ _ _ _ _ _ _ _ E4 Hlater).
    by rewrite <- componentAt_componentsIn.
Qed.

(** With pairwise distinct addresses the build reaches every query
    component of every query resource: the runs behind it return. *)
Lemma NewState_reaches b ctx queries w pre res post cpre comp cpost :
  NoDup (query.Address <$> queries) ->
  queries = pre ++ res :: post ->
  query.Components res = cpre ++ comp :: cpost ->
  exists s1 w1 s2 w2,
    cost.forResources (Some b) ctx pre (cost.mkState ∅) w = Done (tt, s1, w1) /\
    cost.forComponents (Some b) ctx res cpre s1 w1 = Done (tt, s2, w2).
Proof.
  intros Hnd -> Hc.
  rewrite fmap_app, fmap_cons in Hnd.
  apply NoDup_app in Hnd as (Hndpre & Hnotin & _).
  pose proof (forResources_distinct (Some b) ctx pre (cost.mkState ∅) w Hndpre) as Hfr.
  destruct (cost.forResources (Some b) ctx pre (cost.mkState ∅) w)
    as [[[[] s1] w1]|p] eqn:Epre.
  2:{ destruct Hfr as [_ ?]; [|done]. intros res' _. apply lookup_empty. }
  assert (Hres1 : cost.Resources s1 !! query.Address res = None).
  { rewrite Hfr; [apply lookup_empty| |].
    - intros res' _. apply lookup_empty.
    - intros Hin. apply (Hnotin _ Hin). left. }
  assert (Hw1 : cost.writable s1 (query.Address res)).
  { unfold cost.writable. by rewrite Hres1. }
  pose proof (forComponents_writable (Some b) ctx res cpre s1 w1 Hw1) as Hf2.
  destruct (cost.forComponents (Some b) ctx res cpre s1 w1) as [[[[] s2] w2]|p] eqn:E2;
    [|by destruct Hf2].
  by exists s1, w1, s2, w2.
Qed.

End RunThrough.

(** ** Quantity and rate of a priced component *)



(** ** Lookups without a match *)



(** ** Lookups that fail *)

(** C6, as the code has it. Let the addresses of the query resources be
    pairwise distinct, and take any query component of any of the query
    resources. The build reaches it: the resources and the components before
    it are run through, which leaves a state [s2] and a world [w2]. Let its
    product lookup, or its price lookup for the first product found, then
    fail, with the cancellation error of the context or with any other
    error. The build does not report it: that error is recorded on the
    component, as a component that has nothing else; the loop goes on with
    the remaining components of the resource and with the remaining
    resources; and [NewState] returns a state together with a nil error. The
    state has a component for every query component of the resource, a
    resource for every query resource, and the error under the name of the
    component unless a later component of the resource has the same name. *)
Theorem NewState_records_failed_lookup {B} (b : cost.Backend B) ctx queries (w : B)
    pre res post cpre comp cpost :
  NoDup (query.Address <$> queries) ->
  queries = pre ++ res :: post ->
  query.Components res = cpre ++ comp :: cpost ->
  exists s1 w1 s2 w2,
    cost.forResources (Some b) ctx pre (cost.mkState ∅) w = Done (tt, s1, w1) /\
    cost.forComponents (Some b) ctx res cpre s1 w1 = Done (tt, s2, w2) /\
    forall err w4,
      (exists prods,
         product.Filter_ (cost.Product b) ctx (query.ProductFilter comp) w2
           = ((prods, Some err), w4)) \/
      (exists prods0 prods w3 prices,
         product.Filter_ (cost.Product b) ctx (query.ProductFilter comp) w2
           = ((prods0 :: prods, None), w3) /\
         price.Filter_ (cost.Price b) ctx (product.ID prods0) (query.PriceFilter comp) w3
           = ((prices, Some err), w4)) ->
      exists s3 s4 w5 st w',
        cost.componentStep (Some b) ctx res comp s2 w2 = Done (tt, s3, w4) /\
        cost.componentAt s3 (query.Address res) (query.Name comp) =
          Some (cost.ComponentError err) /\
        cost.forComponents (Some b) ctx res cpost s3 w4 = Done (tt, s4, w5) /\
        cost.forResources (Some b) ctx post s4 w5 = Done (tt, st, w') /\
        cost.NewState ctx (Some b) queries w = Done (st, None, w') /\
        (forall comp', comp' ∈ query.Components res ->
           is_Some (cost.componentAt st (query.Address res) (query.Name comp'))) /\
        (forall res', res' ∈ queries ->
           is_Some (cost.Resources st !! query.Address res')) /\
        ((forall comp', comp' ∈ cpost -> query.Name comp' ≠ query.Name comp) ->
         cost.componentAt st (query.Address res) (query.Name comp) =
           Some (cost.ComponentError err)).
Proof.
  intros Hnd Hq Hc.
  destruct (NewState_reaches b ctx queries w pre res post cpre comp cpost Hnd Hq Hc)
    as (s1 & w1 & s2 & w2 & Hpre & Hcpre).
  exists s1, w1, s2, w2. split; [exact Hpre|]. split; [exact Hcpre|].
  intros err w4 Hfail.
  destruct (NewState_run_through b ctx queries w pre res post cpre comp cpost
              s1 w1 s2 w2 Hnd Hq Hc Hpre Hcpre)
    as (s3 & s4 & w5 & st & w' & Hstep & Hat & H4 & H5 & HN & Hsib & Hres & Hfinal).
  assert (Hl : cost.lookedUp b ctx comp w2 = (cost.ComponentError err, w4)).
  { destruct Hfail as [[prods H]|(prods0 & prods & w3 & prices & H1 & H2)].
    - by eapply lookedUp_product_error.
    - by eapply lookedUp_price_error. }
  rewrite Hl in Hstep, Hat, H4, Hfinal. cbn [fst snd] in Hstep, Hat, H4, Hfinal.
  exists s3, s4, w5, st, w'. repeat (split; [done|]). done.
Qed.

(** The signal fires after the first lookup of a build: the price lookup of
    the first resource fails with [Canceled], and so does the product lookup
    of the second. [NewState] returns a state and a nil error; the state has
    the error on the component of the first resource, and the second
    resource is in it. *)
Lemma NewState_records_failed_lookup_witness :
  exists st w',
    cost.NewState (WithCancel Background) (Some sample.cancelling)
      [sample.compute1; sample.volume1] 1%nat = Done (st, None, w') /\
    cost.componentAt st "compute-1" "instance" = Some (cost.ComponentError Canceled) /\
    is_Some (cost.Resources st !! "volume-1").
Proof.
  destruct (NewState_records_failed_lookup sample.cancelling (WithCancel Background)
              [sample.compute1; sample.volume1] 1%nat
              [] sample.compute1 [sample.volume1]
              [] (sample.hourly "instance" "Compute" 1) []
              ltac:(by apply (bool_decide_unpack _)) eq_refl eq_refl)
    as (s1 & w1 & s2 & w2 & Hpre & Hcpre & Hrun).
  vm_compute in Hpre. injection Hpre as Hs1 Hw1. subst s1 w1.
  vm_compute in Hcpre. injection Hcpre as Hs2 Hw2. subst s2 w2.
  destruct (Hrun Canceled 0%nat)
    as (s3 & s4 & w5 & st & w' & _ & _ & _ & _ & HN & _ & Hres & Hfinal).
  { right. exists sample.compute, [sample.computeSpare], 0%nat, []. split; reflexivity. }
  exists st, w'. split; [exact HN|]. split.
  - exact (Hfinal (fun comp' Hin => False_ind _ (proj1 (elem_of_nil comp') Hin))).
  - apply (Hres sample.volume1). apply list_elem_of_further, list_elem_of_here.
Defined.

(** ** The gateway, billed *)
Section GatewayBilled.
Variable float64 : Type.
Variable NewFromFloat : float64 -> Decimal.
Variable getLocationName : string -> string.
Variable getRegionToVNETZone : string -> string.

Local Abbreviation generate p vals :=
  (terraform.Components getRegionToVNETZone
     (terraform.newVirtualNetworkGateway float64 NewFromFloat getLocationName
        (Some p) vals)).

(** The names of the three components, whatever the SKU. *)
Lemma gateway_names (p : terraform.Provider)
    (vals : terraform.virtualNetworkGatewayValues float64) gateway p2s transfer :
  generate p vals = Done [gateway; p2s; transfer] ->
  query.Name gateway = ("VPN gateway (" ++ terraform.SKU float64 vals ++ ")")%string /\
  query.Name p2s = "VPN gateway P2S tunnels (over 128)" /\
  query.Name transfer = "VPN gateway data tranfer" /\
  query.MonthlyQuantity gateway = decimal.zeroValue /\
  query.MonthlyQuantity p2s = decimal.zeroValue /\
  query.HourlyQuantity gateway = decimal.NewFromInt 1 /\
  query.HourlyQuantity p2s = decimal.NewFromInt 1 /\
  query.HourlyQuantity transfer = decimal.zeroValue /\
  query.MonthlyQuantity transfer =
    NewFromFloat (terraform.Usage_MonthlyDataTransferGB float64 vals) /\
  (forall comp, comp ∈ [gateway; p2s; transfer] ->
                query.Unit comp = "" /\ query.Details comp = []).
Proof.
  intros Hgen. destruct (gateway_components _ NewFromFloat getLocationName
                           getRegionToVNETZone p vals) as (meterName & Hgen' & _).
  rewrite Hgen' in Hgen. injection Hgen as <- <- <-.
  do 8 (split; [reflexivity|]). split.
  - unfold terraform.newVirtualNetworkGateway.
    by destruct (String.eqb (terraform.SKU float64 vals) "Basic").
  - intros comp Hin. rewrite !elem_of_cons, elem_of_nil in Hin.
    by destruct Hin as [->|[->|[->|[]]]].
Qed.

Lemma gateway_split (gateway p2s transfer comp : query.Component) cpre cpost :
  [gateway; p2s; transfer] = cpre ++ comp :: cpost ->
  NoDup [query.Name gateway; query.Name p2s; query.Name transfer] ->
  forall comp', comp' ∈ cpost -> query.Name comp' ≠ query.Name comp.
Proof.
  intros Hsplit Hnd comp' Hin Heq.
  change [query.Name gateway; query.Name p2s; query.Name transfer]
    with (query.Name <$> [gateway; p2s; transfer]) in Hnd.
  rewrite Hsplit, fmap_app, fmap_cons in Hnd.
  apply NoDup_app in Hnd as (_ & _ & Hnd). apply NoDup_cons in Hnd as [Hnotin _].
  apply Hnotin. rewrite <- Heq. by apply list_elem_of_fmap_2.
Qed.

Lemma gateway_names_NoDup (p : terraform.Provider)
    (vals : terraform.virtualNetworkGatewayValues float64) gateway p2s transfer :
  generate p vals = Done [gateway; p2s; transfer] ->
  NoDup [query.Name gateway; query.Name p2s; query.Name transfer].
Proof.
  intros Hgen. destruct (gateway_names p vals _ _ _ Hgen) as (-> & -> & -> & _).
  repeat apply NoDup_cons_2; try apply NoDup_nil_2;
    rewrite ?elem_of_cons, ?elem_of_nil; intros H;
    repeat destruct H as [H|H]; try done; simpl in H; discriminate.
Qed.

(** X15. The gateway and the P2S component of a gateway carry no monthly
    quantity, so [NewState] bills them by the hour. Let a query resource
    with the three components of a gateway be among query resources of
    pairwise distinct addresses, and take one of these two components. The
    build reaches it: the resources and the components before it are run
    through, which leaves a state [s2] and a world [w2]. If the catalog then
    has a product and a price for it, [NewState] returns, and the state it
    returns holds under the name of the component a component with quantity
    1 and, as rate, the price of the hour times 730; that component costs
    730 times the price. *)
Theorem gateway_fixed_components_billed_by_the_hour (p : terraform.Provider)
    (vals : terraform.virtualNetworkGatewayValues float64) gateway p2s transfer
    {B} (b : cost.Backend B) ctx queries (w : B) pre res post cpre comp cpost :
  generate p vals = Done [gateway; p2s; transfer] ->
  comp = gateway \/ comp = p2s ->
  NoDup (query.Address <$> queries) ->
  queries = pre ++ res :: post ->
  query.Components res = [gateway; p2s; transfer] ->
  [gateway; p2s; transfer] = cpre ++ comp :: cpost ->
  exists s1 w1 s2 w2,
    cost.forResources (Some b) ctx pre (cost.mkState ∅) w = Done (tt, s1, w1) /\
    cost.forComponents (Some b) ctx res cpre s1 w1 = Done (tt, s2, w2) /\
    forall prods0 prods w3 prices0 prices w4,
      product.Filter_ (cost.Product b) ctx (query.ProductFilter comp) w2
        = ((prods0 :: prods, None), w3) ->
      price.Filter_ (cost.Price b) ctx (product.ID prods0) (query.PriceFilter comp) w3
        = ((prices0 :: prices, None), w4) ->
      exists st w',
        cost.NewState ctx (Some b) queries w = Done (st, None, w') /\
        cost.componentAt st (query.Address res) (query.Name comp) =
          Some (cost.mkComponent (decimal.NewFromInt 1) ""
                  (decimal.Mul (price.Value_ prices0) (decimal.NewFromInt 730))
                  [] None) /\
        (decimal.toQ (cost.ComponentCost
                        (cost.mkComponent (decimal.NewFromInt 1) ""
                           (decimal.Mul (price.Value_ prices0) (decimal.NewFromInt 730))
                           [] None)) ==
         730 * decimal.toQ (price.Value_ prices0))%Q.
Proof.
  intros Hgen Hcomp Hnd Hq Hc Hsplit.
  rewrite Hsplit in Hc.
  destruct (NewState_reaches b ctx queries w pre res post cpre comp cpost Hnd Hq Hc)
    as (s1 & w1 & s2 & w2 & Hpre & Hcpre).
  exists s1, w1, s2, w2. split; [exact Hpre|]. split; [exact Hcpre|].
  intros prods0 prods w3 prices0 prices w4 H1 H2.
  destruct (NewState_run_through b ctx queries w pre res post cpre comp cpost
              s1 w1 s2 w2 Hnd Hq Hc Hpre Hcpre)
    as (s3 & s4 & w5 & st & w' & _ & _ & _ & _ & HN & _ & _ & Hfinal).
  exists st, w'. split; [exact HN|]. split.
  - rewrite Hfinal
      by (by apply (gateway_split gateway p2s transfer comp cpre cpost Hsplit),
                   (gateway_names_NoDup p vals)).
    rewrite (lookedUp_priced _ _ _ _ _ _ _ _ _ _ H1 H2). cbn [fst].
    destruct (gateway_names p vals _ _ _ Hgen)
      as (_ & _ & _ & Hm1 & Hm2 & Hh1 & Hh2 & _ & _ & Hud).
    assert (Hm : query.MonthlyQuantity comp = decimal.zeroValue)
      by (by destruct Hcomp as [-> | ->]).
    assert (Hh : query.HourlyQuantity comp = decimal.NewFromInt 1)
      by (by destruct Hcomp as [-> | ->]).
    destruct (Hud comp) as [-> ->].
    { rewrite !elem_of_cons. destruct Hcomp as [-> | ->]; eauto. }
    by rewrite Hm, Hh.
  - unfold cost.ComponentCost. cbn [cost.Quantity cost.Rate].
    rewrite !toQ_Mul, !toQ_NewFromInt. ring.
Qed.

(** X16. The data transfer component of a gateway is billed by the month
    from the usage estimate. Let a query resource with the three components
    of a gateway be among query resources of pairwise distinct addresses.
    The build reaches the data transfer component: the resources before the
    gateway and its two other components are run through, which leaves a
    state [s2] and a world [w2]. If the catalog then has a product and a
    price for the component, [NewState] returns, and the state it returns
    holds under the name of that component a component
    without an error that costs the estimate times the price: with an
    estimate that is not zero its quantity is the estimate and its rate the
    price; with an estimate of zero the builder falls back to the hourly
    quantity, which this component does not have, and the component has the
    zero quantity at 730 times the price. *)
Theorem gateway_data_transfer_billed_from_usage (p : terraform.Provider)
    (vals : terraform.virtualNetworkGatewayValues float64) gateway p2s transfer
    {B} (b : cost.Backend B) ctx queries (w : B) pre res post :
  generate p vals = Done [gateway; p2s; transfer] ->
  NoDup (query.Address <$> queries) ->
  queries = pre ++ res :: post ->
  query.Components res = [gateway; p2s; transfer] ->
  exists s1 w1 s2 w2,
    cost.forResources (Some b) ctx pre (cost.mkState ∅) w = Done (tt, s1, w1) /\
    cost.forComponents (Some b) ctx res [gateway; p2s] s1 w1 = Done (tt, s2, w2) /\
    forall prods0 prods w3 prices0 prices w4,
      product.Filter_ (cost.Product b) ctx (query.ProductFilter transfer) w2
        = ((prods0 :: prods, None), w3) ->
      price.Filter_ (cost.Price b) ctx (product.ID prods0) (query.PriceFilter transfer) w3
        = ((prices0 :: prices, None), w4) ->
      exists recorded st w',
        cost.NewState ctx (Some b) queries w = Done (st, None, w') /\
        cost.componentAt st (query.Address res) "VPN gateway data tranfer"
          = Some recorded /\
        cost.Error recorded = None /\
        (decimal.toQ (cost.ComponentCost recorded) ==
         decimal.toQ (NewFromFloat (terraform.Usage_MonthlyDataTransferGB float64 vals)) *
         decimal.toQ (price.Value_ prices0))%Q /\
        (decimal.value
           (NewFromFloat (terraform.Usage_MonthlyDataTransferGB float64 vals)) ≠ 0 ->
         cost.Quantity recorded =
           NewFromFloat (terraform.Usage_MonthlyDataTransferGB float64 vals) /\
         cost.Rate recorded = price.Value_ prices0) /\
        (decimal.value
           (NewFromFloat (terraform.Usage_MonthlyDataTransferGB float64 vals)) = 0 ->
         cost.Quantity recorded = decimal.zeroValue /\
         cost.Rate recorded =
           decimal.Mul (price.Value_ prices0) (decimal.NewFromInt 730)).
Proof.
  intros Hgen Hnd Hq Hc.
  destruct (NewState_reaches b ctx queries w pre res post [gateway; p2s] transfer []
              Hnd Hq Hc)
    as (s1 & w1 & s2 & w2 & Hpre & Hcpre).
  exists s1, w1, s2, w2. split; [exact Hpre|]. split; [exact Hcpre|].
  intros prods0 prods w3 prices0 prices w4 H1 H2.
  destruct (NewState_run_through b ctx queries w pre res post [gateway; p2s] transfer []
              s1 w1 s2 w2 Hnd Hq Hc Hpre Hcpre)
    as (s3 & s4 & w5 & st & w' & _ & _ & _ & _ & HN & _ & _ & Hfinal).
  specialize (Hfinal (fun comp' Hin => False_ind _ (proj1 (elem_of_nil comp') Hin))).
  rewrite (lookedUp_priced _ _ _ _ _ _ _ _ _ _ H1 H2) in Hfinal. cbn [fst] in Hfinal.
  destruct (gateway_names p vals _ _ _ Hgen)
    as (_ & _ & Hname & _ & _ & _ & _ & Hh & Hm & _).
  rewrite Hname, Hm, Hh in Hfinal.
  eexists _, st, w'. split; [exact HN|]. split; [exact Hfinal|].
  destruct (decimal.Equals (NewFromFloat (terraform.Usage_MonthlyDataTransferGB float64 vals))
              decimal.Zero) eqn:E;
    unfold cost.ComponentCost; cbn [cost.Error cost.Quantity cost.Rate].
  - apply Equals_Zero in E. split; [done|]. split; [|split; [done|done]].
    rewrite toQ_Mul. apply toQ_zero_iff in E. rewrite E.
    change (decimal.toQ decimal.zeroValue) with (inject_Z 0 * 1)%Q. ring.
  - assert (Hnz : decimal.value
              (NewFromFloat (terraform.Usage_MonthlyDataTransferGB float64 vals)) ≠ 0).
    { intros H. apply Equals_Zero in H. congruence. }
    split; [done|]. split; [apply toQ_Mul|]. split; [done|]. intros H. contradiction.
Qed.

End GatewayBilled.

(** A Basic gateway after a resource without components, with a catalog
    that prices everything at 0.10: the state returned has the gateway
    component with quantity 1 at 730 times 0.10. *)
Lemma gateway_fixed_components_billed_by_the_hour_witness :
  exists st w',
    cost.NewState Background (Some sample.flat) [sample.gateway1; sample.vpn1] tt
      = Done (st, None, w') /\
    cost.componentAt st "vpn-1" "VPN gateway (Basic)" =
      Some (cost.mkComponent (decimal.NewFromInt 1) ""
              (decimal.Mul (decimal.New 10 (-2)) (decimal.NewFromInt 730)) [] None).
Proof.
  destruct (gateway_fixed_components_billed_by_the_hour Z decimal.NewFromInt
              (fun l => l) (fun _ => "Zone 1")
              (terraform.mkProvider "azurerm")
              (terraform.mkValues Z "Basic" "France Central" 120)
              sample.gatewayBase sample.gatewayP2S sample.gatewayTransfer
              sample.flat Background [sample.gateway1; sample.vpn1] tt
              [sample.gateway1] sample.vpn1 []
              [] sample.gatewayBase [sample.gatewayP2S; sample.gatewayTransfer]
              eq_refl (or_introl eq_refl)
              ltac:(by apply (bool_decide_unpack _)) eq_refl eq_refl eq_refl)
    as (s1 & w1 & s2 & w2 & _ & _ & Hrun).
  destruct (Hrun sample.compute [] w2
              (price.mkPrice (decimal.New 10 (-2)) "1 Hour" ∅) [] w2)
    as (st & w' & HN & Hat & _); [by destruct w2|by destruct w2|].
  exists st, w'. split; [exact HN|exact Hat].
Defined.

(** The same gateway with an estimate of 120 GB a month: the state returned
    has the data transfer component with quantity 120 at the price 0.10. *)
Lemma gateway_data_transfer_billed_from_usage_witness :
  exists recorded st w',
    cost.NewState Background (Some sample.flat) [sample.gateway1; sample.vpn1] tt
      = Done (st, None, w') /\
    cost.componentAt st "vpn-1" "VPN gateway data tranfer" = Some recorded /\
    cost.Quantity recorded = decimal.NewFromInt 120 /\
    cost.Rate recorded = decimal.New 10 (-2).
Proof.
  destruct (gateway_data_transfer_billed_from_usage Z decimal.NewFromInt
              (fun l => l) (fun _ => "Zone 1")
              (terraform.mkProvider "azurerm")
              (terraform.mkValues Z "Basic" "France Central" 120)
              sample.gatewayBase sample.gatewayP2S sample.gatewayTransfer
              sample.flat Background [sample.gateway1; sample.vpn1] tt
              [sample.gateway1] sample.vpn1 []
              eq_refl
              ltac:(by apply (bool_decide_unpack _)) eq_refl eq_refl)
    as (s1 & w1 & s2 & w2 & _ & _ & Hrun).
  destruct (Hrun sample.compute [] w2
              (price.mkPrice (decimal.New 10 (-2)) "1 Hour" ∅) [] w2)
    as (recorded & st & w' & HN & Hat & _ & _ & Hnz & _);
    [by destruct w2|by destruct w2|].
  exists recorded, st, w'. split; [exact HN|]. split; [exact Hat|].
  apply Hnz. vm_compute. discriminate.
Defined.

(** ** The insertion on any state *)

(** X2. [addComponent] on any receiver panics in two ways only. It panics
    on the nil pointer, with a nil dereference. On a state it panics with an
    assignment to an entry of a nil map, exactly when the map of resources
    of the state was never allocated, or the address already holds a
    resource whose map of components was never allocated (one stored as
    [Resource{Skipped: true}]); in every other case it returns. On the
    states of the builder, whose map of resources is allocated, it is the
    insertion that [NewState] runs: the same panic, or the same state and an
    untouched world. *)
Theorem addComponent_panics_on_nil_only (a l : string) (c : cost.Component) :
  (forall p, cost.addComponentRaw a l c None = Panicked p <-> p = NilDereference) /\
  (forall (s : cost.RawState) p,
     cost.addComponentRaw a l c (Some s) = Panicked p <->
     p = NilMapWrite /\
     (cost.RawResources s = None \/
      exists resources sk,
        cost.RawResources s = Some resources /\
        resources !! a = Some (cost.mkResource None sk))) /\
  (forall (s : cost.RawState),
     cost.RawResources s <> None ->
     (forall sk, cost.RawResources s ≫= (.!! a) <> Some (cost.mkResource None sk)) ->
     exists s', cost.addComponentRaw a l c (Some s) = Done s' /\
       exists re comps,
         cost.RawResources s' ≫= (.!! a) = Some re /\
         cost.Components re = Some comps /\ comps !! l = Some c) /\
  (forall B (st : cost.State) (w : B),
     match cost.addComponent a l c st w with
     | Done (_, st', w') =>
         cost.addComponentRaw a l c (Some (cost.allocated st)) = Done (cost.allocated st') /\
         w' = w
     | Panicked p =>
         cost.addComponentRaw a l c (Some (cost.allocated st)) = Panicked p
     end).
Proof.
  split; [|split; [|split]].
  - intros p. simpl. split; [by intros [= <-]|by intros ->].
  - intros [[resources|]] p; simpl.
    + destruct (resources !! a) as [[[comps|] sk]|] eqn:Ha; simpl; rewrite ?Ha; simpl.
      * split; [done|]. intros (_ & [?|(? & ? & [= <-] & ?)]); simplify_eq.
      * split.
        -- intros [= <-]. split; [done|]. right. by exists resources, sk.
        -- by intros [-> _].
      * rewrite lookup_insert_eq. simpl.
        split; [done|]. intros (_ & [?|(? & ? & [= <-] & ?)]); simplify_eq.
    + split; [intros [= <-]; eauto|by intros [-> _]].
  - intros [[resources|]] Hsome Hnil; [|done]. simpl in *.
    destruct (resources !! a) as [[[comps|] sk]|] eqn:Ha; simpl; rewrite ?Ha; simpl.
    + eexists. split; [done|]. simpl. rewrite lookup_insert_eq.
      do 2 eexists. split; [done|]. split; [done|]. by rewrite lookup_insert_eq.
    + by destruct (Hnil sk).
    + rewrite lookup_insert_eq. simpl.
      eexists. split; [done|]. simpl. rewrite lookup_insert_eq.
      do 2 eexists. split; [done|]. split; [done|]. by rewrite lookup_insert_eq.
  - intros B [resources] w. unfold cost.addComponent, cost.allocated. simpl.
    destruct (resources !! a) as [[[comps|] sk]|] eqn:Ha; simpl; rewrite ?Ha; simpl.
    + done.
    + done.
    + by rewrite !lookup_insert_eq.
Qed.
